(** * TransBus: seat inventory and booking consistency

    A shallow embedding of the seat ledger and of the checkout handlers of
    [server.js] (and of its older copy [Backend/server.js]), and of the
    reservation store of [models/Booking.js], together with the properties
    the specification states about them.

    Conventions of the embedding:
    - a JavaScript string is a [string] whose characters are UTF-16 code
      units below 256 (the Latin-1 range, which holds the accented letters of
      the city names of the route table);
    - [undefined] (an absent JSON member or query parameter) is [None]; the
      textual members of a request are strings or absent, a seat is a
      number or a string;
    - a JavaScript [Map] is a [gmap], a [Set] is a [gset];
    - a handler is a function from the server state, the request and the
      answers of its collaborators (Stripe, the clock) to the new state, the
      response, and the list of calls it made to Stripe and to the
      persistence module;
    - the message literals of the source are kept as the source file spells
      them; no operation of the program inspects them. *)

From Stdlib Require Import ZArith NArith QArith Qround String Ascii.
From stdpp Require Import base decidable option list gmap sets strings pretty.

Local Open Scope Z_scope.
Local Open Scope string_scope.

(** ** JavaScript primitives *)

Module JS.

(** The code unit of a character. *)
Definition charCode (c : ascii) : N := N_of_ascii c.

(** [WhiteSpace] and [LineTerminator] code units of ECMAScript below 256:
    TAB, LF, VT, FF, CR, SP and NBSP. These are what [String.prototype.trim]
    strips. *)
Definition is_whitespace (c : ascii) : bool :=
  let n := charCode c in
  ((9 <=? n) && (n <=? 13) || (n =? 32) || (n =? 160))%N.

(** A character with a lower-case mapping: A-Z, and the Latin-1 capitals
    U+00C0-U+00DE except the multiplication sign U+00D7. *)
Definition is_upper (c : ascii) : bool :=
  let n := charCode c in
  ((65 <=? n) && (n <=? 90) || (192 <=? n) && (n <=? 222) && negb (n =? 215))%N.

Definition toLowerCase_char (c : ascii) : ascii :=
  if is_upper c then ascii_of_N (charCode c + 32) else c.

(** [String.prototype.toLowerCase]. *)
Fixpoint toLowerCase (s : string) : string :=
  match s with
  | EmptyString => EmptyString
  | String c s' => String (toLowerCase_char c) (toLowerCase s')
  end.

Fixpoint trimStart (s : string) : string :=
  match s with
  | EmptyString => EmptyString
  | String c s' => if is_whitespace c then trimStart s' else s
  end.

Fixpoint trimEnd (s : string) : string :=
  match s with
  | EmptyString => EmptyString
  | String c s' =>
      match trimEnd s' with
      | EmptyString => if is_whitespace c then EmptyString else String c EmptyString
      | t => String c t
      end
  end.

(** [String.prototype.trim]. *)
Definition trim (s : string) : string := trimEnd (trimStart s).

(** The JSON values a seat identifier arrives as: absent, an integer-valued
    number, or a string. *)
Inductive Value : Type :=
  | JUndefined
  | JNum (n : Z)
  | JStr (s : string).

#[global] Instance Value_eq_dec : EqDecision Value.
Proof. solve_decision. Defined.

Definition Value_encode (v : Value) : unit + (Z + string) :=
  match v with
  | JUndefined => inl tt
  | JNum n => inr (inl n)
  | JStr s => inr (inr s)
  end.

Definition Value_decode (x : unit + (Z + string)) : Value :=
  match x with
  | inl _ => JUndefined
  | inr (inl n) => JNum n
  | inr (inr s) => JStr s
  end.

#[global] Instance Value_countable : Countable Value.
Proof.
  apply (inj_countable' Value_encode Value_decode).
  intros []; reflexivity.
Defined.

(** [String(v)]: an integer-valued number prints as its decimal digits (for
    the magnitudes below 10^21 that seat numbers have). *)
Definition String_ (v : Value) : string :=
  match v with
  | JUndefined => "undefined"
  | JNum n => pretty n
  | JStr s => s
  end.

(** Truthiness, as tested by [!v] and [v || d]. *)
Definition truthy (v : Value) : bool :=
  match v with
  | JUndefined => false
  | JNum n => negb (n =? 0)%Z
  | JStr s => negb (String.eqb s "")
  end.

Definition truthy_str (o : option string) : bool :=
  match o with
  | None => false
  | Some s => negb (String.eqb s "")
  end.

(** [${x}] inside a template literal, for a string or [undefined]. *)
Definition interpolate (o : option string) : string := default "undefined" o.

(** [x || d] for a string or [undefined]. *)
Definition or_else (o : option string) (d : string) : string :=
  if truthy_str o then default d o else d.

End JS.

(** ** The seat ledger of [server.js] *)

Module Ledger.
Import JS.

(** [bookedSeatsByRoute]: trip key -> set of seat identifiers. *)
Abbreviation SeatLedger := (gmap string (gset Value)).

(** [getRouteKey] *)
Definition getRouteKey (origen destino fecha horario : option string) : string :=
  toLowerCase (trim (or_else origen "")) +:+ "|" +:+
  toLowerCase (trim (or_else destino "")) +:+ "|" +:+
  interpolate fecha +:+ "|" +:+ interpolate horario.

(** [isSeatBooked] *)
Definition isSeatBooked (booked : SeatLedger)
    (origen destino fecha horario : option string) (asiento : Value) : bool :=
  let key := getRouteKey origen destino fecha horario in
  match booked !! key with
  | Some set => bool_decide (JStr (String_ asiento) ∈ set)
  | None => false
  end.

(** [bookSeat] as [Backend/server.js] has it: create the entry lazily, then
    add the coerced seat to the set stored under the key. The [bookSeat] of
    [server.js] does the same and then calls [saveBookings]
    (see [Server.bookSeat]). *)
Definition bookSeat (booked : SeatLedger)
    (origen destino fecha horario : option string) (asiento : Value) : SeatLedger :=
  let key := getRouteKey origen destino fecha horario in
  let booked1 :=
    match booked !! key with
    | Some _ => booked
    | None => <[key := ∅]> booked
    end in
  alter (λ set, set ∪ {[ JStr (String_ asiento) ]}) key booked1.

(** [occupiedSeats]: what [GET /api/occupied-seats] reads for a key. *)
Definition occupiedSeats (booked : SeatLedger) (key : string) : gset Value :=
  default ∅ (booked !! key).

(** Every member of every occupied-seat set is a string. *)
Definition all_strings (booked : SeatLedger) : Prop :=
  ∀ key set v, booked !! key = Some set → v ∈ set → ∃ s, v = JStr s.

End Ledger.

(** ** JavaScript numbers

    Prices are IEEE doubles in the source. The handlers only move them around
    and apply [x * 100], [Math.round], [x / 100], [toString] and [parseFloat];
    these operations are kept abstract, so that every statement below holds
    for the floating-point operations of the runtime. *)

Class NumberOps (Number : Type) : Type := {
  num_lit : Z → Number;
  num_mul : Number → Number → Number;
  num_div : Number → Number → Number;
  Math_round : Number → Number;
  num_toString : Number → string;
  parseFloat : option string → Number
}.

(** ** The checkout handlers of [server.js] *)

Module Server.
Import JS Ledger.

Section Handlers.
Context {Number : Type} `{NumberOps Number}.

(** *** Route and schedule reference data ([availableRoutes]) *)

Record Schedule : Type := {
  schedule_id : Z;
  time : string;
  arrival : string;
  service : string;
  price : Number
}.

Record Route : Type := {
  duration : string;
  distance : string;
  basePrice : Number;
  schedules : list Schedule
}.

(** *** Tickets ([ticketDatabase]) *)

Record Ticket : Type := {
  t_sessionId : string;
  t_nombre : string;
  t_origen : string;
  t_destino : string;
  t_asiento : string;
  t_horario : string;
  t_fecha : string;
  t_precio : Number;
  t_amountPaid : Number;
  t_currency : string;
  t_createdAt : string;
  t_paymentStatus : string
}.

(** The module-level variables of the server. *)
Record State : Type := {
  availableRoutes : gmap string Route;
  bookedSeatsByRoute : SeatLedger;
  ticketDatabase : gmap string Ticket
}.

(** *** The Stripe collaborator *)

Inductive PaymentMethodOptions : Type :=
  | OxxoOptions (expires_after_days : Z)
  | CustomerBalanceOptions (funding_type bank_transfer_type : string).

(** The argument of [stripe.checkout.sessions.create]. *)
Record SessionConfig : Type := {
  payment_method_types : list string;
  mode : string;
  currency : string;
  product_name : string;
  product_description : string;
  unit_amount : Number;
  quantity : Z;
  success_url : string;
  cancel_url : string;
  metadata : gmap string string;
  customer_email : option string;
  payment_method_options : option PaymentMethodOptions
}.

Inductive CreateResult : Type :=
  | Created (url : string)
  | CreateThrows (message : string).

(** What [stripe.checkout.sessions.retrieve] resolves to. *)
Record Session : Type := {
  session_id : string;
  payment_status : string;
  session_metadata : option (gmap string string);
  amount_total : Number;
  session_currency : string
}.

Inductive RetrieveResult : Type :=
  | Retrieved (session : Session)
  | RetrievedNothing
  | RetrieveThrows.

(** The answers of the outside world during one request. *)
Record Env : Type := {
  stripe_create : SessionConfig → CreateResult;
  stripe_retrieve : string → RetrieveResult;
  now : string;       (* new Date().toISOString() *)
  baseUrl : string    (* FRONTEND_BASE_URL, or protocol and host of the request *)
}.

(** *** Observable behaviour of a handler *)

Inductive Effect : Type :=
  | SaveBookings (booked : SeatLedger)
  | SaveTickets (tickets : gmap string Ticket)
  | StripeCreate (config : SessionConfig)
  | StripeRetrieve (id : string).

Record Boleto : Type := {
  b_nombre : string;
  b_origen : string;
  b_destino : string;
  b_asiento : string;
  b_horario : string;
  b_fecha : string
}.

Inductive Body : Type :=
  | ErrorBody (error : string)
  | UrlBody (url : string)
  | OccupiedBody (occupiedSeats : gset Value)
  | PaidBody (status sessionId : string) (amountTotal : Number)
      (currency : string) (boleto : Boleto)
  | TicketBody (ticket : Ticket)
  | OtherBody.

Record Response : Type := { statusCode : nat; body : Body }.

Record Outcome : Type := {
  state : State;
  response : Response;
  effects : list Effect
}.

Definition respond (st : State) (c : nat) (b : Body) (es : list Effect) : Outcome :=
  {| state := st; response := {| statusCode := c; body := b |}; effects := es |}.

(** [bookSeat] of [server.js]: the mutation, then [saveBookings]. *)
Definition bookSeat (booked : SeatLedger)
    (origen destino fecha horario : option string) (asiento : Value)
    : SeatLedger * list Effect :=
  let booked' := Ledger.bookSeat booked origen destino fecha horario asiento in
  (booked', [SaveBookings booked']).

(** *** [GET /api/occupied-seats] *)

Definition get_occupied_seats (st : State)
    (origen destino fecha horario : option string) : Outcome :=
  if negb (truthy_str origen) || negb (truthy_str destino)
     || negb (truthy_str fecha) || negb (truthy_str horario)
  then respond st 400 (ErrorBody "Faltan parámetros requeridos") []
  else
    let key := getRouteKey origen destino fecha horario in
    respond st 200 (OccupiedBody (occupiedSeats (bookedSeatsByRoute st) key)) [].

(** *** [POST /api/create-checkout-session] *)

Record CheckoutBody : Type := {
  nombre : option string;
  tipoDocumento : option string;
  numeroDocumento : option string;
  origen : option string;
  destino : option string;
  asiento : Value;
  horario : option string;
  fecha : option string;
  precio : option Number;   (* read from the body, never used *)
  email : option string;
  telefono : option string;
  paymentMethod : option string
}.

Definition paymentMethodTypes (paymentMethod : option string) : list string :=
  match paymentMethod with
  | Some "oxxo" => ["oxxo"]
  | Some "spei" => ["customer_balance"]
  | Some "cash" => ["oxxo"]
  | _ => ["card"]
  end.

Definition paymentMethodOptions (paymentMethod : option string)
    : option PaymentMethodOptions :=
  match paymentMethod with
  | Some "spei" => Some (CustomerBalanceOptions "bank_transfer" "mx_bank_transfer")
  | Some "oxxo" | Some "cash" => Some (OxxoOptions 3)
  | _ => None
  end.

(** [finalPrice]: the price of the first schedule at the requested time, or
    the base price of the route. *)
Definition selectedSchedule (routeData : Route) (horario : option string)
    : option Schedule :=
  List.find (λ s, bool_decide (Some (time s) = horario)) (schedules routeData).

Definition finalPrice (routeData : Route) (horario : option string) : Number :=
  match selectedSchedule routeData horario with
  | Some s => price s
  | None => basePrice routeData
  end.

Definition sessionConfig (b : CheckoutBody) (fp : Number) (base : string)
    : SessionConfig :=
  {| payment_method_types := paymentMethodTypes (paymentMethod b);
     mode := "payment";
     currency := "mxn";
     product_name :=
       "TransBus: " +:+ interpolate (origen b) +:+ " → " +:+ interpolate (destino b);
     product_description :=
       "Viaje del " +:+ interpolate (fecha b) +:+ " a las " +:+ interpolate (horario b)
       +:+ " - Asiento " +:+ String_ (asiento b)
       +:+ String "010" "Pasajero: " +:+ interpolate (nombre b)
       +:+ String "010" "Documento: " +:+ interpolate (tipoDocumento b)
       +:+ " " +:+ interpolate (numeroDocumento b);
     unit_amount := Math_round (num_mul fp (num_lit 100));
     quantity := 1;
     success_url := base +:+ "/index.html?success=true&session_id={CHECKOUT_SESSION_ID}";
     cancel_url := base +:+ "/index.html?canceled=true";
     metadata :=
       list_to_map
         [ ("nombre", interpolate (nombre b));
           ("tipoDocumento", or_else (tipoDocumento b) "N/A");
           ("numeroDocumento", interpolate (numeroDocumento b));
           ("origen", interpolate (origen b));
           ("destino", interpolate (destino b));
           ("asiento", String_ (asiento b));
           ("horario", interpolate (horario b));
           ("fecha", interpolate (fecha b));
           ("precio", num_toString fp);
           ("email", or_else (email b) "N/A");
           ("telefono", or_else (telefono b) "N/A");
           ("paymentMethod", or_else (paymentMethod b) "card") ];
     customer_email := if truthy_str (email b) then email b else None;
     payment_method_options := paymentMethodOptions (paymentMethod b) |}.

Definition post_create_checkout_session (st : State) (b : CheckoutBody) (env : Env)
    : Outcome :=
  if negb (truthy_str (nombre b)) || negb (truthy_str (origen b))
     || negb (truthy_str (destino b)) || negb (truthy (asiento b))
     || negb (truthy_str (horario b)) || negb (truthy_str (fecha b))
     || negb (truthy_str (numeroDocumento b))
  then respond st 400
         (ErrorBody "Faltan datos requeridos (nombre, documento, origen, destino, asiento, horario, fecha)") []
  else if isSeatBooked (bookedSeatsByRoute st)
            (origen b) (destino b) (fecha b) (horario b) (asiento b)
  then respond st 409 (ErrorBody "El asiento seleccionado no está disponible") []
  else
    let routeKey := interpolate (origen b) +:+ "-" +:+ interpolate (destino b) in
    match availableRoutes st !! routeKey with
    | None => respond st 400 (ErrorBody "Ruta no válida") []
    | Some routeData =>
        let config := sessionConfig b (finalPrice routeData (horario b)) (baseUrl env) in
        match stripe_create env config with
        | Created url => respond st 200 (UrlBody url) [StripeCreate config]
        | CreateThrows message =>
            respond st 500 (ErrorBody ("Error interno del servidor: " +:+ message))
              [StripeCreate config]
        end
    end.

(** *** [GET /api/checkout/session] *)

Definition field (m : gmap string string) (k : string) : option string := m !! k.

(** [session.metadata || {}] *)
Definition metadata_of (session : Session) : gmap string string :=
  default ∅ (session_metadata session).

(** The members the handler requires of the metadata. *)
Definition metadata_complete (md : gmap string string) : bool :=
  truthy_str (field md "nombre") && truthy_str (field md "origen")
  && truthy_str (field md "destino") && truthy_str (field md "asiento")
  && truthy_str (field md "horario") && truthy_str (field md "fecha").

(** The seat of a session, as the handler passes it to the ledger. *)
Definition session_seat (session : Session) : Value :=
  JStr (interpolate (field (metadata_of session) "asiento")).

Definition session_key (session : Session) : string :=
  let md := metadata_of session in
  getRouteKey (field md "origen") (field md "destino")
    (field md "fecha") (field md "horario").

(** [ticketData] *)
Definition ticketData (session : Session) (createdAt : string) : Ticket :=
  let md := metadata_of session in
  {| t_sessionId := session_id session;
     t_nombre := interpolate (field md "nombre");
     t_origen := interpolate (field md "origen");
     t_destino := interpolate (field md "destino");
     t_asiento := interpolate (field md "asiento");
     t_horario := interpolate (field md "horario");
     t_fecha := interpolate (field md "fecha");
     t_precio := parseFloat (field md "precio");
     t_amountPaid := num_div (amount_total session) (num_lit 100);
     t_currency := session_currency session;
     t_createdAt := createdAt;
     t_paymentStatus := "paid" |}.

(** The body of the answer to a confirmed payment. *)
Definition paid_body (session : Session) : Body :=
  let md := metadata_of session in
  PaidBody "paid" (session_id session) (amount_total session)
    (session_currency session)
    {| b_nombre := interpolate (field md "nombre");
       b_origen := interpolate (field md "origen");
       b_destino := interpolate (field md "destino");
       b_asiento := interpolate (field md "asiento");
       b_horario := interpolate (field md "horario");
       b_fecha := interpolate (field md "fecha") |}.

Definition get_checkout_session (st : State) (query_session_id : option string)
    (env : Env) : Outcome :=
  if negb (truthy_str query_session_id)
  then respond st 400 (ErrorBody "Falta session_id") []
  else
    let id := interpolate query_session_id in
    match stripe_retrieve env id with
    | RetrieveThrows =>
        respond st 500 (ErrorBody "Error verificando el pago") [StripeRetrieve id]
    | RetrievedNothing =>
        respond st 404 (ErrorBody "Sesión no encontrada") [StripeRetrieve id]
    | Retrieved session =>
        if negb (String.eqb (payment_status session) "paid")
        then respond st 402 (ErrorBody "Pago no confirmado") [StripeRetrieve id]
        else
          let md := metadata_of session in
          if negb (metadata_complete md)
          then respond st 500 (ErrorBody "Datos de sesión incompletos") [StripeRetrieve id]
          else
            let '(booked', saved) :=
              if negb (isSeatBooked (bookedSeatsByRoute st)
                         (field md "origen") (field md "destino")
                         (field md "fecha") (field md "horario") (session_seat session))
              then bookSeat (bookedSeatsByRoute st)
                     (field md "origen") (field md "destino")
                     (field md "fecha") (field md "horario") (session_seat session)
              else (bookedSeatsByRoute st, []) in
            let tickets' :=
              <[session_id session := ticketData session (now env)]> (ticketDatabase st) in
            respond
              {| availableRoutes := availableRoutes st;
                 bookedSeatsByRoute := booked';
                 ticketDatabase := tickets' |}
              200 (paid_body session)
              (StripeRetrieve id :: saved ++ [SaveTickets tickets'])
    end.

(** *** [GET /api/ticket/:sessionId] *)

Definition get_ticket (st : State) (sessionId : string) : Outcome :=
  match ticketDatabase st !! sessionId with
  | None => respond st 404 (ErrorBody "Boleto no encontrado") []
  | Some ticket => respond st 200 (TicketBody ticket) []
  end.

(** *** The server as a transition system *)

(** The endpoints of [server.js]. The remaining ones ([/api/routes],
    [/api/cities], [/api/health], the admin listing and statistics, and the
    route and schedule CRUD under [/api/admin/routes]) read the state or
    assign [availableRoutes] only; they appear as one request that installs
    the route table they leave behind. *)
Inductive Request : Type :=
  | GetOccupiedSeats (origen destino fecha horario : option string)
  | PostCreateCheckoutSession (b : CheckoutBody)
  | GetCheckoutSession (query_session_id : option string)
  | GetTicket (sessionId : string)
  | OtherEndpoint (routes : gmap string Route) (status : nat).

Definition handle (st : State) (req : Request) (env : Env) : Outcome :=
  match req with
  | GetOccupiedSeats o d f h => get_occupied_seats st o d f h
  | PostCreateCheckoutSession b => post_create_checkout_session st b env
  | GetCheckoutSession id => get_checkout_session st id env
  | GetTicket id => get_ticket st id
  | OtherEndpoint routes status =>
      respond {| availableRoutes := routes;
                 bookedSeatsByRoute := bookedSeatsByRoute st;
                 ticketDatabase := ticketDatabase st |}
        status OtherBody []
  end.

(** Requests are served one after the other: past its single [await] on
    Stripe, whose answer is in [Env], a handler runs to completion on the
    event loop. An arrival order is a list of requests. *)
Fixpoint run (st : State) (reqs : list (Request * Env)) : State * list Outcome :=
  match reqs with
  | [] => (st, [])
  | (req, env) :: rest =>
      let o := handle st req env in
      let '(st', os) := run (state o) rest in
      (st', o :: os)
  end.

(** The observations the specification distinguishes for a confirmation. *)
Definition is_paid (o : Outcome) : bool :=
  match body (response o) with
  | PaidBody _ _ _ _ _ => (statusCode (response o) =? 200)%nat
  | _ => false
  end.

Definition claimed_seat (o : Outcome) : bool :=
  existsb (λ e, match e with SaveBookings _ => true | _ => false end) (effects o).

End Handlers.

Arguments Schedule : clear implicits.
Arguments Route : clear implicits.
Arguments Ticket : clear implicits.
Arguments State : clear implicits.
Arguments SessionConfig : clear implicits.
Arguments Session : clear implicits.
Arguments RetrieveResult : clear implicits.
Arguments Env : clear implicits.
Arguments Effect : clear implicits.
Arguments Body : clear implicits.
Arguments Response : clear implicits.
Arguments Outcome : clear implicits.
Arguments CheckoutBody : clear implicits.
Arguments Request : clear implicits.

End Server.

(** ** The reservation store of [models/Booking.js] *)

Module BookingModel.
Import JS.

Record Booking : Type := {
  id : Value;
  referencia : string;
  nombre : option string;
  email : option string;
  telefono : option string;
  origen : option string;
  destino : option string;
  routeId : Value;
  asiento : Value;
  horario : option string;
  fecha : option string;
  precio : Value;
  estado : string;
  fechaCreacion : string;
  fechaActualizacion : string;
  version : Z;
  motivoCancelacion : option string;
  fechaCancelacion : option string;
  paymentSessionId : option string;
  fechaConfirmacion : option string;
  fechaCompletada : option string
}.

(** The [bookingData] argument of [createBooking]. Its members are spread
    over [id] and [referencia], so when it carries them they win. *)
Record BookingData : Type := {
  bd_id : option Value;
  bd_referencia : option string;
  bd_nombre : option string;
  bd_email : option string;
  bd_telefono : option string;
  bd_origen : option string;
  bd_destino : option string;
  bd_routeId : Value;
  bd_asiento : Value;
  bd_horario : option string;
  bd_fecha : option string;
  bd_precio : Value;
  bd_estado : option string
}.

(** The [updateData] argument of [updateBooking]: the members the callers
    of this file pass. [None] is an absent member. *)
Record UpdateData : Type := {
  u_estado : option string;
  u_motivoCancelacion : option string;
  u_fechaCancelacion : option string;
  u_paymentSessionId : option string;
  u_fechaConfirmacion : option string;
  u_fechaCompletada : option string
}.

(** The static members [bookings] and [nextId]. *)
Record Store : Type := {
  bookings : gmap string Booking;
  nextId : Z
}.

Definition clearAll : Store := {| bookings := ∅; nextId := 1 |}.

(** [createBooking]. [ref] is what [generateReference] draws from the clock
    and [Math.random]; the two dates are the two readings of the clock. *)
Definition createBooking (st : Store) (data : BookingData)
    (ref now1 now2 : string) : Store * Booking :=
  let booking :=
    {| id := default (JNum (nextId st)) (bd_id data);
       referencia := default ref (bd_referencia data);
       nombre := bd_nombre data;
       email := bd_email data;
       telefono := bd_telefono data;
       origen := bd_origen data;
       destino := bd_destino data;
       routeId := bd_routeId data;
       asiento := bd_asiento data;
       horario := bd_horario data;
       fecha := bd_fecha data;
       precio := bd_precio data;
       estado := or_else (bd_estado data) "pendiente";
       fechaCreacion := now1;
       fechaActualizacion := now2;
       version := 1;
       motivoCancelacion := None;
       fechaCancelacion := None;
       paymentSessionId := None;
       fechaConfirmacion := None;
       fechaCompletada := None |} in
  ({| bookings := <[ref := booking]> (bookings st); nextId := nextId st + 1 |},
   booking).

Definition getBookingByReference (st : Store) (ref : string) : option Booking :=
  bookings st !! ref.

Definition override {A} (new : option A) (old : option A) : option A :=
  match new with Some _ => new | None => old end.

(** [updateBooking] *)
Definition updateBooking (st : Store) (ref : string) (upd : UpdateData)
    (now : string) : Store * option Booking :=
  match bookings st !! ref with
  | None => (st, None)
  | Some booking =>
      let updatedBooking :=
        {| id := id booking;
           referencia := referencia booking;
           nombre := nombre booking;
           email := email booking;
           telefono := telefono booking;
           origen := origen booking;
           destino := destino booking;
           routeId := routeId booking;
           asiento := asiento booking;
           horario := horario booking;
           fecha := fecha booking;
           precio := precio booking;
           estado := default (estado booking) (u_estado upd);
           fechaCreacion := fechaCreacion booking;
           fechaActualizacion := now;
           version := version booking + 1;
           motivoCancelacion :=
             override (u_motivoCancelacion upd) (motivoCancelacion booking);
           fechaCancelacion :=
             override (u_fechaCancelacion upd) (fechaCancelacion booking);
           paymentSessionId :=
             override (u_paymentSessionId upd) (paymentSessionId booking);
           fechaConfirmacion :=
             override (u_fechaConfirmacion upd) (fechaConfirmacion booking);
           fechaCompletada :=
             override (u_fechaCompletada upd) (fechaCompletada booking) |} in
      ({| bookings := <[ref := updatedBooking]> (bookings st);
          nextId := nextId st |},
       Some updatedBooking)
  end.

(** The test inside the loop of [isSeatAvailable]. *)
Definition holds_seat (r a : Value) (f : option string) (booking : Booking) : bool :=
  bool_decide (routeId booking = r) && bool_decide (asiento booking = a)
  && bool_decide (fecha booking = f)
  && negb (String.eqb (estado booking) "cancelada").

(** [isSeatAvailable] *)
Definition isSeatAvailable (st : Store) (r a : Value) (f : option string) : bool :=
  negb (existsb (holds_seat r a f) (map_to_list (bookings st)).*2).

(** [cancelBooking]. [None] is the [null] it returns. *)
Definition cancelBooking (st : Store) (ref : string) (motivo : option string)
    (now1 now2 : string) : Store * option Booking :=
  match bookings st !! ref with
  | None => (st, None)
  | Some booking =>
      if String.eqb (estado booking) "cancelada" then (st, None)
      else
        updateBooking st ref
          {| u_estado := Some "cancelada";
             u_motivoCancelacion := Some (default "Cancelación solicitada" motivo);
             u_fechaCancelacion := Some now1;
             u_paymentSessionId := None;
             u_fechaConfirmacion := None;
             u_fechaCompletada := None |}
          now2
  end.

(** [confirmBooking] *)
Definition confirmBooking (st : Store) (ref : string) (session : option string)
    (now1 now2 : string) : Store * option Booking :=
  updateBooking st ref
    {| u_estado := Some "confirmada";
       u_motivoCancelacion := None;
       u_fechaCancelacion := None;
       u_paymentSessionId := session;
       u_fechaConfirmacion := Some now1;
       u_fechaCompletada := None |}
    now2.

(** The claim of a seat, as [BookingController.createBooking] performs it
    once the request is validated and its route found: the availability
    test, then [createBooking] on the data with [estado] set to pending.
    [ctl_ref] is the reference the controller generates and spreads into the
    data; [ref] is the one [createBooking] draws and files the reservation
    under. *)
Inductive ClaimResult : Type :=
  | Claimed (booking : Booking)
  | SeatUnavailable.

Definition claim (st : Store) (data : BookingData)
    (ctl_ref ref now1 now2 : string) : Store * ClaimResult :=
  if negb (isSeatAvailable st (bd_routeId data) (bd_asiento data) (bd_fecha data))
  then (st, SeatUnavailable)
  else
    let newBooking :=
      {| bd_id := bd_id data;
         bd_referencia := Some ctl_ref;
         bd_nombre := bd_nombre data;
         bd_email := bd_email data;
         bd_telefono := bd_telefono data;
         bd_origen := bd_origen data;
         bd_destino := bd_destino data;
         bd_routeId := bd_routeId data;
         bd_asiento := bd_asiento data;
         bd_horario := bd_horario data;
         bd_fecha := bd_fecha data;
         bd_precio := bd_precio data;
         bd_estado := Some "pendiente" |} in
    let '(st', created) := createBooking st newBooking ref now1 now2 in
    (st', Claimed created).

End BookingModel.

(** ** The handlers of [Backend/server.js]

    The older copy of the server keeps the same ledger and ticket maps in
    memory only: its [bookSeat] is [Ledger.bookSeat] and nothing is written
    to disk. Its purchase handler does not ask for a document number, takes
    cards only and charges in dollars. *)

Module Backend.
Import JS Ledger Server.

Section Handlers.
Context {Number : Type} `{NumberOps Number}.

Definition sessionConfig (b : CheckoutBody Number) (fp : Number) (base : string)
    : SessionConfig Number :=
  {| payment_method_types := ["card"];
     mode := "payment";
     currency := "usd";
     product_name :=
       "TransBus: " +:+ interpolate (origen b) +:+ " → " +:+ interpolate (destino b);
     product_description :=
       "Viaje del " +:+ interpolate (fecha b) +:+ " a las " +:+ interpolate (horario b)
       +:+ " - Asiento " +:+ String_ (asiento b);
     unit_amount := Math_round (num_mul fp (num_lit 100));
     quantity := 1;
     success_url := base +:+ "/index.html?success=true&session_id={CHECKOUT_SESSION_ID}";
     cancel_url := base +:+ "/index.html?canceled=true";
     metadata :=
       list_to_map
         [ ("nombre", interpolate (nombre b));
           ("origen", interpolate (origen b));
           ("destino", interpolate (destino b));
           ("asiento", String_ (asiento b));
           ("horario", interpolate (horario b));
           ("fecha", interpolate (fecha b));
           ("precio", num_toString fp) ];
     customer_email := if truthy_str (email b) then email b else None;
     payment_method_options := None |}.

Definition post_create_checkout_session (st : State Number) (b : CheckoutBody Number) (env : Env Number)
    : Outcome Number :=
  if negb (truthy_str (nombre b)) || negb (truthy_str (origen b))
     || negb (truthy_str (destino b)) || negb (truthy (asiento b))
     || negb (truthy_str (horario b)) || negb (truthy_str (fecha b))
  then respond st 400 (ErrorBody "Faltan datos requeridos") []
  else if isSeatBooked (bookedSeatsByRoute st)
            (origen b) (destino b) (fecha b) (horario b) (asiento b)
  then respond st 409 (ErrorBody "El asiento seleccionado no está disponible") []
  else
    let routeKey := interpolate (origen b) +:+ "-" +:+ interpolate (destino b) in
    match availableRoutes st !! routeKey with
    | None => respond st 400 (ErrorBody "Ruta no válida") []
    | Some routeData =>
        let config := sessionConfig b (finalPrice routeData (horario b)) (baseUrl env) in
        match stripe_create env config with
        | Created url => respond st 200 (UrlBody url) [StripeCreate config]
        | CreateThrows _ =>
            respond st 500 (ErrorBody "Error interno del servidor") [StripeCreate config]
        end
    end.

Definition get_checkout_session (st : State Number) (query_session_id : option string)
    (env : Env Number) : Outcome Number :=
  if negb (truthy_str query_session_id)
  then respond st 400 (ErrorBody "Falta session_id") []
  else
    let id := interpolate query_session_id in
    match stripe_retrieve env id with
    | RetrieveThrows =>
        respond st 500 (ErrorBody "Error verificando el pago") [StripeRetrieve id]
    | RetrievedNothing =>
        respond st 404 (ErrorBody "Sesión no encontrada") [StripeRetrieve id]
    | Retrieved session =>
        if negb (String.eqb (payment_status session) "paid")
        then respond st 402 (ErrorBody "Pago no confirmado") [StripeRetrieve id]
        else
          let md := metadata_of session in
          if negb (metadata_complete md)
          then respond st 500 (ErrorBody "Datos de sesión incompletos") [StripeRetrieve id]
          else
            let booked' :=
              if negb (isSeatBooked (bookedSeatsByRoute st)
                         (field md "origen") (field md "destino")
                         (field md "fecha") (field md "horario") (session_seat session))
              then Ledger.bookSeat (bookedSeatsByRoute st)
                     (field md "origen") (field md "destino")
                     (field md "fecha") (field md "horario") (session_seat session)
              else bookedSeatsByRoute st in
            respond
              {| availableRoutes := availableRoutes st;
                 bookedSeatsByRoute := booked';
                 ticketDatabase :=
                   <[session_id session := ticketData session (now env)]>
                     (ticketDatabase st) |}
              200 (paid_body session) [StripeRetrieve id]
    end.

End Handlers.
End Backend.

(** ** Concrete data

    An exact-arithmetic reading of the number operations, which agrees with
    the doubles of the runtime on the whole-number prices used below, and the
    route table that [Backend/server.js] hard-codes. *)

Module Example.
Import JS Ledger Server.

Inductive Num : Type :=
  | NaN
  | Fin (q : Q).

Definition lift2 (f : Q → Q → Q) (a b : Num) : Num :=
  match a, b with
  | Fin x, Fin y => Fin (Qred (f x y))
  | _, _ => NaN
  end.

Definition digit (c : ascii) : option Z :=
  let n := charCode c in
  if ((48 <=? n) && (n <=? 57))%N then Some (Z.of_N n - 48) else None.

Fixpoint digits (s : string) (acc : Z) : option Z :=
  match s with
  | EmptyString => Some acc
  | String c s' =>
      match digit c with
      | Some d => digits s' (10 * acc + d)
      | None => None
      end
  end.

#[global] Instance exact_ops : NumberOps Num := {|
  num_lit z := Fin (inject_Z z);
  num_mul := lift2 Qmult;
  num_div a b :=
    match b with
    | Fin y => if Qeq_bool y 0 then NaN else lift2 Qdiv a b
    | NaN => NaN
    end;
  Math_round a :=
    match a with
    | Fin x => Fin (inject_Z (Qfloor (x + (1 # 2))))
    | NaN => NaN
    end;
  num_toString a :=
    match a with
    | Fin x =>
        let r := Qred x in
        if (Qden r =? 1)%positive then pretty (Qnum r)
        else pretty (Qnum r) +:+ "/" +:+ pretty (Zpos (Qden r))
    | NaN => "NaN"
    end;
  parseFloat o :=
    match o with
    | Some (String c s) =>
        match digits (String c s) 0 with
        | Some z => Fin (inject_Z z)
        | None => NaN
        end
    | _ => NaN
    end
|}.

Definition pesos (z : Z) : Num := Fin (inject_Z z).

Definition schedule (i : Z) (t a ty : string) (p : Z) : Schedule Num :=
  {| schedule_id := i; time := t; arrival := a; service := ty; price := pesos p |}.

(** "Ciudad de México": the accented letter is the code unit 233. *)
Definition cdmx : string := "Ciudad de M" +:+ String (ascii_of_N 233) "xico".

Definition routes : gmap string (Route Num) :=
  list_to_map
    [ (cdmx +:+ "-Guadalajara",
       {| duration := "7h 30m"; distance := "550 km"; basePrice := pesos 25;
          schedules :=
            [ schedule 1 "06:00" "13:30" "Ejecutivo" 25;
              schedule 2 "10:00" "17:30" "Primera Clase" 30;
              schedule 3 "14:00" "21:30" "Ejecutivo" 25;
              schedule 4 "20:00" "03:30+1" "Primera Clase" 30 ] |});
      (cdmx +:+ "-Monterrey",
       {| duration := "9h 15m"; distance := "920 km"; basePrice := pesos 35;
          schedules :=
            [ schedule 5 "08:00" "17:15" "Ejecutivo" 35;
              schedule 6 "16:00" "01:15+1" "Primera Clase" 40;
              schedule 7 "22:00" "07:15+1" "Ejecutivo" 35 ] |});
      ("Guadalajara-" +:+ cdmx,
       {| duration := "7h 30m"; distance := "550 km"; basePrice := pesos 25;
          schedules :=
            [ schedule 8 "07:00" "14:30" "Primera Clase" 30;
              schedule 9 "11:00" "18:30" "Ejecutivo" 25;
              schedule 10 "19:00" "02:30+1" "Primera Clase" 30 ] |}) ].

(** The server right after start-up, with nothing sold. *)
Definition fresh : State Num :=
  {| availableRoutes := routes; bookedSeatsByRoute := ∅; ticketDatabase := ∅ |}.

(** A purchase request for a seat of the departure at [t] from Ciudad de
    México to Guadalajara on 2024-01-15, with the price the client asserts. *)
Definition request (who : string) (seat : Value) (t : string) (asserted : option Num)
    : CheckoutBody Num :=
  {| nombre := Some who; tipoDocumento := Some "INE"; numeroDocumento := Some "A1";
     origen := Some cdmx; destino := Some "Guadalajara"; asiento := seat;
     horario := Some t; fecha := Some "2024-01-15"; precio := asserted;
     email := None; telefono := None; paymentMethod := None |}.

(** The session Stripe holds once the customer [who] has paid for [seat]. *)
Definition paid_session (sid who seat : string) : Session Num :=
  {| session_id := sid;
     payment_status := "paid";
     session_metadata :=
       Some (list_to_map
               [ ("nombre", who); ("origen", cdmx); ("destino", "Guadalajara");
                 ("asiento", seat); ("horario", "10:00"); ("fecha", "2024-01-15");
                 ("precio", "30") ]);
     amount_total := pesos 3000;
     session_currency := "mxn" |}.

(** Stripe with two paid sessions for the same seat, [cs_1] and [cs_2]. *)
Definition stripe (clock : string) : Env Num :=
  {| stripe_create := λ _, Created "https://checkout.stripe.com/pay/cs_new";
     stripe_retrieve := λ id,
       if String.eqb id "cs_1" then Retrieved (paid_session "cs_1" "Ana" "12")
       else if String.eqb id "cs_2" then Retrieved (paid_session "cs_2" "Luis" "12")
       else RetrieveThrows;
     now := clock;
     baseUrl := "http://localhost:4242" |}.

(** The server once [cs_2] has been confirmed: seat 12 of the 10:00
    departure belongs to Luis. *)
Definition sold : State Num :=
  state (get_checkout_session fresh (Some "cs_2") (stripe "2024-01-10T09:00:00.000Z")).

(** A reservation request for seat 12 of schedule 2. *)
Definition reservation (who : string) : BookingModel.BookingData :=
  {| BookingModel.bd_id := None;
     BookingModel.bd_referencia := None;
     BookingModel.bd_nombre := Some who;
     BookingModel.bd_email := Some "ana@example.com";
     BookingModel.bd_telefono := Some "5512345678";
     BookingModel.bd_origen := Some cdmx;
     BookingModel.bd_destino := Some "Guadalajara";
     BookingModel.bd_routeId := JNum 2;
     BookingModel.bd_asiento := JNum 12;
     BookingModel.bd_horario := Some "10:00";
     BookingModel.bd_fecha := Some "2024-01-15";
     BookingModel.bd_precio := JNum 30;
     BookingModel.bd_estado := None |}.

Definition ana : Session Num := paid_session "cs_1" "Ana" "12".
Definition luis : Session Num := paid_session "cs_2" "Luis" "12".
Definition later : Env Num := stripe "2024-01-10T09:05:00.000Z".
Definition much_later : Env Num := stripe "2024-01-10T09:30:00.000Z".

Definition guadalajara_route : Route Num :=
  {| duration := "7h 30m"; distance := "550 km"; basePrice := pesos 25;
     schedules :=
       [ schedule 1 "06:00" "13:30" "Ejecutivo" 25;
         schedule 2 "10:00" "17:30" "Primera Clase" 30;
         schedule 3 "14:00" "21:30" "Ejecutivo" 25;
         schedule 4 "20:00" "03:30+1" "Primera Clase" 30 ] |}.

(** A request for Luis's seat that lacks the passenger name. *)
Definition anonymous : CheckoutBody Num :=
  {| nombre := None; tipoDocumento := None; numeroDocumento := Some "A1";
     origen := Some cdmx; destino := Some "Guadalajara"; asiento := JNum 12;
     horario := Some "10:00"; fecha := Some "2024-01-15"; precio := None;
     email := None; telefono := None; paymentMethod := None |}.

End Example.

(** ** Vocabulary of the specification *)

Module Spec.
Import JS Ledger.

(** Two characters that are the same letter, possibly in different case. *)
Definition same_letter (a b : ascii) : Prop :=
  a = b ∨ toLowerCase_char a = b ∨ a = toLowerCase_char b.

(** Two strings that differ only by letter case. *)
Inductive differ_by_case : string → string → Prop :=
  | dbc_nil : differ_by_case "" ""
  | dbc_cons a b s t :
      same_letter a b → differ_by_case s t →
      differ_by_case (String a s) (String b t).

Fixpoint all_whitespace (s : string) : bool :=
  match s with
  | EmptyString => true
  | String c s' => is_whitespace c && all_whitespace s'
  end.

(** The same relation as a test, to run on examples. *)
Fixpoint differ_by_caseb (s t : string) : bool :=
  match s, t with
  | EmptyString, EmptyString => true
  | String a s', String b t' =>
      (bool_decide (a = b) || bool_decide (toLowerCase_char a = b)
       || bool_decide (a = toLowerCase_char b))
      && differ_by_caseb s' t'
  | _, _ => false
  end.

(** Two strings that differ only by letter case and by leading and trailing
    whitespace. *)
Definition variant (s t : string) : Prop :=
  ∃ l1 r1 l2 r2 c1 c2,
    all_whitespace l1 = true ∧ all_whitespace r1 = true ∧
    all_whitespace l2 = true ∧ all_whitespace r2 = true ∧
    s = l1 +:+ c1 +:+ r1 ∧ t = l2 +:+ c2 +:+ r2 ∧ differ_by_case c1 c2.

Section Checkout.
Context {Number : Type} `{NumberOps Number}.
Import Server.

(** The same purchase request with another client-asserted price. *)
Definition with_precio (p : option Number) (b : CheckoutBody Number)
    : CheckoutBody Number :=
  {| nombre := nombre b; tipoDocumento := tipoDocumento b;
     numeroDocumento := numeroDocumento b; origen := origen b;
     destino := destino b; asiento := asiento b; horario := horario b;
     fecha := fecha b; precio := p; email := email b; telefono := telefono b;
     paymentMethod := paymentMethod b |}.

(** A purchase request that carries every member the handler requires. *)
Definition required_fields (b : CheckoutBody Number) : bool :=
  truthy_str (nombre b) && truthy_str (origen b) && truthy_str (destino b)
  && truthy (asiento b) && truthy_str (horario b) && truthy_str (fecha b)
  && truthy_str (numeroDocumento b).

Definition seat_taken (st : State Number) (b : CheckoutBody Number) : bool :=
  isSeatBooked (bookedSeatsByRoute st)
    (origen b) (destino b) (fecha b) (horario b) (asiento b).

Definition routeKey (b : CheckoutBody Number) : string :=
  interpolate (origen b) +:+ "-" +:+ interpolate (destino b).

(** The early occupancy guard as the specification words it: whatever else
    the request holds, an occupied seat is answered with 409, no call to
    Stripe and no change of state. *)
Definition occupied_is_conflict (st : State Number) (b : CheckoutBody Number)
    (env : Env Number) : Prop :=
  seat_taken st b = true →
  let o := post_create_checkout_session st b env in
  statusCode (response o) = 409%nat ∧ effects o = [] ∧ state o = st.

(** Fare resolution as the specification words it: a known route without a
    schedule at the requested time is refused like an unknown route. *)
Definition no_schedule_is_not_found (st : State Number) (b : CheckoutBody Number)
    (env : Env Number) : Prop :=
  ∀ route,
    required_fields b = true → seat_taken st b = false →
    availableRoutes st !! routeKey b = Some route →
    selectedSchedule route (horario b) = None →
    post_create_checkout_session st b env
    = respond st 400 (ErrorBody "Ruta no válida") [].

(** What a confirmation of a paid session with complete metadata leaves
    behind: the seat in the ledger, the ticket under the id of the session,
    the answer 200 "paid". The ledger is written to disk only when the seat
    was not yet in it. *)
Definition confirmed (st : State Number) (id : string) (session : Session Number)
    (createdAt : string) : Outcome Number :=
  let md := metadata_of session in
  let booked' :=
    Ledger.bookSeat (bookedSeatsByRoute st)
      (field md "origen") (field md "destino")
      (field md "fecha") (field md "horario") (session_seat session) in
  let tickets' :=
    <[session_id session := ticketData session createdAt]> (ticketDatabase st) in
  respond
    {| availableRoutes := availableRoutes st;
       bookedSeatsByRoute := booked';
       ticketDatabase := tickets' |}
    200 (paid_body session)
    (StripeRetrieve id ::
     (if isSeatBooked (bookedSeatsByRoute st)
           (field md "origen") (field md "destino")
           (field md "fecha") (field md "horario") (session_seat session)
      then [] else [SaveBookings booked'])
     ++ [SaveTickets tickets']).

(** A confirmation request whose session Stripe reports as paid, with
    complete metadata. *)
Definition paid_request (qid : option string) (env : Env Number)
    (session : Session Number) : Prop :=
  truthy_str qid = true ∧
  stripe_retrieve env (interpolate qid) = Retrieved session ∧
  payment_status session = "paid" ∧
  metadata_complete (metadata_of session) = true.

(** An attempt to claim seat [s] of trip [k]: a confirmation of a paid
    session for that trip and seat. *)
Definition claim_attempt (k s : string) (a : option string * Env Number) : Prop :=
  ∃ session, paid_request a.1 a.2 session ∧
    session_key session = k ∧ session_seat session = JStr s.

Definition confirmations (attempts : list (option string * Env Number))
    : list (Request Number * Env Number) :=
  map (λ a, (GetCheckoutSession a.1, a.2)) attempts.

End Checkout.

End Spec.

(** ** The administration of routes and schedules in [server.js]

    The handlers under [/api/admin/routes]. The members of their JSON bodies
    are typed as the administration panel sends them: texts as strings,
    prices as numbers, a schedule as an object with its time, arrival, type
    and price. [availableRoutes] is a plain object: for a key that names a
    member of [Object.prototype] a lookup finds that member, not a route;
    the handlers that take the key from the URL are left undefined ([None])
    on those twelve names. A key built as origin, hyphen, destination is
    never one of them. *)

Module Admin.
Import JS Ledger Server.

Definition decimal_digit (c : ascii) : option Z :=
  let n := charCode c in
  if ((48 <=? n) && (n <=? 57))%N then Some (Z.of_N n - 48) else None.

Definition hex_digit (c : ascii) : option Z :=
  let n := charCode c in
  if ((48 <=? n) && (n <=? 57))%N then Some (Z.of_N n - 48)
  else if ((65 <=? n) && (n <=? 70))%N then Some (Z.of_N n - 55)
  else if ((97 <=? n) && (n <=? 102))%N then Some (Z.of_N n - 87)
  else None.

(** The longest prefix of digits, read in the radix; [acc] is [None] as long
    as no digit was read. *)
Fixpoint parse_digits (digit : ascii → option Z) (radix : Z) (s : string)
    (acc : option Z) : option Z :=
  match s with
  | EmptyString => acc
  | String c s' =>
      match digit c with
      | Some d => parse_digits digit radix s' (Some (radix * default 0 acc + d))
      | None => acc
      end
  end.

(** The sign of a numeric string and what follows it. *)
Definition strip_sign (s : string) : bool * string :=
  match s with
  | String c r =>
      if Ascii.eqb c "-" then (true, r)
      else if Ascii.eqb c "+" then (false, r)
      else (false, s)
  | EmptyString => (false, s)
  end.

(** The digits after the sign: hexadecimal after [0x] or [0X], decimal
    otherwise. *)
Definition magnitude (s : string) : option Z :=
  match s with
  | String c0 (String c1 r) =>
      if Ascii.eqb c0 "0" && (Ascii.eqb c1 "x" || Ascii.eqb c1 "X")
      then parse_digits hex_digit 16 r None
      else parse_digits decimal_digit 10 s None
  | _ => parse_digits decimal_digit 10 s None
  end.

(** [parseInt(s)] without a radix: leading whitespace, a sign, an optional
    [0x] prefix, then digits; [None] is [NaN]. The value is exact below
    2^53. *)
Definition parseInt (s : string) : option Z :=
  let signed := strip_sign (trimStart s) in
  (λ z, if signed.1 then - z else z) <$> magnitude signed.2.

Fixpoint all_digits (s : string) : bool :=
  match s with
  | EmptyString => true
  | String c s' => bool_decide (is_Some (decimal_digit c)) && all_digits s'
  end.

Fixpoint has_hyphen (s : string) : bool :=
  match s with
  | EmptyString => false
  | String c s' => Ascii.eqb c "-" || has_hyphen s'
  end.

(** The own property names of [Object.prototype]. *)
Definition inherited (key : string) : bool :=
  bool_decide (key ∈ [ "constructor"; "__proto__"; "hasOwnProperty";
                       "isPrototypeOf"; "propertyIsEnumerable"; "toLocaleString";
                       "toString"; "valueOf"; "__defineGetter__";
                       "__defineSetter__"; "__lookupGetter__"; "__lookupSetter__" ]).

Section Handlers.
Context {Number : Type} `{NumberOps Number}.

(** Truthiness of a number: false for zero and [NaN]. *)
Variable number_truthy : Number → bool.

Definition truthy_num (o : option Number) : bool :=
  match o with
  | Some x => number_truthy x
  | None => false
  end.

(** [parseFloat(x)] for a number [x]: the number is printed, then parsed. *)
Definition parseFloat_num (x : Number) : Number :=
  parseFloat (Some (num_toString x)).

(** A schedule as it arrives in the body of a route. *)
Record ScheduleInput : Type := {
  si_id : option Z;
  si_time : string;
  si_arrival : string;
  si_type : string;
  si_price : Number
}.

(** The body of [POST] and [PUT /api/admin/routes]. *)
Record RouteBody : Type := {
  rb_origin : option string;
  rb_destination : option string;
  rb_duration : option string;
  rb_distance : option string;
  rb_basePrice : option Number;
  rb_schedules : option (list ScheduleInput)
}.

(** The body of [POST] and [PUT .../schedules]. *)
Record ScheduleBody : Type := {
  sb_time : option string;
  sb_arrival : option string;
  sb_type : option string;
  sb_price : option Number
}.

Inductive AdminBody : Type :=
  | AdminError (error : string)
  | RouteSaved (message key : string) (data : Route Number)
  | RouteDeleted (message deletedRoute : string)
  | ScheduleSaved (message : string) (schedule : Schedule Number)
  | ScheduleDeleted (message : string) (deletedSchedule : Schedule Number).

(** State, response and the tables handed to [saveRoutes]. *)
Record AdminOutcome : Type := {
  a_state : State Number;
  a_status : nat;
  a_body : AdminBody;
  a_saved : list (gmap string (Route Number))
}.

Definition refuse (st : State Number) (status : nat) (error : string) : AdminOutcome :=
  {| a_state := st; a_status := status; a_body := AdminError error; a_saved := [] |}.

(** Assign [routes] to [availableRoutes], save it, and answer 200. *)
Definition commit (st : State Number) (routes : gmap string (Route Number))
    (b : AdminBody) : AdminOutcome :=
  {| a_state := {| availableRoutes := routes;
                   bookedSeatsByRoute := bookedSeatsByRoute st;
                   ticketDatabase := ticketDatabase st |};
     a_status := 200;
     a_body := b;
     a_saved := [routes] |}.

(** [schedules.map((schedule, index) => ({...schedule, id: ...}))]: every
    schedule gets [Date.now() + index], unless [keep] and it has a truthy id.
    [clock index] is what [Date.now()] returns when the schedule at [index]
    is mapped. *)
Definition with_ids (keep : bool) (clock : nat → Z) (inputs : list ScheduleInput)
    : list (Schedule Number) :=
  imap (λ index s,
          {| schedule_id :=
               match si_id s with
               | Some i => if keep && negb (i =? 0)%Z then i
                           else clock index + Z.of_nat index
               | None => clock index + Z.of_nat index
               end;
             time := si_time s;
             arrival := si_arrival s;
             service := si_type s;
             price := si_price s |})
       inputs.

(** [POST /api/admin/routes] *)
Definition post_route (st : State Number) (b : RouteBody) (clock : nat → Z)
    : AdminOutcome :=
  match rb_basePrice b, rb_schedules b with
  | Some basePrice, Some inputs =>
      if negb (truthy_str (rb_origin b)) || negb (truthy_str (rb_destination b))
         || negb (truthy_str (rb_duration b)) || negb (number_truthy basePrice)
      then refuse st 400
             "Faltan datos requeridos: origin, destination, duration, basePrice, schedules"
      else
        let routeKey := interpolate (rb_origin b) +:+ "-" +:+ interpolate (rb_destination b) in
        match availableRoutes st !! routeKey with
        | Some _ => refuse st 409 "Esta ruta ya existe. Use PUT para actualizar."
        | None =>
            let route :=
              {| duration := interpolate (rb_duration b);
                 distance := or_else (rb_distance b) "N/A";
                 basePrice := parseFloat_num basePrice;
                 schedules := with_ids false clock inputs |} in
            commit st (<[routeKey := route]> (availableRoutes st))
              (RouteSaved "Ruta creada exitosamente" routeKey route)
        end
  | _, _ =>
      refuse st 400
        "Faltan datos requeridos: origin, destination, duration, basePrice, schedules"
  end.

(** [PUT /api/admin/routes/:routeKey] *)
Definition put_route (st : State Number) (routeKey : string) (b : RouteBody)
    (clock : nat → Z) : option AdminOutcome :=
  if inherited routeKey then None
  else Some
    match availableRoutes st !! routeKey with
    | None => refuse st 404 "Ruta no encontrada"
    | Some route =>
        let route' :=
          {| duration := if truthy_str (rb_duration b)
                         then interpolate (rb_duration b) else duration route;
             distance := if truthy_str (rb_distance b)
                         then interpolate (rb_distance b) else distance route;
             basePrice := match rb_basePrice b with
                          | Some p => if number_truthy p then parseFloat_num p
                                      else basePrice route
                          | None => basePrice route
                          end;
             schedules := match rb_schedules b with
                          | Some inputs => with_ids true clock inputs
                          | None => schedules route
                          end |} in
        commit st (<[routeKey := route']> (availableRoutes st))
          (RouteSaved "Ruta actualizada exitosamente" routeKey route')
    end.

(** [DELETE /api/admin/routes/:routeKey] *)
Definition delete_route (st : State Number) (routeKey : string) : option AdminOutcome :=
  if inherited routeKey then None
  else Some
    match availableRoutes st !! routeKey with
    | None => refuse st 404 "Ruta no encontrada"
    | Some _ =>
        commit st (delete routeKey (availableRoutes st))
          (RouteDeleted "Ruta eliminada exitosamente" routeKey)
    end.

Definition with_schedules (route : Route Number) (l : list (Schedule Number))
    : Route Number :=
  {| duration := duration route; distance := distance route;
     basePrice := basePrice route; schedules := l |}.

(** [POST /api/admin/routes/:routeKey/schedules] *)
Definition post_schedule (st : State Number) (routeKey : string) (b : ScheduleBody)
    (now_ms : Z) : option AdminOutcome :=
  if inherited routeKey then None
  else Some
    match availableRoutes st !! routeKey with
    | None => refuse st 404 "Ruta no encontrada"
    | Some route =>
        match sb_price b with
        | Some p =>
            if negb (truthy_str (sb_time b)) || negb (truthy_str (sb_arrival b))
               || negb (truthy_str (sb_type b)) || negb (number_truthy p)
            then refuse st 400 "Faltan datos: time, arrival, type, price"
            else
              let newSchedule :=
                {| schedule_id := now_ms;
                   time := interpolate (sb_time b);
                   arrival := interpolate (sb_arrival b);
                   service := interpolate (sb_type b);
                   price := parseFloat_num p |} in
              commit st
                (<[routeKey := with_schedules route (schedules route ++ [newSchedule])]>
                   (availableRoutes st))
                (ScheduleSaved "Horario agregado exitosamente" newSchedule)
        | None => refuse st 400 "Faltan datos: time, arrival, type, price"
        end
    end.

(** [s => s.id === parseInt(scheduleId)] *)
Definition has_id (scheduleId : string) (s : Schedule Number) : Prop :=
  Some (schedule_id s) = parseInt scheduleId.

#[global] Instance has_id_dec scheduleId s : Decision (has_id scheduleId s).
Proof. unfold has_id. apply _. Defined.

(** [PUT /api/admin/routes/:routeKey/schedules/:scheduleId] *)
Definition put_schedule (st : State Number) (routeKey scheduleId : string)
    (b : ScheduleBody) : option AdminOutcome :=
  if inherited routeKey then None
  else Some
    match availableRoutes st !! routeKey with
    | None => refuse st 404 "Ruta no encontrada"
    | Some route =>
        match list_find (has_id scheduleId) (schedules route) with
        | None => refuse st 404 "Horario no encontrado"
        | Some (index, schedule) =>
            let schedule' :=
              {| schedule_id := schedule_id schedule;
                 time := if truthy_str (sb_time b)
                         then interpolate (sb_time b) else time schedule;
                 arrival := if truthy_str (sb_arrival b)
                            then interpolate (sb_arrival b) else arrival schedule;
                 service := if truthy_str (sb_type b)
                            then interpolate (sb_type b) else service schedule;
                 price := match sb_price b with
                          | Some p => if number_truthy p then parseFloat_num p
                                      else price schedule
                          | None => price schedule
                          end |} in
            commit st
              (<[routeKey := with_schedules route
                               (<[index := schedule']> (schedules route))]>
                 (availableRoutes st))
              (ScheduleSaved "Horario actualizado exitosamente" schedule')
        end
    end.

(** [DELETE /api/admin/routes/:routeKey/schedules/:scheduleId] *)
Definition delete_schedule (st : State Number) (routeKey scheduleId : string)
    : option AdminOutcome :=
  if inherited routeKey then None
  else Some
    match availableRoutes st !! routeKey with
    | None => refuse st 404 "Ruta no encontrada"
    | Some route =>
        match list_find (has_id scheduleId) (schedules route) with
        | None => refuse st 404 "Horario no encontrado"
        | Some (index, deletedSchedule) =>
            commit st
              (<[routeKey := with_schedules route (delete index (schedules route))]>
                 (availableRoutes st))
              (ScheduleDeleted "Horario eliminado exitosamente" deletedSchedule)
        end
    end.

(** The six handlers as one transition. *)
Inductive AdminRequest : Type :=
  | PostRoute (b : RouteBody) (clock : nat → Z)
  | PutRoute (routeKey : string) (b : RouteBody) (clock : nat → Z)
  | DeleteRoute (routeKey : string)
  | PostSchedule (routeKey : string) (b : ScheduleBody) (now_ms : Z)
  | PutSchedule (routeKey scheduleId : string) (b : ScheduleBody)
  | DeleteSchedule (routeKey scheduleId : string).

Definition admin (st : State Number) (req : AdminRequest) : option AdminOutcome :=
  match req with
  | PostRoute b clock => Some (post_route st b clock)
  | PutRoute key b clock => put_route st key b clock
  | DeleteRoute key => delete_route st key
  | PostSchedule key b now_ms => post_schedule st key b now_ms
  | PutSchedule key id b => put_schedule st key id b
  | DeleteSchedule key id => delete_schedule st key id
  end.

End Handlers.

Arguments ScheduleInput : clear implicits.
Arguments AdminRequest : clear implicits.
Arguments RouteBody : clear implicits.
Arguments ScheduleBody : clear implicits.
Arguments AdminBody : clear implicits.
Arguments AdminOutcome : clear implicits.

End Admin.

(** ** The rest of [models/Booking.js] used by the controller *)

Module BookingOps.
Import JS BookingModel.

(** [deleteBooking]: [Map.delete] returns whether the key was there. *)
Definition deleteBooking (st : Store) (ref : string) : Store * bool :=
  ({| bookings := delete ref (bookings st); nextId := nextId st |},
   bool_decide (is_Some (bookings st !! ref))).

(** [completeBooking] *)
Definition completeBooking (st : Store) (ref : string) (now1 now2 : string)
    : Store * option Booking :=
  updateBooking st ref
    {| u_estado := Some "completada";
       u_motivoCancelacion := None;
       u_fechaCancelacion := None;
       u_paymentSessionId := None;
       u_fechaConfirmacion := None;
       u_fechaCompletada := Some now1 |}
    now2.

(** A reservation that counts as occupying its seat. *)
Definition active (booking : Booking) : bool :=
  negb (String.eqb (estado booking) "cancelada").

(** No two active reservations hold the same seat of the same route and
    date. *)
Definition single_holder (st : Store) : Prop :=
  ∀ ref1 ref2 b1 b2,
    bookings st !! ref1 = Some b1 → bookings st !! ref2 = Some b2 →
    active b1 = true → active b2 = true →
    routeId b1 = routeId b2 → asiento b1 = asiento b2 → fecha b1 = fecha b2 →
    ref1 = ref2.

(** Every reservation numbered by the store has a number below [nextId]. *)
Definition ids_below (st : Store) : Prop :=
  ∀ ref booking, bookings st !! ref = Some booking →
    ∃ n, id booking = JNum n ∧ n < nextId st.

End BookingOps.

(** ** The reservation controller ([BookingController])

    [validateBookingData] and [generateBookingReference] belong to modules
    that are not part of the sources at hand, and [RouteModel.getRouteById]
    reads a static table; their results are inputs here. *)

Module BookingController.
Import JS BookingModel BookingOps.

Inductive Body : Type :=
  | Failure (message : string)
  | Invalid (message : string) (errors : list string)
  | Payload (message : string) (data : Booking) (referencia : option string)
  | Cancellation (message referencia estado : string)
      (fechaCancelacion : option string).

Record Response : Type := { status : nat; body : Body }.

(** [{...booking, email: undefined}] *)
Definition hide_email (booking : Booking) : Booking :=
  {| id := id booking; referencia := referencia booking;
     nombre := nombre booking; email := None; telefono := telefono booking;
     origen := origen booking; destino := destino booking;
     routeId := routeId booking; asiento := asiento booking;
     horario := horario booking; fecha := fecha booking;
     precio := precio booking; estado := estado booking;
     fechaCreacion := fechaCreacion booking;
     fechaActualizacion := fechaActualizacion booking;
     version := version booking;
     motivoCancelacion := motivoCancelacion booking;
     fechaCancelacion := fechaCancelacion booking;
     paymentSessionId := paymentSessionId booking;
     fechaConfirmacion := fechaConfirmacion booking;
     fechaCompletada := fechaCompletada booking |}.

(** The result of [validateBookingData]. *)
Record Validation : Type := { isValid : bool; errors : list string }.

(** [createBooking]. [route_found] tells whether [RouteModel.getRouteById]
    found the route of the request. *)
Definition createBooking (st : Store) (data : BookingData)
    (validation : Validation) (route_found : bool)
    (ctl_ref ref now1 now2 : string) : Store * Response :=
  if negb (isValid validation)
  then (st, {| status := 400;
               body := Invalid "Datos de reserva inválidos" (errors validation) |})
  else if negb route_found
  then (st, {| status := 404; body := Failure "Ruta no encontrada" |})
  else
    match claim st data ctl_ref ref now1 now2 with
    | (_, SeatUnavailable) =>
        (st, {| status := 409;
                body := Failure ("El asiento " +:+ String_ (bd_asiento data)
                                 +:+ " no está disponible para la fecha seleccionada") |})
    | (st', Claimed createdBooking) =>
        (st', {| status := 201;
                 body := Payload "Reserva creada correctamente"
                           (hide_email createdBooking) (Some ctl_ref) |})
    end.

(** [getBookingByReference] *)
Definition getBookingByReference (st : Store) (ref : string) : Response :=
  if String.eqb ref "" || (String.length ref <? 6)%nat
  then {| status := 400; body := Failure "Referencia de reserva inválida" |}
  else
    match BookingModel.getBookingByReference st ref with
    | None =>
        {| status := 404;
           body := Failure ("Reserva con referencia " +:+ ref +:+ " no encontrada") |}
    | Some booking =>
        {| status := 200;
           body := Payload "Reserva encontrada correctamente" (hide_email booking) None |}
    end.

Definition validStates : list string :=
  ["pendiente"; "confirmada"; "cancelada"; "completada"].

(** [updateBookingStatus]. [estado] is the member of the body, [None] when
    absent. *)
Definition updateBookingStatus (st : Store) (ref : string) (estado : option string)
    (session : option string) (now : string) : Store * Response :=
  match estado with
  | Some e =>
      if negb (bool_decide (e ∈ validStates))
      then (st, {| status := 400; body := Failure "Estado de reserva inválido" |})
      else
        match BookingModel.getBookingByReference st ref with
        | None =>
            (st, {| status := 404;
                    body := Failure ("Reserva con referencia " +:+ ref
                                     +:+ " no encontrada") |})
        | Some _ =>
            let r :=
              updateBooking st ref
                {| u_estado := Some e;
                   u_motivoCancelacion := None;
                   u_fechaCancelacion := None;
                   u_paymentSessionId := if truthy_str session then session else None;
                   u_fechaConfirmacion := None;
                   u_fechaCompletada := None |}
                now in
            match r.2 with
            | Some updatedBooking =>
                (r.1, {| status := 200;
                         body := Payload "Reserva actualizada correctamente"
                                   (hide_email updatedBooking) None |})
            | None => (* not reached: the reservation was found just above *)
                (r.1, {| status := 500;
                         body := Failure "Error al actualizar la reserva" |})
            end
        end
  | None => (st, {| status := 400; body := Failure "Estado de reserva inválido" |})
  end.

(** [cancelBooking] of the controller: it does not call
    [BookingModel.cancelBooking] but [updateBooking]. *)
Definition cancelBooking (st : Store) (ref : string) (motivo : option string)
    (now1 now2 : string) : Store * Response :=
  match BookingModel.getBookingByReference st ref with
  | None =>
      (st, {| status := 404;
              body := Failure ("Reserva con referencia " +:+ ref +:+ " no encontrada") |})
  | Some booking =>
      if String.eqb (estado booking) "cancelada"
      then (st, {| status := 400; body := Failure "La reserva ya está cancelada" |})
      else
        let r :=
          updateBooking st ref
            {| u_estado := Some "cancelada";
               u_motivoCancelacion :=
                 Some (or_else motivo "Cancelación solicitada por el usuario");
               u_fechaCancelacion := Some now1;
               u_paymentSessionId := None;
               u_fechaConfirmacion := None;
               u_fechaCompletada := None |}
            now2 in
        match r.2 with
        | Some cancelledBooking =>
            (r.1, {| status := 200;
                     body := Cancellation "Reserva cancelada correctamente" ref
                               "cancelada" (fechaCancelacion cancelledBooking) |})
        | None => (r.1, {| status := 500; body := Failure "Error al cancelar la reserva" |})
        end
  end.

(** The requests that reach the store, as one transition. *)
Inductive Request : Type :=
  | CreateBooking (data : BookingData) (validation : Validation)
      (route_found : bool) (ctl_ref ref now1 now2 : string)
  | GetBooking (ref : string)
  | UpdateStatus (ref : string) (estado session : option string) (now : string)
  | CancelBooking (ref : string) (motivo : option string) (now1 now2 : string).

Definition handle (st : Store) (req : Request) : Store * Response :=
  match req with
  | CreateBooking data validation route_found ctl_ref ref now1 now2 =>
      createBooking st data validation route_found ctl_ref ref now1 now2
  | GetBooking ref => (st, getBookingByReference st ref)
  | UpdateStatus ref estado session now => updateBookingStatus st ref estado session now
  | CancelBooking ref motivo now1 now2 => cancelBooking st ref motivo now1 now2
  end.

Fixpoint run (st : Store) (reqs : list Request) : Store * list Response :=
  match reqs with
  | [] => (st, [])
  | req :: rest =>
      let r := handle st req in
      let r' := run r.1 rest in
      (r'.1, r.2 :: r'.2)
  end.

(** A request that sets a cancelled reservation to another state. *)
Definition revives (st : Store) (req : Request) : Prop :=
  match req with
  | UpdateStatus ref (Some e) _ _ =>
      ∃ booking, bookings st !! ref = Some booking
                 ∧ active booking = false ∧ e ≠ "cancelada"
  | _ => False
  end.

(** A valid request to reserve seat [a] of route [r] on date [f]. *)
Definition reserves (r a : Value) (f : option string) (req : Request) : Prop :=
  ∃ data validation ctl_ref ref now1 now2,
    req = CreateBooking data validation true ctl_ref ref now1 now2
    ∧ isValid validation = true
    ∧ bd_routeId data = r ∧ bd_asiento data = a ∧ bd_fecha data = f.

End BookingController.

(** ** Further vocabulary: invariants of the server state *)

Module Invariants.
Import JS Ledger Server.

(** A string without the separator of trip keys. *)
Fixpoint no_pipe (s : string) : bool :=
  match s with
  | EmptyString => true
  | String c s' => negb (Ascii.eqb c "|") && no_pipe s'
  end.

(** The component of a trip key that an origin or a destination gives. *)
Definition normalize (o : option string) : string :=
  toLowerCase (trim (or_else o "")).

Section State.
Context {Number : Type} `{NumberOps Number}.

(** The trip key of a ticket. *)
Definition ticket_key (t : Ticket Number) : string :=
  getRouteKey (Some (t_origen t)) (Some (t_destino t))
    (Some (t_fecha t)) (Some (t_horario t)).

(** Every ticket is filed under its own session id and is marked paid. *)
Definition tickets_filed (st : State Number) : Prop :=
  ∀ id t, ticketDatabase st !! id = Some t →
    t_sessionId t = id ∧ t_paymentStatus t = "paid".

(** The seat of every ticket is in the ledger under the trip of the ticket. *)
Definition tickets_seated (st : State Number) : Prop :=
  ∀ id t, ticketDatabase st !! id = Some t →
    JStr (t_asiento t) ∈ occupiedSeats (bookedSeatsByRoute st) (ticket_key t).

(** Calls to the persistence module. *)
Definition writes_disk (e : Effect Number) : bool :=
  match e with
  | SaveBookings _ | SaveTickets _ => true
  | _ => false
  end.

(** The session Stripe holds for a configuration it was given, once paid. *)
Definition session_for (config : SessionConfig Number) (id : string)
    (total : Number) : Session Number :=
  {| session_id := id;
     payment_status := "paid";
     session_metadata := Some (metadata config);
     amount_total := total;
     session_currency := currency config |}.

End State.
End Invariants.

(** ** More concrete data *)

Module Samples.
Import JS Ledger Server Admin Invariants Example.

(** Truthiness of the exact numbers: zero and [NaN] are falsy. *)
Definition num_truthy (x : Num) : bool :=
  match x with
  | Fin q => negb (Qeq_bool q 0)
  | NaN => false
  end.

(** Ana asks for seat 12 of the 10:00 departure; Stripe is given the session
    configuration of her request and, once she has paid, reports that
    session under the id [cs_7]. *)
Definition ana_request : CheckoutBody Num := request "Ana" (JNum 12) "10:00" None.

Definition ana_config : SessionConfig Num :=
  sessionConfig ana_request (pesos 30) "http://localhost:4242".

Definition stripe_after_purchase : Env Num :=
  {| stripe_create := λ _, Created "https://checkout.stripe.com/pay/cs_7";
     stripe_retrieve := λ id,
       if String.eqb id "cs_7" then Retrieved (session_for ana_config "cs_7" (pesos 3000))
       else RetrievedNothing;
     now := "2024-01-10T10:00:00.000Z";
     baseUrl := "http://localhost:4242" |}.

(** A new route with two schedules, as the panel submits it. *)
Definition puebla_oaxaca : RouteBody Num :=
  {| rb_origin := Some "Puebla"; rb_destination := Some "Oaxaca";
     rb_duration := Some "4h 30m"; rb_distance := None;
     rb_basePrice := Some (pesos 450);
     rb_schedules :=
       Some [ {| si_id := None; si_time := "07:00"; si_arrival := "11:30";
                 si_type := "Ejecutivo"; si_price := pesos 450 |};
              {| si_id := None; si_time := "15:00"; si_arrival := "19:30";
                 si_type := "Primera Clase"; si_price := pesos 520 |} ] |}.

(** [Date.now()] read once per schedule, a millisecond apart at most. *)
Definition ticking (index : nat) : Z := 1704880800000 + Z.of_nat (index / 2).

(** A night departure at 520 pesos. *)
Definition night_bus : ScheduleBody Num :=
  {| sb_time := Some "23:00"; sb_arrival := Some "06:30+1";
     sb_type := Some "Ejecutivo"; sb_price := Some (pesos 520) |}.

(** A new price and nothing else. *)
Definition new_price : ScheduleBody Num :=
  {| sb_time := None; sb_arrival := None; sb_type := None;
     sb_price := Some (pesos 33) |}.

Definition guadalajara_key : string := cdmx +:+ "-Guadalajara".

(** The reservation store after Ana's reservation of seat 12 of schedule 2
    was accepted: it is filed under [TBLX1A2B3C]. *)
Definition ana_stored : BookingModel.Store :=
  (BookingModel.claim BookingModel.clearAll (reservation "Ana")
     "TB-CTL-1" "TBLX1A2B3C" "2024-01-10T09:00:00.000Z" "2024-01-10T09:00:00.001Z").1.

Definition valid : BookingController.Validation :=
  {| BookingController.isValid := true; BookingController.errors := [] |}.

Definition reserve (who ctl_ref ref : string) : BookingController.Request :=
  BookingController.CreateBooking (reservation who) valid true ctl_ref ref
    "2024-01-10T09:00:00.000Z" "2024-01-10T09:00:00.001Z".

End Samples.

(** ** Properties of the JavaScript string primitives *)

Module JSFacts.
Import JS Spec.

Ltac each_ascii c :=
  destruct c as [[] [] [] [] [] [] [] []]; vm_compute; try reflexivity; try discriminate.

Lemma toLowerCase_char_idem c :
  toLowerCase_char (toLowerCase_char c) = toLowerCase_char c.
Proof. each_ascii c. Qed.

Lemma is_whitespace_lower c :
  is_whitespace (toLowerCase_char c) = is_whitespace c.
Proof. each_ascii c. Qed.

Lemma same_letter_lower a b :
  same_letter a b → toLowerCase_char a = toLowerCase_char b.
Proof.
  intros [-> | [<- | ->]]; [reflexivity | |];
    now rewrite toLowerCase_char_idem.
Qed.

Lemma same_letter_whitespace a b :
  same_letter a b → is_whitespace a = is_whitespace b.
Proof.
  intros [-> | [<- | ->]]; [reflexivity | |];
    now rewrite is_whitespace_lower.
Qed.

Lemma differ_by_case_refl s : differ_by_case s s.
Proof. induction s; constructor; [now left | assumption]. Qed.

Lemma differ_by_caseb_sound s t :
  differ_by_caseb s t = true → differ_by_case s t.
Proof.
  revert t. induction s as [| a s IH]; intros [| b t]; simpl; try discriminate.
  - constructor.
  - intros [Hab Hst]%andb_true_iff. constructor; [| now apply IH].
    apply orb_true_iff in Hab as [Hab | Hab];
      [apply orb_true_iff in Hab as [Hab | Hab] |];
      apply bool_decide_eq_true in Hab; unfold same_letter; auto.
Qed.

Lemma differ_by_case_lower s t :
  differ_by_case s t → toLowerCase s = toLowerCase t.
Proof.
  induction 1 as [| a b s t Hab _ IH]; simpl; [reflexivity |].
  now rewrite (same_letter_lower _ _ Hab), IH.
Qed.

Lemma differ_by_case_trimStart s t :
  differ_by_case s t → differ_by_case (trimStart s) (trimStart t).
Proof.
  induction 1 as [| a b s t Hab Hst IH]; simpl; [constructor |].
  rewrite <- (same_letter_whitespace _ _ Hab).
  destruct (is_whitespace a); [assumption | now constructor].
Qed.

Lemma differ_by_case_trimEnd s t :
  differ_by_case s t → differ_by_case (trimEnd s) (trimEnd t).
Proof.
  induction 1 as [| a b s t Hab Hst IH]; simpl; [constructor |].
  rewrite <- (same_letter_whitespace _ _ Hab).
  inversion IH as [E1 E2 | a' b' s' t' Hab' Hst' E1 E2].
  - destruct (is_whitespace a); [constructor |].
    constructor; [assumption | constructor].
  - constructor; [assumption |]. now constructor.
Qed.

Lemma differ_by_case_trim s t :
  differ_by_case s t → toLowerCase (trim s) = toLowerCase (trim t).
Proof.
  intros Hst. apply differ_by_case_lower, differ_by_case_trimEnd.
  now apply differ_by_case_trimStart.
Qed.

Lemma trimStart_whitespace l s :
  all_whitespace l = true → trimStart (l +:+ s) = trimStart s.
Proof.
  induction l as [| c l IH]; simpl; [reflexivity |].
  intros [Hc Hl]%andb_true_iff. rewrite Hc. auto.
Qed.

Lemma trimStart_all_whitespace r : all_whitespace r = true → trimStart r = "".
Proof.
  induction r as [| c r IH]; simpl; [reflexivity |].
  intros [Hc Hr]%andb_true_iff. rewrite Hc. auto.
Qed.

Lemma trimEnd_whitespace r : all_whitespace r = true → trimEnd r = "".
Proof.
  induction r as [| c r IH]; simpl; [reflexivity |].
  intros [Hc Hr]%andb_true_iff. now rewrite (IH Hr), Hc.
Qed.

Lemma trimEnd_app_whitespace s r :
  all_whitespace r = true → trimEnd (s +:+ r) = trimEnd s.
Proof.
  intros Hr. induction s as [| c s IH]; simpl.
  - now apply trimEnd_whitespace.
  - now rewrite IH.
Qed.

Lemma trim_app_whitespace s r :
  all_whitespace r = true → trim (s +:+ r) = trim s.
Proof.
  intros Hr. unfold trim. induction s as [| c s IH]; simpl.
  - now rewrite trimStart_all_whitespace.
  - destruct (is_whitespace c); [assumption |].
    apply (trimEnd_app_whitespace (String c s) r Hr).
Qed.

Lemma trim_padding l s r :
  all_whitespace l = true → all_whitespace r = true →
  trim (l +:+ s +:+ r) = trim s.
Proof.
  intros Hl Hr. unfold trim. rewrite trimStart_whitespace by assumption.
  now apply trim_app_whitespace.
Qed.

Lemma variant_normal_form s t :
  variant s t → toLowerCase (trim s) = toLowerCase (trim t).
Proof.
  intros (l1 & r1 & l2 & r2 & c1 & c2 & H1 & H2 & H3 & H4 & -> & -> & Hc).
  rewrite !trim_padding by assumption. now apply differ_by_case_trim.
Qed.

Lemma append_length s t :
  String.length (s +:+ t) = (String.length s + String.length t)%nat.
Proof. induction s; simpl; [reflexivity | now f_equal]. Qed.

Lemma append_inv_tail s t u : s +:+ u = t +:+ u → s = t.
Proof.
  revert t. induction s as [| a s IH]; intros [| b t] E; simpl in E.
  - reflexivity.
  - apply (f_equal String.length) in E.
    rewrite ?append_length in E; simpl in E; rewrite ?append_length in E; lia.
  - apply (f_equal String.length) in E.
    rewrite ?append_length in E; simpl in E; rewrite ?append_length in E; lia.
  - injection E as -> E. f_equal. now apply IH.
Qed.

Lemma or_else_nonempty s : or_else (Some s) "" = s.
Proof.
  unfold or_else, truthy_str. destruct (String.eqb_spec s ""); simpl; congruence.
Qed.

End JSFacts.

(** ** Properties of the seat ledger *)

Module LedgerFacts.
Import JS Ledger Spec JSFacts.

Lemma getRouteKey_strings o d f h :
  getRouteKey (Some o) (Some d) f h =
  toLowerCase (trim o) +:+ "|" +:+ toLowerCase (trim d) +:+ "|" +:+
  interpolate f +:+ "|" +:+ interpolate h.
Proof. unfold getRouteKey. now rewrite !or_else_nonempty. Qed.

Lemma lookup_bookSeat (booked : SeatLedger) o d f h seat :
  bookSeat booked o d f h seat !! getRouteKey o d f h =
  Some (occupiedSeats booked (getRouteKey o d f h) ∪ {[ JStr (String_ seat) ]}).
Proof.
  unfold bookSeat, occupiedSeats.
  destruct (booked !! getRouteKey o d f h) as [set |] eqn:E.
  - rewrite lookup_alter_eq, E. reflexivity.
  - rewrite lookup_alter_eq, lookup_insert_eq. reflexivity.
Qed.

Lemma lookup_bookSeat_ne (booked : SeatLedger) o d f h seat key :
  key ≠ getRouteKey o d f h →
  bookSeat booked o d f h seat !! key = booked !! key.
Proof.
  intros Hne. unfold bookSeat.
  rewrite lookup_alter_ne by congruence.
  destruct (booked !! getRouteKey o d f h); [reflexivity |].
  now rewrite lookup_insert_ne by congruence.
Qed.

Lemma isSeatBooked_spec (booked : SeatLedger) o d f h seat :
  isSeatBooked booked o d f h seat = true ↔
  JStr (String_ seat) ∈ occupiedSeats booked (getRouteKey o d f h).
Proof.
  unfold isSeatBooked, occupiedSeats.
  destruct (booked !! getRouteKey o d f h) as [set |]; simpl.
  - apply bool_decide_eq_true.
  - split; [discriminate | set_solver].
Qed.

Lemma isSeatBooked_bookSeat (booked : SeatLedger) o d f h seat :
  isSeatBooked (bookSeat booked o d f h seat) o d f h seat = true.
Proof.
  apply isSeatBooked_spec. unfold occupiedSeats at 1.
  rewrite lookup_bookSeat. set_solver.
Qed.

(** A seat that is already in the set: adding it again changes nothing. *)
Lemma bookSeat_booked (booked : SeatLedger) o d f h seat :
  isSeatBooked booked o d f h seat = true →
  bookSeat booked o d f h seat = booked.
Proof.
  intros Hb. apply map_eq. intros key.
  destruct (decide (key = getRouteKey o d f h)) as [-> | Hne].
  - rewrite lookup_bookSeat. apply isSeatBooked_spec in Hb.
    unfold occupiedSeats in *.
    destruct (booked !! getRouteKey o d f h) as [set |]; simpl in *.
    + f_equal. rewrite (comm_L (∪)).
      now apply subseteq_union_1_L, singleton_subseteq_l.
    + now apply not_elem_of_empty in Hb.
  - now apply lookup_bookSeat_ne.
Qed.

(** [bookSeat] only adds. *)
Lemma occupiedSeats_bookSeat_mono (booked : SeatLedger) o d f h seat key v :
  v ∈ occupiedSeats booked key →
  v ∈ occupiedSeats (bookSeat booked o d f h seat) key.
Proof.
  intros Hv. unfold occupiedSeats at 1.
  destruct (decide (key = getRouteKey o d f h)) as [-> | Hne].
  - rewrite lookup_bookSeat. simpl. apply elem_of_union. now left.
  - now rewrite lookup_bookSeat_ne.
Qed.

Lemma all_strings_empty : all_strings ∅.
Proof. intros key set v Hk. now rewrite lookup_empty in Hk. Qed.

Lemma all_strings_bookSeat (booked : SeatLedger) o d f h seat :
  all_strings booked → all_strings (bookSeat booked o d f h seat).
Proof.
  intros Hall key set v Hk Hv.
  destruct (decide (key = getRouteKey o d f h)) as [-> | Hne].
  - rewrite lookup_bookSeat in Hk. injection Hk as <-.
    apply elem_of_union in Hv as [Hv | Hv].
    + unfold occupiedSeats in Hv.
      destruct (booked !! getRouteKey o d f h) as [set' |] eqn:E; simpl in Hv.
      * now apply (Hall _ _ _ E).
      * set_solver.
    + apply elem_of_singleton in Hv. eauto.
  - rewrite lookup_bookSeat_ne in Hk by assumption. now apply (Hall _ _ _ Hk).
Qed.

(** C7 - key normalization. [getRouteKey] is a function of its four
    arguments alone. Origins and destinations that differ only by letter case
    and by leading and trailing whitespace give the same key for the same
    date and time; for the same route and time, two distinct dates give two
    distinct keys, so a seat booked on one date is not seen on the other and
    the occupied-seat set read for the other date is what it was. *)
Theorem getRouteKey_normalizes (o1 o2 d1 d2 f f' : string) (h : option string) :
  variant o1 o2 → variant d1 d2 → f ≠ f' →
  getRouteKey (Some o1) (Some d1) (Some f) h
    = getRouteKey (Some o2) (Some d2) (Some f) h
  ∧ getRouteKey (Some o1) (Some d1) (Some f) h
    ≠ getRouteKey (Some o2) (Some d2) (Some f') h
  ∧ ∀ (booked : SeatLedger) (seat seat' : Value),
      let booked' := bookSeat booked (Some o1) (Some d1) (Some f) h seat in
      isSeatBooked booked' (Some o2) (Some d2) (Some f') h seat'
        = isSeatBooked booked (Some o2) (Some d2) (Some f') h seat'
      ∧ occupiedSeats booked' (getRouteKey (Some o2) (Some d2) (Some f') h)
        = occupiedSeats booked (getRouteKey (Some o2) (Some d2) (Some f') h).
Proof.
  intros Ho Hd Hf.
  assert (Heq : ∀ g, getRouteKey (Some o1) (Some d1) g h
                     = getRouteKey (Some o2) (Some d2) g h).
  { intros g. rewrite !getRouteKey_strings.
    now rewrite (variant_normal_form _ _ Ho), (variant_normal_form _ _ Hd). }
  assert (Hne : getRouteKey (Some o1) (Some d1) (Some f) h
                ≠ getRouteKey (Some o2) (Some d2) (Some f') h).
  { rewrite <- (Heq (Some f')). rewrite !getRouteKey_strings. simpl.
    intros E. repeat apply String.app_inj in E.
    apply Hf. now apply append_inv_tail in E. }
  split; [apply Heq | split; [exact Hne |]].
  intros booked seat seat' booked'.
  assert (Hl : booked' !! getRouteKey (Some o2) (Some d2) (Some f') h
               = booked !! getRouteKey (Some o2) (Some d2) (Some f') h).
  { apply lookup_bookSeat_ne. congruence. }
  unfold isSeatBooked, occupiedSeats. now rewrite Hl.
Qed.

End LedgerFacts.

(** ** Properties of the checkout handlers *)

Module ServerFacts.
Import JS Ledger Server Spec JSFacts LedgerFacts.

Section Facts.
Context {Number : Type} `{NumberOps Number}.

Implicit Types (st : State Number) (b : CheckoutBody Number) (env : Env Number).

Lemma required_fields_guard b :
  negb (truthy_str (nombre b)) || negb (truthy_str (origen b))
  || negb (truthy_str (destino b)) || negb (truthy (asiento b))
  || negb (truthy_str (horario b)) || negb (truthy_str (fecha b))
  || negb (truthy_str (numeroDocumento b))
  = negb (required_fields b).
Proof.
  unfold required_fields.
  destruct (truthy_str (nombre b)), (truthy_str (origen b)),
    (truthy_str (destino b)), (truthy (asiento b)), (truthy_str (horario b)),
    (truthy_str (fecha b)), (truthy_str (numeroDocumento b)); reflexivity.
Qed.

(** The purchase handler, case by case. *)
Lemma post_create_checkout_session_cases st b env :
  post_create_checkout_session st b env =
  if negb (required_fields b)
  then respond st 400
         (ErrorBody "Faltan datos requeridos (nombre, documento, origen, destino, asiento, horario, fecha)") []
  else if seat_taken st b
  then respond st 409 (ErrorBody "El asiento seleccionado no está disponible") []
  else
    match availableRoutes st !! routeKey b with
    | None => respond st 400 (ErrorBody "Ruta no válida") []
    | Some route =>
        let config := sessionConfig b (finalPrice route (horario b)) (baseUrl env) in
        respond st
          (match stripe_create env config with Created _ => 200 | _ => 500 end)%nat
          (match stripe_create env config with
           | Created url => UrlBody url
           | CreateThrows message =>
               ErrorBody ("Error interno del servidor: " +:+ message)
           end)
          [StripeCreate config]
    end.
Proof.
  unfold post_create_checkout_session. rewrite required_fields_guard.
  unfold seat_taken, routeKey.
  repeat case_match; reflexivity.
Qed.

Lemma post_create_checkout_session_state st b env :
  state (post_create_checkout_session st b env) = st.
Proof.
  rewrite post_create_checkout_session_cases. repeat case_match; reflexivity.
Qed.

Lemma backend_post_create_checkout_session_state st b env :
  state (Backend.post_create_checkout_session st b env) = st.
Proof.
  unfold Backend.post_create_checkout_session. repeat case_match; reflexivity.
Qed.

(** The handler never reads [precio]. *)
Lemma with_precio_outcome p b st env :
  post_create_checkout_session st (with_precio p b) env
  = post_create_checkout_session st b env.
Proof. reflexivity. Qed.

Lemma selectedSchedule_none (route : Route Number) h :
  (∀ s, s ∈ schedules route → Some (time s) ≠ h) →
  selectedSchedule route h = None.
Proof.
  unfold selectedSchedule. induction (schedules route) as [| s l IH]; intros Hno.
  - reflexivity.
  - simpl. rewrite bool_decide_eq_false_2.
    + apply IH. intros s' Hs'. apply Hno. now right.
    + apply Hno. now left.
Qed.

(** C6 - the purchase handler holds no seat. Whatever the request and
    whatever Stripe answers, [POST /api/create-checkout-session] leaves the
    whole server state, and so the occupied-seat set of every trip key, as it
    was (in [server.js] and in [Backend/server.js]); and a request that
    changes the ledger is a confirmation, [GET /api/checkout/session]. *)
Theorem checkout_session_holds_no_seat st b env :
  state (post_create_checkout_session st b env) = st
  ∧ state (Backend.post_create_checkout_session st b env) = st
  ∧ (∀ key, occupiedSeats
              (bookedSeatsByRoute (state (post_create_checkout_session st b env))) key
            = occupiedSeats (bookedSeatsByRoute st) key)
  ∧ ∀ req env',
      (∃ id, req = GetCheckoutSession id)
      ∨ bookedSeatsByRoute (state (handle st req env')) = bookedSeatsByRoute st.
Proof.
  split; [apply post_create_checkout_session_state |].
  split; [apply backend_post_create_checkout_session_state |].
  split; [intros key; now rewrite post_create_checkout_session_state |].
  intros [o d f h | b' | id | id | routes status] env'; simpl.
  - right. unfold get_occupied_seats. case_match; reflexivity.
  - right. now rewrite post_create_checkout_session_state.
  - left. now exists id.
  - right. unfold get_ticket. case_match; reflexivity.
  - right. reflexivity.
Qed.

(** C8, as amended - the early occupancy guard. A purchase request that
    carries the required members (name, document number, origin, destination,
    seat, time, date) and whose seat is in the ledger for its trip is
    answered 409 "seat unavailable", without any call to Stripe and without
    any change of state. *)
Theorem occupied_seat_is_conflict st b env :
  required_fields b = true → seat_taken st b = true →
  post_create_checkout_session st b env
  = respond st 409 (ErrorBody "El asiento seleccionado no está disponible") [].
Proof.
  intros Hreq Htaken. rewrite post_create_checkout_session_cases.
  now rewrite Hreq, Htaken.
Qed.

(** C4 - no price tampering. Two purchase requests that differ only in the
    [precio] member have the same outcome: same response, same state, same
    configuration sent to Stripe. When a session is requested and a schedule
    of the route departs at the requested time, the amount sent is that
    schedule's price in cents. *)
Theorem no_price_tampering st b env (p1 p2 : option Number) :
  post_create_checkout_session st (with_precio p1 b) env
  = post_create_checkout_session st (with_precio p2 b) env
  ∧ ∀ config route s,
      StripeCreate config
        ∈ effects (post_create_checkout_session st (with_precio p1 b) env) →
      availableRoutes st !! routeKey b = Some route →
      selectedSchedule route (horario b) = Some s →
      unit_amount config = Math_round (num_mul (price s) (num_lit 100)).
Proof.
  split; [now rewrite !with_precio_outcome |].
  intros config route s Hin Hroute Hs.
  rewrite with_precio_outcome, post_create_checkout_session_cases, Hroute in Hin.
  destruct (negb (required_fields b)); [inversion Hin |].
  destruct (seat_taken st b); [inversion Hin |].
  simpl in Hin. apply list_elem_of_singleton in Hin. injection Hin as ->.
  simpl. unfold finalPrice. simpl. now rewrite Hs.
Qed.

(** C5, as amended - fare resolution. When the route exists and none of its
    schedules departs at the requested time, the fare is the base price of
    the route: the session is requested from Stripe with that amount in
    cents, and the answer is Stripe's (200 with the payment URL, or 500), not
    the 400 of an unknown route. *)
Theorem no_schedule_charges_base_price st b env (route : Route Number) :
  required_fields b = true → seat_taken st b = false →
  availableRoutes st !! routeKey b = Some route →
  (∀ s, s ∈ schedules route → Some (time s) ≠ horario b) →
  finalPrice route (horario b) = basePrice route
  ∧ ∃ config,
      effects (post_create_checkout_session st b env) = [StripeCreate config]
      ∧ unit_amount config = Math_round (num_mul (basePrice route) (num_lit 100))
      ∧ metadata config !! "precio" = Some (num_toString (basePrice route))
      ∧ response (post_create_checkout_session st b env)
        = match stripe_create env config with
          | Created url => {| statusCode := 200; body := UrlBody url |}
          | CreateThrows message =>
              {| statusCode := 500;
                 body := ErrorBody ("Error interno del servidor: " +:+ message) |}
          end.
Proof.
  intros Hreq Hfree Hroute Hno.
  assert (Hfp : finalPrice route (horario b) = basePrice route).
  { unfold finalPrice. now rewrite selectedSchedule_none. }
  split; [exact Hfp |].
  exists (sessionConfig b (basePrice route) (baseUrl env)).
  rewrite post_create_checkout_session_cases, Hreq, Hfree, Hroute, Hfp. simpl.
  repeat split. case_match; reflexivity.
Qed.

(** *** Confirmation *)

Implicit Types (session : Session Number) (qid : option string).

Lemma get_checkout_session_paid st qid env session :
  paid_request qid env session →
  get_checkout_session st qid env = confirmed st (interpolate qid) session (now env).
Proof.
  intros (Hq & Hr & Hp & Hm).
  unfold get_checkout_session, confirmed. rewrite Hq, Hr, Hp, Hm. simpl.
  destruct (isSeatBooked _ _ _ _ _ _) eqn:Hb; simpl.
  - now rewrite (bookSeat_booked _ _ _ _ _ _ Hb).
  - reflexivity.
Qed.

Lemma backend_get_checkout_session_paid st qid env session :
  paid_request qid env session →
  state (Backend.get_checkout_session st qid env)
    = state (confirmed st (interpolate qid) session (now env))
  ∧ response (Backend.get_checkout_session st qid env)
    = response (confirmed st (interpolate qid) session (now env)).
Proof.
  intros (Hq & Hr & Hp & Hm).
  unfold Backend.get_checkout_session, confirmed. rewrite Hq, Hr, Hp, Hm. simpl.
  destruct (isSeatBooked _ _ _ _ _ _) eqn:Hb; simpl.
  - now rewrite (bookSeat_booked _ _ _ _ _ _ Hb).
  - split; reflexivity.
Qed.

(** A 200 "paid" answer comes from a paid session with complete metadata. *)
Lemma is_paid_inv st qid env :
  is_paid (get_checkout_session st qid env) = true →
  ∃ session, paid_request qid env session.
Proof.
  unfold get_checkout_session, paid_request.
  destruct (truthy_str qid); simpl; [| discriminate].
  destruct (stripe_retrieve env (interpolate qid)) as [session | |];
    simpl; try discriminate.
  destruct (String.eqb_spec (payment_status session) "paid") as [Hp |];
    simpl; [| discriminate].
  destruct (metadata_complete (metadata_of session)) eqn:Hm; simpl; [| discriminate].
  intros _. now exists session.
Qed.

Lemma is_paid_confirmed st id session createdAt :
  is_paid (confirmed st id session createdAt) = true.
Proof. reflexivity. Qed.

Lemma claimed_seat_confirmed st id session createdAt :
  claimed_seat (confirmed st id session createdAt)
  = negb (isSeatBooked (bookedSeatsByRoute st)
            (field (metadata_of session) "origen")
            (field (metadata_of session) "destino")
            (field (metadata_of session) "fecha")
            (field (metadata_of session) "horario") (session_seat session)).
Proof.
  unfold claimed_seat, confirmed. simpl.
  destruct (isSeatBooked _ _ _ _ _ _); reflexivity.
Qed.

Lemma isSeatBooked_session st session :
  isSeatBooked (bookedSeatsByRoute st)
    (field (metadata_of session) "origen") (field (metadata_of session) "destino")
    (field (metadata_of session) "fecha") (field (metadata_of session) "horario")
    (session_seat session) = true
  ↔ session_seat session
      ∈ occupiedSeats (bookedSeatsByRoute st) (session_key session).
Proof. rewrite isSeatBooked_spec. reflexivity. Qed.

Lemma confirmed_occupied st id session createdAt :
  session_seat session
    ∈ occupiedSeats (bookedSeatsByRoute (state (confirmed st id session createdAt)))
        (session_key session).
Proof.
  unfold confirmed, occupiedSeats, session_key. simpl.
  rewrite lookup_bookSeat. simpl. set_solver.
Qed.

(** C1 - the paid-but-conflicted path, as the code runs it. When Stripe
    reports the session as paid, its metadata is complete and its seat is
    already in the ledger for its trip, the handler answers 200 "paid",
    leaves the ledger as it is and stores a ticket under the id of the
    session ([server.js] and [Backend/server.js] alike). No failure is
    reported. *)
Theorem paid_conflict_is_answered_paid st qid env session :
  paid_request qid env session →
  isSeatBooked (bookedSeatsByRoute st)
    (field (metadata_of session) "origen") (field (metadata_of session) "destino")
    (field (metadata_of session) "fecha") (field (metadata_of session) "horario")
    (session_seat session) = true →
  let o := get_checkout_session st qid env in
  let o' := Backend.get_checkout_session st qid env in
  response o = {| statusCode := 200; body := paid_body session |}
  ∧ bookedSeatsByRoute (state o) = bookedSeatsByRoute st
  ∧ ticketDatabase (state o) !! session_id session
    = Some (ticketData session (now env))
  ∧ state o' = state o ∧ response o' = response o.
Proof.
  intros Hpaid Hb o o'.
  destruct (backend_get_checkout_session_paid st qid env session Hpaid) as [Hs Hr].
  subst o o'. rewrite Hs, Hr, (get_checkout_session_paid _ _ _ _ Hpaid).
  unfold confirmed. simpl. rewrite (bookSeat_booked _ _ _ _ _ _ Hb).
  rewrite lookup_insert_eq. repeat split.
Qed.

(** The server never releases a seat and never drops a ticket. *)
Lemma handle_keeps st (req : Request Number) env key v id :
  (v ∈ occupiedSeats (bookedSeatsByRoute st) key →
   v ∈ occupiedSeats (bookedSeatsByRoute (state (handle st req env))) key)
  ∧ (id ∈ dom (ticketDatabase st) →
     id ∈ dom (ticketDatabase (state (handle st req env)))).
Proof.
  destruct req as [o d f h | b | qid | tid | routes status]; simpl.
  - unfold get_occupied_seats. case_match; auto.
  - rewrite post_create_checkout_session_state. auto.
  - unfold get_checkout_session.
    repeat case_match; simpl; auto; simplify_eq;
      unfold bookSeat in *; simplify_eq;
      (split; [auto using occupiedSeats_bookSeat_mono
              | rewrite dom_insert_L; intros ?; apply elem_of_union; now right]).
  - unfold get_ticket. case_match; auto.
  - auto.
Qed.

Lemma run_keeps reqs : ∀ st key v id,
  (v ∈ occupiedSeats (bookedSeatsByRoute st) key →
   v ∈ occupiedSeats (bookedSeatsByRoute (run st reqs).1) key)
  ∧ (id ∈ dom (ticketDatabase st) → id ∈ dom (ticketDatabase (run st reqs).1)).
Proof.
  induction reqs as [| [req env] rest IH]; intros st key v id; simpl; [auto |].
  destruct (handle_keeps st req env key v id) as [Hs Ht].
  destruct (IH (state (handle st req env)) key v id) as [IHs IHt].
  destruct (run _ rest) as [st' os]. simpl in *. auto.
Qed.

(** C2 - idempotent confirmation. After a confirmation that answered 200
    "paid", and after any requests served in between, confirming the same
    session again, while Stripe still reports the same session, gives the
    same response, leaves the ledger as it found it without writing it again,
    and leaves the same set of ticket ids: one ticket under the id of the
    session, rebuilt from the session (its [createdAt] is the time of the
    last call). *)
Theorem confirm_is_idempotent st qid env1 env2
    (between : list (Request Number * Env Number)) :
  let o1 := get_checkout_session st qid env1 in
  let st' := (run (state o1) between).1 in
  let o2 := get_checkout_session st' qid env2 in
  is_paid o1 = true →
  stripe_retrieve env2 (interpolate qid) = stripe_retrieve env1 (interpolate qid) →
  response o2 = response o1
  ∧ bookedSeatsByRoute (state o2) = bookedSeatsByRoute st'
  ∧ claimed_seat o2 = false
  ∧ dom (ticketDatabase (state o2)) = dom (ticketDatabase st')
  ∧ ∃ session,
      stripe_retrieve env1 (interpolate qid) = Retrieved session
      ∧ ticketDatabase (state o1) !! session_id session
        = Some (ticketData session (now env1))
      ∧ ticketDatabase (state o2) !! session_id session
        = Some (ticketData session (now env2)).
Proof.
  intros o1 st' o2 Hpaid Hsame.
  destruct (is_paid_inv _ _ _ Hpaid) as [session Hreq].
  assert (Hreq2 : paid_request qid env2 session).
  { destruct Hreq as (? & ? & ? & ?). repeat split; congruence. }
  assert (Ho1 : o1 = confirmed st (interpolate qid) session (now env1)).
  { apply get_checkout_session_paid, Hreq. }
  assert (Ho2 : o2 = confirmed st' (interpolate qid) session (now env2)).
  { apply get_checkout_session_paid, Hreq2. }
  destruct (run_keeps between (state o1) (session_key session)
              (session_seat session) (session_id session)) as [Hseat Hticket].
  fold st' in Hseat, Hticket.
  assert (Hocc : isSeatBooked (bookedSeatsByRoute st')
             (field (metadata_of session) "origen")
             (field (metadata_of session) "destino")
             (field (metadata_of session) "fecha")
             (field (metadata_of session) "horario") (session_seat session) = true).
  { apply isSeatBooked_session, Hseat. rewrite Ho1. apply confirmed_occupied. }
  assert (Hin : session_id session ∈ dom (ticketDatabase st')).
  { apply Hticket. rewrite Ho1. unfold confirmed. simpl.
    rewrite dom_insert_L. apply elem_of_union. left. now apply elem_of_singleton. }
  rewrite Ho2, Ho1.
  split; [reflexivity |].
  split; [unfold confirmed at 1; simpl; now apply bookSeat_booked |].
  split; [rewrite claimed_seat_confirmed; now rewrite Hocc |].
  split.
  - unfold confirmed at 1. simpl. rewrite dom_insert_L.
    apply subseteq_union_1_L. now apply singleton_subseteq_l.
  - exists session. destruct Hreq as (_ & Hr & _).
    split; [exact Hr |]. unfold confirmed. simpl.
    now rewrite !lookup_insert_eq.
Qed.

(** Confirmations of paid sessions for a seat that is in the ledger. *)
Lemma run_confirmations_occupied k s attempts : ∀ st,
  Forall (claim_attempt k s) attempts →
  JStr s ∈ occupiedSeats (bookedSeatsByRoute st) k →
  let r := run st (confirmations attempts) in
  map is_paid r.2 = repeat true (length attempts)
  ∧ map claimed_seat r.2 = repeat false (length attempts)
  ∧ JStr s ∈ occupiedSeats (bookedSeatsByRoute r.1) k.
Proof.
  induction attempts as [| [qid env] rest IH]; intros st Hall Hocc.
  - simpl. auto.
  - apply Forall_cons in Hall as [(session & Hreq & Hk & Hs) Hrest].
    simpl in Hreq. simpl.
    rewrite (get_checkout_session_paid _ _ _ _ Hreq).
    assert (Hb : isSeatBooked (bookedSeatsByRoute st)
              (field (metadata_of session) "origen")
              (field (metadata_of session) "destino")
              (field (metadata_of session) "fecha")
              (field (metadata_of session) "horario") (session_seat session) = true).
    { apply isSeatBooked_session. now rewrite Hk, Hs. }
    pose proof (confirmed_occupied st (interpolate qid) session (now env)) as Hocc'.
    rewrite Hk, Hs in Hocc'.
    specialize (IH _ Hrest Hocc').
    destruct (run _ (confirmations rest)) as [st' os]. simpl in *.
    destruct IH as (IH1 & IH2 & IH3).
    rewrite claimed_seat_confirmed, Hb, IH1, IH2. auto.
Qed.

(** C3 - concurrent claims of one seat, as the code runs them. Take any
    number of confirmations of paid sessions for the same trip key and seat,
    in any arrival order, from a state where the seat is free. Every one of
    them is answered 200 "paid"; the first to run adds the seat to the ledger
    and the others leave the ledger alone; the seat ends up occupied. None of
    them observes a refusal. *)
Theorem every_claim_attempt_succeeds st k s attempts :
  attempts ≠ [] →
  Forall (claim_attempt k s) attempts →
  JStr s ∉ occupiedSeats (bookedSeatsByRoute st) k →
  let r := run st (confirmations attempts) in
  map is_paid r.2 = repeat true (length attempts)
  ∧ map claimed_seat r.2 = true :: repeat false (length attempts - 1)
  ∧ JStr s ∈ occupiedSeats (bookedSeatsByRoute r.1) k.
Proof.
  destruct attempts as [| [qid env] rest]; [congruence |].
  intros _ Hall Hfree.
  apply Forall_cons in Hall as [(session & Hreq & Hk & Hs) Hrest].
  simpl in Hreq. simpl.
  rewrite (get_checkout_session_paid _ _ _ _ Hreq).
  assert (Hb : isSeatBooked (bookedSeatsByRoute st)
            (field (metadata_of session) "origen")
            (field (metadata_of session) "destino")
            (field (metadata_of session) "fecha")
            (field (metadata_of session) "horario") (session_seat session) = false).
  { apply not_true_is_false. rewrite isSeatBooked_session. now rewrite Hk, Hs. }
  pose proof (confirmed_occupied st (interpolate qid) session (now env)) as Hocc'.
  rewrite Hk, Hs in Hocc'.
  pose proof (run_confirmations_occupied k s rest _ Hrest Hocc') as IH.
  destruct (run _ (confirmations rest)) as [st' os]. simpl in *.
  destruct IH as (IH1 & IH2 & IH3).
  rewrite claimed_seat_confirmed, Hb, IH1, IH2, Nat.sub_0_r. auto.
Qed.

(** The ledger holds strings only, whatever the server does. *)
Lemma handle_all_strings st (req : Request Number) env :
  all_strings (bookedSeatsByRoute st) →
  all_strings (bookedSeatsByRoute (state (handle st req env))).
Proof.
  intros Hall. destruct req as [o d f h | b | qid | id | routes status]; simpl.
  - unfold get_occupied_seats. case_match; exact Hall.
  - now rewrite post_create_checkout_session_state.
  - unfold get_checkout_session.
    repeat case_match; simpl; try exact Hall; simplify_eq;
      unfold bookSeat in *; simplify_eq; try exact Hall.
    now apply all_strings_bookSeat.
  - unfold get_ticket. case_match; exact Hall.
  - exact Hall.
Qed.

(** C10 - seat identifiers are coerced to strings. Booking or querying with
    a seat value and with its string form are interchangeable: [bookSeat]
    yields the same ledger, [isSeatBooked] the same answer, and a seat booked
    under one form is found under the other. Every member of an occupied-seat
    set is a string: this holds of the empty ledger and is kept by [bookSeat]
    and by every request the server handles. *)
Theorem seat_is_coerced_to_string (booked : SeatLedger) o d f h (seat : Value) :
  all_strings booked →
  Ledger.bookSeat booked o d f h seat
    = Ledger.bookSeat booked o d f h (JStr (String_ seat))
  ∧ isSeatBooked booked o d f h seat
    = isSeatBooked booked o d f h (JStr (String_ seat))
  ∧ isSeatBooked (Ledger.bookSeat booked o d f h seat) o d f h (JStr (String_ seat))
    = true
  ∧ isSeatBooked (Ledger.bookSeat booked o d f h (JStr (String_ seat))) o d f h seat
    = true
  ∧ all_strings (Ledger.bookSeat booked o d f h seat)
  ∧ (all_strings (∅ : SeatLedger))
  ∧ ∀ st (req : Request Number) env,
      bookedSeatsByRoute st = booked →
      all_strings (bookedSeatsByRoute (state (handle st req env))).
Proof.
  intros Hall.
  split; [reflexivity |]. split; [reflexivity |].
  split; [apply (isSeatBooked_bookSeat booked o d f h seat) |].
  split; [apply (isSeatBooked_bookSeat booked o d f h seat) |].
  split; [now apply all_strings_bookSeat |].
  split; [apply all_strings_empty |].
  intros st req env <-. now apply handle_all_strings.
Qed.

End Facts.
End ServerFacts.

(** ** Properties of the reservation store *)

Module BookingFacts.
Import JS BookingModel.

Lemma isSeatAvailable_spec (st : Store) r a f :
  isSeatAvailable st r a f = true ↔
  ∀ ref booking, bookings st !! ref = Some booking → holds_seat r a f booking = false.
Proof.
  unfold isSeatAvailable. rewrite negb_true_iff. split.
  - intros Hex ref booking Hl. apply not_true_is_false. intros Hh.
    apply not_true_iff_false in Hex. apply Hex, existsb_exists.
    exists booking. split; [| exact Hh].
    apply list_elem_of_In, list_elem_of_fmap. exists (ref, booking).
    split; [reflexivity |]. now apply elem_of_map_to_list.
  - intros Hall. apply not_true_is_false. intros Hex.
    apply existsb_exists in Hex as (booking & Hin & Hh).
    apply list_elem_of_In, list_elem_of_fmap in Hin as ([ref bk] & -> & Hin).
    apply elem_of_map_to_list in Hin. simpl in Hh.
    now rewrite (Hall _ _ Hin) in Hh.
Qed.

Lemma holds_seat_cancelled r a f booking :
  estado booking = "cancelada" → holds_seat r a f booking = false.
Proof.
  intros E. unfold holds_seat. rewrite E. simpl. now rewrite andb_false_r.
Qed.

(** A successful claim, spelled out. *)
Lemma claim_claimed (st : Store) data ctl_ref ref now1 now2 booking :
  (claim st data ctl_ref ref now1 now2).2 = Claimed booking →
  isSeatAvailable st (bd_routeId data) (bd_asiento data) (bd_fecha data) = true
  ∧ bookings (claim st data ctl_ref ref now1 now2).1 = <[ref := booking]> (bookings st)
  ∧ routeId booking = bd_routeId data ∧ asiento booking = bd_asiento data
  ∧ fecha booking = bd_fecha data ∧ estado booking = "pendiente".
Proof.
  unfold claim.
  destruct (isSeatAvailable st _ _ _); simpl; [| discriminate].
  intros [= <-]. repeat split.
Qed.

Lemma claim_available (st : Store) data ctl_ref ref now1 now2 :
  isSeatAvailable st (bd_routeId data) (bd_asiento data) (bd_fecha data) = true →
  ∃ booking, (claim st data ctl_ref ref now1 now2).2 = Claimed booking.
Proof. intros Ha. unfold claim. rewrite Ha. simpl. eauto. Qed.

(** C9 - release and re-claim. Once a claim of a seat has succeeded the seat
    is taken; cancelling that reservation returns the cancelled reservation
    and makes the seat available again, so that a later claim of the same
    route, seat and date succeeds. Cancelling a reservation that does not
    exist, or that is already cancelled, changes nothing and returns [null]
    without raising. *)
Theorem release_then_reclaim (st : Store) data ctl_ref ref now1 now2
    motivo now3 now4 data' ctl_ref' ref' now5 now6 booking :
  (claim st data ctl_ref ref now1 now2).2 = Claimed booking →
  bd_routeId data' = bd_routeId data →
  bd_asiento data' = bd_asiento data →
  bd_fecha data' = bd_fecha data →
  let st1 := (claim st data ctl_ref ref now1 now2).1 in
  let released := cancelBooking st1 ref motivo now3 now4 in
  isSeatAvailable st1 (bd_routeId data) (bd_asiento data) (bd_fecha data) = false
  ∧ (∃ cancelled, released.2 = Some cancelled ∧ estado cancelled = "cancelada")
  ∧ isSeatAvailable released.1 (bd_routeId data) (bd_asiento data) (bd_fecha data)
    = true
  ∧ (∃ booking', (claim released.1 data' ctl_ref' ref' now5 now6).2 = Claimed booking')
  ∧ cancelBooking released.1 ref motivo now3 now4 = (released.1, None)
  ∧ ∀ (st0 : Store) ref0,
      bookings st0 !! ref0 = None
      ∨ (∃ free, bookings st0 !! ref0 = Some free ∧ estado free = "cancelada") →
      cancelBooking st0 ref0 motivo now3 now4 = (st0, None).
Proof.
  intros Hclaim Hr Ha Hf st1 released.
  destruct (claim_claimed _ _ _ _ _ _ _ Hclaim)
    as (Havail & Hst1 & Hbr & Hba & Hbf & Hbe).
  fold st1 in Hst1.
  assert (Hl1 : bookings st1 !! ref = Some booking).
  { rewrite Hst1. apply lookup_insert_eq. }
  assert (Hheld : isSeatAvailable st1 (bd_routeId data) (bd_asiento data)
                    (bd_fecha data) = false).
  { apply not_true_is_false. intros Hav.
    rewrite isSeatAvailable_spec in Hav. specialize (Hav _ _ Hl1).
    unfold holds_seat in Hav. rewrite Hbr, Hba, Hbf, Hbe in Hav.
    rewrite !bool_decide_eq_true_2 in Hav by reflexivity. discriminate. }
  assert (Hrel : ∃ cancelled,
             released = ({| bookings := <[ref := cancelled]> (bookings st1);
                            nextId := nextId st1 |}, Some cancelled)
             ∧ estado cancelled = "cancelada").
  { subst released. unfold cancelBooking, updateBooking.
    rewrite Hl1, Hbe. simpl. eexists. split; reflexivity. }
  destruct Hrel as (cancelled & Hrel & Hce).
  assert (Hfree : isSeatAvailable released.1 (bd_routeId data) (bd_asiento data)
                    (bd_fecha data) = true).
  { rewrite Hrel. simpl. apply isSeatAvailable_spec. simpl.
    intros ref0 bk Hl. rewrite Hst1, insert_insert_eq in Hl.
    destruct (decide (ref0 = ref)) as [-> | Hne].
    - rewrite lookup_insert_eq in Hl. injection Hl as <-.
      now apply holds_seat_cancelled.
    - rewrite lookup_insert_ne in Hl by congruence.
      rewrite isSeatAvailable_spec in Havail. now apply (Havail ref0). }
  split; [exact Hheld |].
  split; [exists cancelled; now rewrite Hrel |].
  split; [exact Hfree |].
  split; [apply claim_available; now rewrite Hr, Ha, Hf |].
  split.
  - rewrite Hrel. unfold cancelBooking. simpl.
    now rewrite lookup_insert_eq, Hce.
  - intros st0 ref0 [Habs | (free & Hl & He)]; unfold cancelBooking.
    + now rewrite Habs.
    + now rewrite Hl, He.
Qed.

End BookingFacts.

(** ** The properties on concrete data *)

Module Checks.
Import JS Ledger Server Spec Example.

Lemma getRouteKey_normalizes_example :
  let o2 := " ciudad de m" +:+ String (ascii_of_N 233) "xico " in
  getRouteKey (Some cdmx) (Some "Guadalajara") (Some "2024-01-15") (Some "10:00")
    = getRouteKey (Some o2) (Some " GUADALAJARA") (Some "2024-01-15") (Some "10:00")
  ∧ getRouteKey (Some cdmx) (Some "Guadalajara") (Some "2024-01-15") (Some "10:00")
    ≠ getRouteKey (Some o2) (Some " GUADALAJARA") (Some "2024-01-16") (Some "10:00")
  ∧ ∀ (booked : SeatLedger) (seat seat' : Value),
      let booked' :=
        Ledger.bookSeat booked (Some cdmx) (Some "Guadalajara")
          (Some "2024-01-15") (Some "10:00") seat in
      isSeatBooked booked' (Some o2) (Some " GUADALAJARA")
          (Some "2024-01-16") (Some "10:00") seat'
        = isSeatBooked booked (Some o2) (Some " GUADALAJARA")
            (Some "2024-01-16") (Some "10:00") seat'
      ∧ occupiedSeats booked'
          (getRouteKey (Some o2) (Some " GUADALAJARA") (Some "2024-01-16") (Some "10:00"))
        = occupiedSeats booked
            (getRouteKey (Some o2) (Some " GUADALAJARA") (Some "2024-01-16") (Some "10:00")).
Proof.
  apply (LedgerFacts.getRouteKey_normalizes cdmx _ "Guadalajara" " GUADALAJARA"
           "2024-01-15" "2024-01-16" (Some "10:00")).
  - exists "", "", " ", " ", cdmx, (toLowerCase cdmx).
    repeat split; try reflexivity.
    apply JSFacts.differ_by_caseb_sound. vm_compute. reflexivity.
  - exists "", "", " ", "", "Guadalajara", "GUADALAJARA".
    repeat split; try reflexivity.
    apply JSFacts.differ_by_caseb_sound. vm_compute. reflexivity.
  - discriminate.
Defined.

Lemma seat_is_coerced_to_string_example :
  let trip := (Some cdmx, Some "Guadalajara", Some "2024-01-15", Some "10:00") in
  let book seat := Ledger.bookSeat ∅ trip.1.1.1 trip.1.1.2 trip.1.2 trip.2 seat in
  let booked ledger seat := isSeatBooked ledger trip.1.1.1 trip.1.1.2 trip.1.2 trip.2 seat in
  book (JNum 12) = book (JStr "12")
  ∧ booked ∅ (JNum 12) = booked ∅ (JStr "12")
  ∧ booked (book (JNum 12)) (JStr "12") = true
  ∧ booked (book (JStr "12")) (JNum 12) = true
  ∧ all_strings (book (JNum 12)).
Proof.
  pose proof (ServerFacts.seat_is_coerced_to_string (Number := Num) ∅
                (Some cdmx) (Some "Guadalajara") (Some "2024-01-15") (Some "10:00")
                (JNum 12) LedgerFacts.all_strings_empty)
    as (H1 & H2 & H3 & H4 & H5 & _).
  repeat split; assumption.
Defined.

Lemma ana_paid : paid_request (Some "cs_1") later ana.
Proof. repeat split; vm_compute; reflexivity. Defined.

Lemma luis_paid : paid_request (Some "cs_2") later luis.
Proof. repeat split; vm_compute; reflexivity. Defined.

(** Seat 12 is Luis's; Ana's paid session for the same seat is confirmed. *)
Lemma paid_conflict_example :
  let o := get_checkout_session sold (Some "cs_1") later in
  let o' := Backend.get_checkout_session sold (Some "cs_1") later in
  response o = {| statusCode := 200; body := paid_body ana |}
  ∧ bookedSeatsByRoute (state o) = bookedSeatsByRoute sold
  ∧ ticketDatabase (state o) !! "cs_1" = Some (ticketData ana (now later))
  ∧ state o' = state o ∧ response o' = response o.
Proof.
  apply (ServerFacts.paid_conflict_is_answered_paid sold (Some "cs_1") later ana).
  - exact ana_paid.
  - vm_compute. reflexivity.
Defined.

(** Ana confirms twice. *)
Lemma confirm_is_idempotent_example :
  let o1 := get_checkout_session fresh (Some "cs_1") later in
  let st' := (run (state o1) [(GetTicket "cs_1", later)]).1 in
  let o2 := get_checkout_session st' (Some "cs_1") much_later in
  response o2 = response o1
  ∧ bookedSeatsByRoute (state o2) = bookedSeatsByRoute st'
  ∧ claimed_seat o2 = false
  ∧ dom (ticketDatabase (state o2)) = dom (ticketDatabase st')
  ∧ ∃ session,
      stripe_retrieve later "cs_1" = Retrieved session
      ∧ ticketDatabase (state o1) !! session_id session
        = Some (ticketData session (now later))
      ∧ ticketDatabase (state o2) !! session_id session
        = Some (ticketData session (now much_later)).
Proof.
  apply (ServerFacts.confirm_is_idempotent fresh (Some "cs_1") later much_later
           [(GetTicket "cs_1", later)]).
  - vm_compute. reflexivity.
  - reflexivity.
Defined.

(** Ana and Luis both confirm a paid session for seat 12. *)
Lemma every_claim_attempt_succeeds_example :
  let k := getRouteKey (Some cdmx) (Some "Guadalajara")
             (Some "2024-01-15") (Some "10:00") in
  let r := run fresh (confirmations [(Some "cs_1", later); (Some "cs_2", later)]) in
  map is_paid r.2 = [true; true]
  ∧ map claimed_seat r.2 = [true; false]
  ∧ JStr "12" ∈ occupiedSeats (bookedSeatsByRoute r.1) k.
Proof.
  apply (ServerFacts.every_claim_attempt_succeeds fresh _ "12"
           [(Some "cs_1", later); (Some "cs_2", later)]).
  - discriminate.
  - repeat constructor.
    + exists ana. split; [exact ana_paid | split; vm_compute; reflexivity].
    + exists luis. split; [exact luis_paid | split; vm_compute; reflexivity].
  - vm_compute. set_solver.
Defined.

(** The 10:00 departure costs 30; the client asserts 1. *)
Lemma no_price_tampering_example :
  let b := request "Ana" (JNum 12) "10:00" None in
  post_create_checkout_session fresh (with_precio (Some (pesos 1)) b) later
  = post_create_checkout_session fresh (with_precio (Some (pesos 30)) b) later
  ∧ ∃ config,
      effects (post_create_checkout_session fresh (with_precio (Some (pesos 1)) b) later)
      = [StripeCreate config]
      ∧ unit_amount config = pesos 3000.
Proof.
  intros b.
  destruct (ServerFacts.no_price_tampering fresh b later
              (Some (pesos 1)) (Some (pesos 30))) as [Hsame Hamount].
  split; [exact Hsame |].
  eexists. split; [vm_compute; reflexivity |].
  rewrite (Hamount _ guadalajara_route
             (schedule 2 "10:00" "17:30" "Primera Clase" 30)).
  - vm_compute. reflexivity.
  - vm_compute. left.
  - vm_compute. reflexivity.
  - vm_compute. reflexivity.
Defined.

(** No bus leaves Ciudad de México for Guadalajara at 09:00: the request is
    not refused, Stripe is asked for 2500 cents, the base price. *)
Lemma no_schedule_is_sold :
  ¬ no_schedule_is_not_found fresh (request "Ana" (JNum 12) "09:00" None) later.
Proof.
  intros Hclaim.
  specialize (Hclaim guadalajara_route).
  assert (E : response (post_create_checkout_session fresh
                          (request "Ana" (JNum 12) "09:00" None) later)
              = response (respond fresh 400 (ErrorBody "Ruta no válida") [])).
  { f_equal. apply Hclaim; vm_compute; reflexivity. }
  vm_compute in E. discriminate E.
Qed.

Lemma no_schedule_charges_base_price_example :
  let b := request "Ana" (JNum 12) "09:00" None in
  finalPrice guadalajara_route (Some "09:00") = pesos 25
  ∧ ∃ config,
      effects (post_create_checkout_session fresh b later) = [StripeCreate config]
      ∧ unit_amount config = pesos 2500
      ∧ metadata config !! "precio" = Some "25"
      ∧ response (post_create_checkout_session fresh b later)
        = {| statusCode := 200;
             body := UrlBody "https://checkout.stripe.com/pay/cs_new" |}.
Proof.
  intros b.
  destruct (ServerFacts.no_schedule_charges_base_price fresh b later guadalajara_route)
    as (Hfp & config & Heff & Hamount & Hmd & Hresp).
  - vm_compute. reflexivity.
  - vm_compute. reflexivity.
  - vm_compute. reflexivity.
  - intros s Hs. vm_compute in Hs.
    repeat (apply elem_of_cons in Hs as [-> | Hs]; [discriminate |]).
    inversion Hs.
  - split; [exact Hfp |]. exists config.
    split; [exact Heff |]. split; [exact Hamount |]. split; [exact Hmd |].
    rewrite Hresp. reflexivity.
Defined.

(** A request without a passenger name for Luis's seat: 400, not 409. *)
Lemma occupied_seat_without_name_is_400 :
  ¬ occupied_is_conflict sold anonymous later.
Proof.
  intros Hclaim.
  assert (Htaken : seat_taken sold anonymous = true) by (vm_compute; reflexivity).
  destruct (Hclaim Htaken) as [Hcode _].
  vm_compute in Hcode. discriminate Hcode.
Qed.

Lemma occupied_seat_is_conflict_example :
  post_create_checkout_session sold (request "Ana" (JNum 12) "10:00" None) later
  = respond sold 409 (ErrorBody "El asiento seleccionado no está disponible") [].
Proof.
  apply (ServerFacts.occupied_seat_is_conflict sold
           (request "Ana" (JNum 12) "10:00" None) later).
  - vm_compute. reflexivity.
  - vm_compute. reflexivity.
Defined.

(** Seat 12 is claimed, released, and claimed again. *)
Lemma release_then_reclaim_example :
  let claimed :=
    BookingModel.claim BookingModel.clearAll (reservation "Ana")
      "TB-CTL-1" "TBLX1A2B3C" "2024-01-10T09:00:00.000Z" "2024-01-10T09:00:00.001Z" in
  let released :=
    BookingModel.cancelBooking claimed.1 "TBLX1A2B3C" None
      "2024-01-11T08:00:00.000Z" "2024-01-11T08:00:00.001Z" in
  BookingModel.isSeatAvailable claimed.1 (JNum 2) (JNum 12) (Some "2024-01-15") = false
  ∧ (∃ cancelled, released.2 = Some cancelled
                  ∧ BookingModel.estado cancelled = "cancelada")
  ∧ BookingModel.isSeatAvailable released.1 (JNum 2) (JNum 12) (Some "2024-01-15") = true
  ∧ (∃ booking',
       (BookingModel.claim released.1 (reservation "Luis")
          "TB-CTL-2" "TBLX9Z8Y7X" "2024-01-12T09:00:00.000Z" "2024-01-12T09:00:00.001Z").2
       = BookingModel.Claimed booking')
  ∧ BookingModel.cancelBooking released.1 "TBLX1A2B3C" None
      "2024-01-11T08:00:00.000Z" "2024-01-11T08:00:00.001Z" = (released.1, None).
Proof.
  destruct (BookingFacts.release_then_reclaim BookingModel.clearAll (reservation "Ana")
              "TB-CTL-1" "TBLX1A2B3C" "2024-01-10T09:00:00.000Z" "2024-01-10T09:00:00.001Z"
              None "2024-01-11T08:00:00.000Z" "2024-01-11T08:00:00.001Z"
              (reservation "Luis") "TB-CTL-2" "TBLX9Z8Y7X"
              "2024-01-12T09:00:00.000Z" "2024-01-12T09:00:00.001Z"
              (BookingModel.createBooking BookingModel.clearAll
                 (BookingModel.Build_BookingData None (Some "TB-CTL-1") (Some "Ana")
                    (Some "ana@example.com") (Some "5512345678") (Some cdmx)
                    (Some "Guadalajara") (JNum 2) (JNum 12) (Some "10:00")
                    (Some "2024-01-15") (JNum 30) (Some "pendiente"))
                 "TBLX1A2B3C" "2024-01-10T09:00:00.000Z" "2024-01-10T09:00:00.001Z").2)
    as (H1 & H2 & H3 & H4 & H5 & _).
  - vm_compute. reflexivity.
  - reflexivity.
  - reflexivity.
  - reflexivity.
  - repeat split; assumption.
Defined.

End Checks.

(** ** Further properties of the seat ledger *)

Module LedgerMore.
Import JS Ledger Spec Invariants JSFacts LedgerFacts.

Lemma pretty_N_go_length x : ∀ s,
  (String.length s ≤ String.length (pretty_N_go x s))%nat.
Proof.
  induction (N.lt_wf_0 x) as [x _ IH]; intros s.
  destruct (decide (x = 0%N)) as [-> | Hx].
  - now rewrite pretty_N_go_0.
  - rewrite pretty_N_go_step by lia.
    etransitivity; [| apply IH; apply N.div_lt; lia]. simpl. lia.
Qed.

Lemma pretty_Z_nonempty (n : Z) : pretty n ≠ "".
Proof.
  destruct n as [| p | p]; [discriminate | | discriminate].
  unfold pretty, pretty_Z, pretty, pretty_positive, pretty, pretty_N.
  destruct (decide (N.pos p = 0%N)); [discriminate |].
  rewrite pretty_N_go_step by lia. intros E.
  pose proof (pretty_N_go_length (N.pos p `div` 10)
                (String (pretty_N_char (N.pos p `mod` 10)) "")) as Hlen.
  rewrite E in Hlen. simpl in Hlen. lia.
Qed.

(** A truthy seat value has a non-empty string form. *)
Lemma String_truthy (v : Value) : truthy v = true → truthy_str (Some (String_ v)) = true.
Proof.
  destruct v as [| n | s]; simpl; [discriminate | | auto].
  intros _. destruct (String.eqb_spec (pretty n) ""); [| reflexivity].
  now destruct (pretty_Z_nonempty n).
Qed.

Lemma occupiedSeats_bookSeat (booked : SeatLedger) o d f h seat key :
  occupiedSeats (bookSeat booked o d f h seat) key
  = if decide (key = getRouteKey o d f h)
    then occupiedSeats booked key ∪ {[ JStr (String_ seat) ]}
    else occupiedSeats booked key.
Proof.
  unfold occupiedSeats at 1. case_decide as Hk.
  - subst key. now rewrite lookup_bookSeat.
  - now rewrite lookup_bookSeat_ne.
Qed.

(** X1 - what a booking changes. After [bookSeat] for a trip and a seat, a
    seat of a trip is reported booked exactly when it was booked before or
    it is the seat just booked: same trip key and same string form. In
    particular two distinct seat numbers are never taken for one another,
    and booking twice is booking once. *)
Theorem bookSeat_marks_one_seat (booked : SeatLedger) o d f h seat o' d' f' h' seat' :
  isSeatBooked (bookSeat booked o d f h seat) o' d' f' h' seat'
  = isSeatBooked booked o' d' f' h' seat'
    || (bool_decide (getRouteKey o' d' f' h' = getRouteKey o d f h)
        && bool_decide (String_ seat' = String_ seat))
  ∧ (∀ n m : Z, n ≠ m →
       isSeatBooked (bookSeat booked o d f h (JNum n)) o d f h (JNum m)
       = isSeatBooked booked o d f h (JNum m))
  ∧ bookSeat (bookSeat booked o d f h seat) o d f h seat
    = bookSeat booked o d f h seat.
Proof.
  assert (Hchar : ∀ s', isSeatBooked (bookSeat booked o d f h seat) o' d' f' h' s'
    = isSeatBooked booked o' d' f' h' s'
      || (bool_decide (getRouteKey o' d' f' h' = getRouteKey o d f h)
          && bool_decide (String_ s' = String_ seat))).
  { intros s'. apply eq_true_iff_eq.
    rewrite orb_true_iff, andb_true_iff, !bool_decide_eq_true, !isSeatBooked_spec.
    rewrite occupiedSeats_bookSeat. case_decide as Hk.
    - rewrite elem_of_union, elem_of_singleton. split.
      + intros [? | [= E]]; auto.
      + intros [? | [_ E]]; [now left | right; now rewrite E].
    - split; [now left | intros [? | [? _]]; [assumption | contradiction]]. }
  split; [apply Hchar |]. split.
  - intros n m Hnm.
    assert (Hc : ∀ s', isSeatBooked (bookSeat booked o d f h (JNum n)) o d f h s'
      = isSeatBooked booked o d f h s'
        || (bool_decide (getRouteKey o d f h = getRouteKey o d f h)
            && bool_decide (String_ s' = String_ (JNum n)))).
    { intros s'. apply eq_true_iff_eq.
      rewrite orb_true_iff, andb_true_iff, !bool_decide_eq_true, !isSeatBooked_spec.
      rewrite occupiedSeats_bookSeat, decide_True by reflexivity.
      rewrite elem_of_union, elem_of_singleton. split.
      - intros [? | [= E]]; auto.
      - intros [? | [_ E]]; [now left | right; now rewrite E]. }
    rewrite Hc. rewrite (bool_decide_eq_false_2 (String_ (JNum m) = String_ (JNum n))).
    + now rewrite andb_false_r, orb_false_r.
    + simpl. intros E. apply Hnm. symmetry. now apply (inj pretty).
  - apply bookSeat_booked, isSeatBooked_bookSeat.
Qed.

Lemma no_pipe_split s : ∀ s' t t',
  no_pipe s = true → no_pipe s' = true →
  s +:+ String "|" t = s' +:+ String "|" t' → s = s' ∧ t = t'.
Proof.
  induction s as [| a s IH]; intros [| b s'] t t' Hs Hs' E;
    cbn [String.append no_pipe] in *.
  - injection E as ->. auto.
  - injection E as <- _. discriminate.
  - injection E as -> _. discriminate.
  - injection E as -> E.
    apply andb_true_iff in Hs as [_ Hs]. apply andb_true_iff in Hs' as [_ Hs'].
    destruct (IH _ _ _ Hs Hs' E) as [-> ->]. auto.
Qed.

(** X2 - trip keys can be read back. When the normalized origin, the
    normalized destination and the date of two trips contain no "|", equal
    keys mean equal normalized origins, equal normalized destinations, equal
    dates and equal times: two such trips never share an occupancy set
    unless they are the same trip. *)
Theorem getRouteKey_injective o d f h o' d' f' h' :
  no_pipe (normalize o) = true → no_pipe (normalize d) = true →
  no_pipe (interpolate f) = true →
  no_pipe (normalize o') = true → no_pipe (normalize d') = true →
  no_pipe (interpolate f') = true →
  getRouteKey o d f h = getRouteKey o' d' f' h' →
  normalize o = normalize o' ∧ normalize d = normalize d'
  ∧ interpolate f = interpolate f' ∧ interpolate h = interpolate h'.
Proof.
  intros Ho Hd Hf Ho' Hd' Hf' E. unfold getRouteKey in E.
  fold (normalize o) (normalize d) (normalize o') (normalize d') in E.
  change (normalize o +:+ String "|" (normalize d +:+ String "|"
            (interpolate f +:+ String "|" (interpolate h)))
          = normalize o' +:+ String "|" (normalize d' +:+ String "|"
              (interpolate f' +:+ String "|" (interpolate h')))) in E.
  apply no_pipe_split in E as [Eo E]; [| assumption..].
  apply no_pipe_split in E as [Ed E]; [| assumption..].
  apply no_pipe_split in E as [Ef Eh]; [| assumption..].
  auto.
Qed.

(** X3 - absent and blank places. An origin (or a destination) that is
    absent, empty, or made of whitespace only gives the same key as no origin
    at all: its component of the key is empty. *)
Theorem getRouteKey_blank (o d : string) f h :
  all_whitespace o = true → all_whitespace d = true →
  getRouteKey (Some o) (Some d) f h = getRouteKey None None f h
  ∧ getRouteKey None None f h = "||" +:+ interpolate f +:+ "|" +:+ interpolate h.
Proof.
  intros Ho Hd. split; [| reflexivity].
  assert (Hn : ∀ s, all_whitespace s = true → normalize (Some s) = "").
  { intros s Hs. unfold normalize, or_else, truthy_str.
    destruct (String.eqb s ""); simpl; [reflexivity |].
    unfold trim. now rewrite trimStart_all_whitespace. }
  unfold getRouteKey. fold (normalize (Some o)) (normalize (Some d)).
  now rewrite (Hn o Ho), (Hn d Hd).
Qed.

End LedgerMore.

(** ** Further properties of the checkout handlers *)

Module ServerMore.
Import JS Ledger Server Spec Invariants JSFacts LedgerFacts ServerFacts LedgerMore.

Section Facts.
Context {Number : Type} `{NumberOps Number}.

Implicit Types (st : State Number) (b : CheckoutBody Number) (env : Env Number)
  (session : Session Number) (qid : option string).

(** Either a confirmation is one of a paid session with complete metadata,
    or it changes nothing and calls Stripe at most. *)
Lemma get_checkout_session_cases st qid env :
  (∃ session, paid_request qid env session)
  ∨ (is_paid (get_checkout_session st qid env) = false
     ∧ state (get_checkout_session st qid env) = st
     ∧ (effects (get_checkout_session st qid env) = []
        ∨ effects (get_checkout_session st qid env)
          = [StripeRetrieve (interpolate qid)])
     ∧ (truthy_str qid = false → effects (get_checkout_session st qid env) = [])).
Proof.
  unfold get_checkout_session, paid_request.
  destruct (truthy_str qid) eqn:Hq; simpl; [| right; auto].
  destruct (stripe_retrieve env (interpolate qid)) as [session | |] eqn:Hr;
    simpl; [| right; repeat split; auto; discriminate..].
  destruct (String.eqb_spec (payment_status session) "paid") as [Hp |]; simpl;
    [| right; repeat split; auto; discriminate].
  destruct (metadata_complete (metadata_of session)) eqn:Hm; simpl;
    [| right; repeat split; auto; discriminate].
  left. now exists session.
Qed.

(** X4 - the occupied-seat query. [GET /api/occupied-seats] never changes
    the state and never writes. With a parameter missing or empty it answers
    400; otherwise it answers 200 with a set that holds the string form of a
    seat exactly when [isSeatBooked] reports that seat as booked for the
    trip: what the seat map shows is what the purchase guard tests. *)
Theorem occupied_seats_agree st o d f h :
  state (get_occupied_seats st o d f h) = st
  ∧ effects (get_occupied_seats st o d f h) = []
  ∧ (truthy_str o && truthy_str d && truthy_str f && truthy_str h = false →
     response (get_occupied_seats st o d f h)
     = {| statusCode := 400; body := ErrorBody "Faltan parámetros requeridos" |})
  ∧ (truthy_str o && truthy_str d && truthy_str f && truthy_str h = true →
     ∃ seats,
       response (get_occupied_seats st o d f h)
       = {| statusCode := 200; body := OccupiedBody seats |}
       ∧ ∀ seat, isSeatBooked (bookedSeatsByRoute st) o d f h seat = true
                 ↔ JStr (String_ seat) ∈ seats).
Proof.
  unfold get_occupied_seats.
  destruct (truthy_str o), (truthy_str d), (truthy_str f), (truthy_str h);
    simpl; repeat split; try discriminate; try reflexivity.
  intros _. eexists. split; [reflexivity |].
  intros seat. apply isSeatBooked_spec.
Qed.

(** X5 - a confirmation that is not answered 200 "paid" changes nothing.
    Whatever the reason (no session id, Stripe failing, no such session, an
    unpaid session, incomplete metadata), the state is what it was and
    nothing is written to disk; without a session id Stripe is not even
    called. The same holds of [Backend/server.js]. *)
Theorem unconfirmed_changes_nothing st qid env :
  is_paid (get_checkout_session st qid env) = false →
  state (get_checkout_session st qid env) = st
  ∧ existsb writes_disk (effects (get_checkout_session st qid env)) = false
  ∧ (truthy_str qid = false → effects (get_checkout_session st qid env) = [])
  ∧ state (Backend.get_checkout_session st qid env) = st.
Proof.
  intros Hnot.
  destruct (get_checkout_session_cases st qid env)
    as [[session Hreq] | (_ & Hst & Heff & Hno)].
  - rewrite (get_checkout_session_paid _ _ _ _ Hreq) in Hnot. discriminate.
  - split; [exact Hst |]. split; [destruct Heff as [-> | ->]; reflexivity |].
    split; [exact Hno |].
    revert Hnot. unfold get_checkout_session, Backend.get_checkout_session.
    repeat case_match; simpl; try reflexivity; discriminate.
Qed.

Lemma interpolate_truthy (o : option string) :
  truthy_str o = true → Some (interpolate o) = o.
Proof. destruct o; simpl; [reflexivity | discriminate]. Qed.

Lemma metadata_complete_fields (md : gmap string string) :
  metadata_complete md = true →
  truthy_str (field md "nombre") = true ∧ truthy_str (field md "origen") = true
  ∧ truthy_str (field md "destino") = true ∧ truthy_str (field md "asiento") = true
  ∧ truthy_str (field md "horario") = true ∧ truthy_str (field md "fecha") = true.
Proof.
  unfold metadata_complete. rewrite !andb_true_iff. tauto.
Qed.

(** The ticket of a session sits on the trip and the seat of the session. *)
Lemma ticketData_key session createdAt :
  metadata_complete (metadata_of session) = true →
  ticket_key (ticketData session createdAt) = session_key session
  ∧ JStr (t_asiento (ticketData session createdAt)) = session_seat session.
Proof.
  intros (_ & Ho & Hd & _ & Hh & Hf)%metadata_complete_fields.
  unfold ticket_key, session_key, ticketData. simpl.
  now rewrite !interpolate_truthy.
Qed.

Lemma handle_tickets_filed st (req : Request Number) env :
  tickets_filed st → tickets_filed (state (handle st req env)).
Proof.
  intros Hinv. destruct req as [o d f h | b | qid | id | routes status]; simpl.
  - unfold get_occupied_seats. case_match; exact Hinv.
  - now rewrite post_create_checkout_session_state.
  - destruct (get_checkout_session_cases st qid env)
      as [[session Hreq] | (_ & -> & _)]; [| exact Hinv].
    rewrite (get_checkout_session_paid _ _ _ _ Hreq).
    intros id t. unfold confirmed. simpl.
    destruct (decide (id = session_id session)) as [-> | Hne].
    + rewrite lookup_insert_eq. intros [= <-]. auto.
    + rewrite lookup_insert_ne by congruence. apply Hinv.
  - unfold get_ticket. case_match; exact Hinv.
  - exact Hinv.
Qed.

Lemma handle_tickets_seated st (req : Request Number) env :
  tickets_seated st → tickets_seated (state (handle st req env)).
Proof.
  intros Hinv. destruct req as [o d f h | b | qid | id | routes status]; simpl.
  - unfold get_occupied_seats. case_match; exact Hinv.
  - now rewrite post_create_checkout_session_state.
  - destruct (get_checkout_session_cases st qid env)
      as [[session Hreq] | (_ & -> & _)]; [| exact Hinv].
    rewrite (get_checkout_session_paid _ _ _ _ Hreq).
    intros id t Hl.
    pose proof (confirmed_occupied st (interpolate qid) session (now env)) as Hocc.
    revert Hl Hocc. unfold confirmed. simpl.
    destruct (decide (id = session_id session)) as [-> | Hne].
    + rewrite lookup_insert_eq. intros [= <-] Hocc.
      destruct Hreq as (_ & _ & _ & Hm).
      destruct (ticketData_key session (now env) Hm) as [-> ->]. exact Hocc.
    + rewrite lookup_insert_ne by congruence. intros Hl _.
      apply occupiedSeats_bookSeat_mono. now apply (Hinv id).
  - unfold get_ticket. case_match; exact Hinv.
  - exact Hinv.
Qed.

(** X6 - tickets are filed under their own id. From a ticket store in which
    every ticket sits under its own session id and is marked paid (the empty
    store of a new server is one), every sequence of requests leads to such a
    store again. *)
Theorem tickets_stay_filed st (reqs : list (Request Number * Env Number)) :
  tickets_filed st → tickets_filed (run st reqs).1.
Proof.
  revert st. induction reqs as [| [req env] rest IH]; intros st Hinv; [exact Hinv |].
  simpl. specialize (IH _ (handle_tickets_filed st req env Hinv)).
  destruct (run _ rest). exact IH.
Qed.

(** X7 - every ticket has its seat. From a state in which the seat of every
    ticket is in the ledger under the trip of the ticket, every sequence of
    requests leads to such a state again: the server never holds a ticket
    whose seat the seat map shows as free. *)
Theorem tickets_stay_seated st (reqs : list (Request Number * Env Number)) :
  tickets_seated st → tickets_seated (run st reqs).1.
Proof.
  revert st. induction reqs as [| [req env] rest IH]; intros st Hinv; [exact Hinv |].
  simpl. specialize (IH _ (handle_tickets_seated st req env Hinv)).
  destruct (run _ rest). exact IH.
Qed.

(** X8 - a ticket can be read back. Right after a paid confirmation,
    [GET /api/ticket/:sessionId] for the id of the session answers 200 with
    the ticket built from the session; after any further requests it still
    answers 200 with a ticket; and for an id without a ticket it answers 404.
    The query never changes the state. *)
Theorem ticket_read_back st qid env session
    (between : list (Request Number * Env Number)) :
  paid_request qid env session →
  let st1 := state (get_checkout_session st qid env) in
  let st2 := (run st1 between).1 in
  get_ticket st1 (session_id session)
    = respond st1 200 (TicketBody (ticketData session (now env))) []
  ∧ (∃ t, get_ticket st2 (session_id session) = respond st2 200 (TicketBody t) [])
  ∧ ∀ st' id, ticketDatabase st' !! id = None →
      get_ticket st' id = respond st' 404 (ErrorBody "Boleto no encontrado") [].
Proof.
  intros Hreq st1 st2. subst st1 st2.
  rewrite (get_checkout_session_paid _ _ _ _ Hreq).
  split; [| split].
  - unfold get_ticket, confirmed. simpl. now rewrite lookup_insert_eq.
  - destruct (run_keeps between
                (state (confirmed st (interpolate qid) session (now env)))
                "" JUndefined (session_id session)) as [_ Hdom].
    assert (Hin : session_id session
              ∈ dom (ticketDatabase (run (state (confirmed st (interpolate qid)
                                                  session (now env))) between).1)).
    { apply Hdom. unfold confirmed. simpl. rewrite dom_insert_L.
      apply elem_of_union. left. now apply elem_of_singleton. }
    apply elem_of_dom in Hin as [t Ht]. exists t.
    unfold get_ticket. now rewrite Ht.
  - intros st' id Hnone. unfold get_ticket. now rewrite Hnone.
Qed.

(** X9 - a sold seat stays sold. After a paid confirmation, and after any
    further requests, a purchase request that carries the required members
    for the same trip key and seat is answered 409 without a call to Stripe,
    and the occupied-seat query for that trip lists the seat: [server.js] has
    no operation that frees a seat. *)
Theorem sold_seat_stays_sold st qid env session
    (between : list (Request Number * Env Number)) b env' :
  paid_request qid env session →
  required_fields b = true →
  getRouteKey (origen b) (destino b) (fecha b) (horario b) = session_key session →
  JStr (String_ (asiento b)) = session_seat session →
  let st' := (run (state (get_checkout_session st qid env)) between).1 in
  post_create_checkout_session st' b env'
    = respond st' 409 (ErrorBody "El asiento seleccionado no está disponible") []
  ∧ response (get_occupied_seats st' (origen b) (destino b) (fecha b) (horario b))
    = {| statusCode := 200;
         body := OccupiedBody (occupiedSeats (bookedSeatsByRoute st')
                                 (session_key session)) |}
  ∧ session_seat session ∈ occupiedSeats (bookedSeatsByRoute st') (session_key session).
Proof.
  intros Hreq Hfields Hkey Hseat st'.
  assert (Hocc : session_seat session
                   ∈ occupiedSeats (bookedSeatsByRoute st') (session_key session)).
  { subst st'. rewrite (get_checkout_session_paid _ _ _ _ Hreq).
    apply (run_keeps between _ (session_key session) (session_seat session) "").
    apply confirmed_occupied. }
  split; [| split; [| exact Hocc]].
  - assert (Htaken : seat_taken st' b = true).
    { unfold seat_taken. apply isSeatBooked_spec. now rewrite Hkey, Hseat. }
    now rewrite post_create_checkout_session_cases, Hfields, Htaken.
  - unfold get_occupied_seats.
    unfold required_fields in Hfields. rewrite !andb_true_iff in Hfields.
    destruct Hfields as ((((((_ & -> ) & ->) & _) & ->) & ->) & _). simpl.
    now rewrite Hkey.
Qed.

Lemma sessionConfig_metadata b fp base :
  let md := metadata (sessionConfig b fp base) in
  field md "nombre" = Some (interpolate (nombre b))
  ∧ field md "origen" = Some (interpolate (origen b))
  ∧ field md "destino" = Some (interpolate (destino b))
  ∧ field md "asiento" = Some (String_ (asiento b))
  ∧ field md "horario" = Some (interpolate (horario b))
  ∧ field md "fecha" = Some (interpolate (fecha b))
  ∧ field md "precio" = Some (num_toString fp).
Proof. repeat split. Qed.

Lemma truthy_str_interpolate (o : option string) :
  truthy_str o = true → truthy_str (Some (interpolate o)) = true.
Proof. intros Ho. now rewrite interpolate_truthy. Qed.

(** X10 - from purchase to confirmation. The metadata the purchase handler
    attaches to the Stripe session of a request with the required members is
    complete in the sense the confirmation handler demands, and names the
    trip and seat of the request. So once Stripe reports that session as
    paid, the confirmation answers 200 "paid", the requested seat is booked
    for the requested trip, and the ticket carries the passenger name, the
    seat and the price that was quoted, read back from its printed form. *)
Theorem purchase_then_confirmation b fp base id total st qid env :
  required_fields b = true →
  truthy_str qid = true →
  stripe_retrieve env (interpolate qid)
    = Retrieved (session_for (sessionConfig b fp base) id total) →
  let session := session_for (sessionConfig b fp base) id total in
  let o := get_checkout_session st qid env in
  metadata_complete (metadata_of session) = true
  ∧ session_key session = getRouteKey (origen b) (destino b) (fecha b) (horario b)
  ∧ is_paid o = true
  ∧ isSeatBooked (bookedSeatsByRoute (state o))
      (origen b) (destino b) (fecha b) (horario b) (asiento b) = true
  ∧ ∃ t, ticketDatabase (state o) !! id = Some t
         ∧ t_nombre t = interpolate (nombre b)
         ∧ t_asiento t = String_ (asiento b)
         ∧ t_precio t = parseFloat (Some (num_toString fp))
         ∧ t_amountPaid t = num_div total (num_lit 100).
Proof.
  intros Hfields Hq Hr session o.
  unfold required_fields in Hfields. rewrite !andb_true_iff in Hfields.
  destruct Hfields as ((((((Hn & Ho) & Hd) & Ha) & Hh) & Hf) & _).
  destruct (sessionConfig_metadata b fp base)
    as (Mn & Mo & Md & Ma & Mh & Mf & Mp).
  assert (Hmd : metadata_of session = metadata (sessionConfig b fp base))
    by reflexivity.
  assert (Hm : metadata_complete (metadata_of session) = true).
  { rewrite Hmd. unfold metadata_complete.
    rewrite Mn, Mo, Md, Ma, Mh, Mf.
    rewrite !truthy_str_interpolate by assumption.
    now rewrite String_truthy. }
  assert (Hk : session_key session
               = getRouteKey (origen b) (destino b) (fecha b) (horario b)).
  { unfold session_key. rewrite Hmd, Mo, Md, Mh, Mf.
    now rewrite !interpolate_truthy. }
  assert (Hreq : paid_request qid env session).
  { repeat split; assumption. }
  split; [exact Hm |]. split; [exact Hk |].
  subst o. rewrite (get_checkout_session_paid _ _ _ _ Hreq).
  split; [reflexivity |]. split.
  - apply isSeatBooked_spec. rewrite <- Hk.
    pose proof (confirmed_occupied st (interpolate qid) session (now env)) as Hocc.
    unfold session_seat in Hocc. rewrite Hmd, Ma in Hocc. exact Hocc.
  - exists (ticketData session (now env)). split.
    + unfold confirmed. simpl. apply lookup_insert_eq.
    + unfold ticketData. cbn [t_nombre t_asiento t_precio t_amountPaid].
      rewrite Hmd, Mn, Ma, Mp. auto.
Qed.


(** X12 - the two copies of the confirmation handler agree. For every
    state, request and answer of Stripe, [Backend/server.js] leaves the same
    state and gives the same response as [server.js]; it differs only in
    writing nothing to disk. *)
Theorem backend_confirmation_agrees st qid env :
  state (Backend.get_checkout_session st qid env)
    = state (get_checkout_session st qid env)
  ∧ response (Backend.get_checkout_session st qid env)
    = response (get_checkout_session st qid env)
  ∧ existsb writes_disk (effects (Backend.get_checkout_session st qid env)) = false
  ∧ filter (λ e, negb (writes_disk e)) (effects (get_checkout_session st qid env))
    = effects (Backend.get_checkout_session st qid env).
Proof.
  unfold Backend.get_checkout_session, get_checkout_session, bookSeat.
  repeat case_match; simplify_eq; simpl; repeat split; reflexivity.
Qed.

End Facts.
End ServerMore.

(** ** Properties of the administration handlers *)

Module AdminFacts.
Import JS Ledger Server Admin Spec Invariants JSFacts LedgerFacts ServerFacts.

Lemma decimal_digit_char (d : N) :
  (d < 10)%N → decimal_digit (pretty_N_char d) = Some (Z.of_N d).
Proof.
  intros Hd.
  assert (d = 0 ∨ d = 1 ∨ d = 2 ∨ d = 3 ∨ d = 4 ∨ d = 5 ∨ d = 6 ∨ d = 7
          ∨ d = 8 ∨ d = 9)%N as Hcases by lia.
  repeat (destruct Hcases as [-> | Hcases]; [reflexivity |]).
  now subst.
Qed.

Lemma parse_digits_pretty (x : N) :
  (0 < x)%N →
  ∃ p : Z, ∀ s acc,
    parse_digits decimal_digit 10 (pretty_N_go x s) acc
    = parse_digits decimal_digit 10 s (Some (p * default 0 acc + Z.of_N x)).
Proof.
  induction (N.lt_wf_0 x) as [x _ IH]. intros Hx.
  assert (Hmod : (x `mod` 10 < 10)%N) by (apply N.mod_lt; lia).
  assert (Hdiv : x = (10 * (x `div` 10) + x `mod` 10)%N) by (apply N.div_mod; lia).
  destruct (decide (x `div` 10 = 0)%N) as [Hz | Hnz].
  - exists 10. intros s acc. rewrite pretty_N_go_step, Hz, pretty_N_go_0 by exact Hx.
    simpl. rewrite decimal_digit_char by exact Hmod.
    do 2 f_equal. lia.
  - destruct (IH (x `div` 10)%N) as [p Hp]; [apply N.div_lt; lia | lia |].
    exists (10 * p). intros s acc. rewrite pretty_N_go_step by exact Hx.
    rewrite Hp. simpl. rewrite decimal_digit_char by exact Hmod.
    do 2 f_equal. simpl. lia.
Qed.

Lemma all_digits_pretty_go (x : N) : ∀ s,
  all_digits s = true → all_digits (pretty_N_go x s) = true.
Proof.
  induction (N.lt_wf_0 x) as [x _ IH]. intros s Hs.
  destruct (decide (x = 0)%N) as [-> | Hx]; [now rewrite pretty_N_go_0 |].
  rewrite pretty_N_go_step by lia. apply IH; [apply N.div_lt; lia |].
  simpl. rewrite Hs, andb_true_r. apply bool_decide_eq_true.
  rewrite decimal_digit_char by (apply N.mod_lt; lia). eauto.
Qed.

Lemma digit_is_plain c :
  is_Some (decimal_digit c) →
  is_whitespace c = false ∧ Ascii.eqb c "-" = false ∧ Ascii.eqb c "+" = false
  ∧ Ascii.eqb c "x" = false ∧ Ascii.eqb c "X" = false.
Proof.
  destruct c as [[] [] [] [] [] [] [] []]; vm_compute; intros [z Hz];
    try discriminate; auto.
Qed.

Lemma magnitude_digits (s : string) :
  all_digits s = true → magnitude s = parse_digits decimal_digit 10 s None.
Proof.
  destruct s as [| c0 [| c1 r]]; try reflexivity.
  intros Hall. cbn [all_digits] in Hall.
  apply andb_true_iff in Hall as [_ Hall].
  apply andb_true_iff in Hall as [Hc1%bool_decide_eq_true _].
  destruct (digit_is_plain c1 Hc1) as (_ & _ & _ & Hx & HX).
  unfold magnitude. now rewrite Hx, HX, andb_false_r.
Qed.

Lemma parseInt_digits (s : string) :
  all_digits s = true → parseInt s = parse_digits decimal_digit 10 s None.
Proof.
  intros Hall. unfold parseInt.
  assert (Hs : strip_sign (trimStart s) = (false, s)).
  { destruct s as [| c0 s]; [reflexivity |].
    cbn [all_digits] in Hall.
    apply andb_true_iff in Hall as [Hc0%bool_decide_eq_true _].
    destruct (digit_is_plain c0 Hc0) as (Hw & Hm & Hp & _).
    cbn [trimStart]. rewrite Hw. unfold strip_sign. now rewrite Hm, Hp. }
  rewrite Hs. cbn [fst snd]. rewrite magnitude_digits by exact Hall.
  now destruct (parse_digits decimal_digit 10 s None).
Qed.

Lemma parseInt_minus (s : string) :
  all_digits s = true →
  parseInt (String "-" s) = Z.opp <$> parse_digits decimal_digit 10 s None.
Proof.
  intros Hall. unfold parseInt.
  change (strip_sign (trimStart (String "-" s))) with (true, s).
  cbn [fst snd]. now rewrite magnitude_digits.
Qed.

Lemma parseInt_pretty_pos (p : positive) :
  parse_digits decimal_digit 10 (pretty (Z.pos p)) None = Some (Z.pos p)
  ∧ all_digits (pretty (Z.pos p)) = true.
Proof.
  unfold pretty, pretty_Z, pretty, pretty_positive, pretty, pretty_N.
  destruct (decide (N.pos p = 0%N)); [discriminate |].
  split; [| now apply all_digits_pretty_go].
  destruct (parse_digits_pretty (N.pos p)) as [q Hq]; [lia |].
  rewrite Hq. simpl. f_equal. lia.
Qed.


Lemma has_hyphen_app o d : has_hyphen (o +:+ String "-" d) = true.
Proof.
  induction o as [| c o IH]; simpl.
  - reflexivity.
  - now rewrite IH, orb_true_r.
Qed.

Lemma inherited_no_hyphen key : inherited key = true → has_hyphen key = false.
Proof.
  unfold inherited. intros Hin%bool_decide_eq_true.
  repeat (apply elem_of_cons in Hin as [-> | Hin]; [reflexivity |]).
  inversion Hin.
Qed.

Lemma hyphen_not_inherited o d : inherited (o +:+ "-" +:+ d) = false.
Proof.
  destruct (inherited (o +:+ "-" +:+ d)) eqn:E; [| reflexivity].
  apply inherited_no_hyphen in E.
  change (o +:+ "-" +:+ d) with (o +:+ String "-" d) in E.
  now rewrite has_hyphen_app in E.
Qed.

Lemma interpolate_truthy_admin (o : option string) :
  truthy_str o = true → Some (interpolate o) = o.
Proof. destruct o; simpl; [reflexivity | discriminate]. Qed.

Section Facts.
Context {Number : Type} `{NumberOps Number}.
Variable number_truthy : Number → bool.

Implicit Types (st : State Number) (route : Route Number)
  (inputs : list (ScheduleInput Number)) (l : list (Schedule Number)).


Lemma with_ids_lookup keep clock inputs (i : nat) :
  with_ids keep clock inputs !! i
  = (λ s, {| schedule_id :=
               match si_id s with
               | Some n => if keep && negb (n =? 0)%Z then n
                           else clock i + Z.of_nat i
               | None => clock i + Z.of_nat i
               end;
             time := si_time s; arrival := si_arrival s;
             service := si_type s; price := si_price s |}) <$> inputs !! i.
Proof. unfold with_ids. apply list_lookup_imap. Qed.

Lemma with_ids_fresh clock inputs :
  (∀ i j : nat, (i ≤ j)%nat → (clock i ≤ clock j)%Z) →
  NoDup (schedule_id <$> with_ids false clock inputs).
Proof.
  intros Hmono. apply NoDup_alt. intros i j x.
  rewrite !list_lookup_fmap, !with_ids_lookup.
  destruct (inputs !! i) as [a |]; [| discriminate].
  destruct (inputs !! j) as [c |]; [| discriminate].
  simpl. replace (match si_id a with Some _ | None => clock i + Z.of_nat i end)
    with (clock i + Z.of_nat i) by now destruct (si_id a).
  replace (match si_id c with Some _ | None => clock j + Z.of_nat j end)
    with (clock j + Z.of_nat j) by now destruct (si_id c).
  intros [= <-] [= E].
  destruct (Nat.lt_trichotomy i j) as [Hlt | [-> | Hgt]]; [| reflexivity |].
  - specialize (Hmono i j ltac:(lia)). lia.
  - specialize (Hmono j i ltac:(lia)). lia.
Qed.

Lemma find_imap_price (g : nat → ScheduleInput Number → Schedule Number) h inputs :
  (∀ i s, time (g i s) = si_time s ∧ price (g i s) = si_price s) →
  price <$> List.find (λ s, bool_decide (Some (time s) = Some h)) (imap g inputs)
  = si_price <$> List.find (λ s, bool_decide (si_time s = h)) inputs.
Proof.
  revert g. induction inputs as [| x l IH]; intros g Hg; [reflexivity |].
  simpl. destruct (Hg 0%nat x) as [Ht Hp]. rewrite Ht.
  destruct (decide (si_time x = h)) as [E | E].
  - rewrite !bool_decide_eq_true_2 by congruence. simpl. now rewrite Hp.
  - rewrite !bool_decide_eq_false_2 by congruence. apply IH.
    intros i s. apply Hg.
Qed.

(** X14 - creating a route. For a body with all required members, the key
    is origin, hyphen, destination, which is never a member name of
    [Object.prototype]. If a route has that key the answer is 409 and
    nothing changes. Otherwise the table gains exactly that key; the base
    price is the body's, printed and parsed; the schedules keep their order;
    with a clock that does not run backwards their ids are pairwise
    distinct; and the fare of the new route at a time is the price of the
    first submitted schedule at that time, or the base price. *)
Theorem post_route_creates st (b : RouteBody Number) clock bp inputs :
  rb_basePrice b = Some bp → rb_schedules b = Some inputs →
  truthy_str (rb_origin b) = true → truthy_str (rb_destination b) = true →
  truthy_str (rb_duration b) = true → number_truthy bp = true →
  let key := interpolate (rb_origin b) +:+ "-" +:+ interpolate (rb_destination b) in
  let o := post_route number_truthy st b clock in
  inherited key = false
  ∧ (is_Some (availableRoutes st !! key) →
     o = refuse st 409 "Esta ruta ya existe. Use PUT para actualizar.")
  ∧ (availableRoutes st !! key = None →
     ∃ route,
       a_status o = 200%nat
       ∧ availableRoutes (a_state o) = <[key := route]> (availableRoutes st)
       ∧ basePrice route = parseFloat_num bp
       ∧ time <$> schedules route = si_time <$> inputs
       ∧ ((∀ i j : nat, (i ≤ j)%nat → (clock i ≤ clock j)%Z) →
          NoDup (schedule_id <$> schedules route))
       ∧ ∀ h, finalPrice route (Some h)
              = default (parseFloat_num bp)
                  (si_price <$> List.find (λ s, bool_decide (si_time s = h)) inputs)).
Proof.
  intros Hbp Hin Ho Hd Hdur Htruthy key o.
  split; [apply hyphen_not_inherited |].
  subst o. unfold post_route. rewrite Hbp, Hin, Ho, Hd, Hdur, Htruthy. simpl.
  fold key. split.
  - intros [r Hr]. now rewrite Hr.
  - intros Hnone. rewrite Hnone. eexists. split; [reflexivity |].
    split; [reflexivity |]. split; [reflexivity |]. simpl. split; [| split].
    + apply list_eq. intros i.
      rewrite !list_lookup_fmap, with_ids_lookup.
      now destruct (inputs !! i).
    + apply with_ids_fresh.
    + intros h. unfold finalPrice, selectedSchedule. simpl.
      pose proof (find_imap_price
                    (λ index s,
                       {| schedule_id :=
                            match si_id s with
                            | Some i => if false && negb (i =? 0)%Z then i
                                        else clock index + Z.of_nat index
                            | None => clock index + Z.of_nat index
                            end;
                          time := si_time s; arrival := si_arrival s;
                          service := si_type s; price := si_price s |})
                    h inputs ltac:(intros; split; reflexivity)) as Hfind.
      unfold with_ids.
      destruct (List.find _ (imap _ inputs)) as [s |];
        destruct (List.find _ inputs) as [a |]; simpl in *; congruence.
Qed.


Lemma find_app {A} (P : A → bool) (l1 l2 : list A) :
  List.find P (l1 ++ l2)
  = match List.find P l1 with Some x => Some x | None => List.find P l2 end.
Proof.
  induction l1 as [| x l1 IH]; simpl; [reflexivity |].
  now destruct (P x).
Qed.

(** X16 - adding a schedule. For an existing route and a body with all
    four members, the answer is 200 and the new schedule, with the clock as
    id and the price printed and parsed, is appended after the schedules the
    route had. The fare of a time that some schedule already served is
    unchanged, also when the new schedule has that very time; the fare of
    the new schedule's time, if none served it, is the new price. *)
Theorem post_schedule_appends st key (b : ScheduleBody Number) now_ms p route :
  inherited key = false → availableRoutes st !! key = Some route →
  sb_price b = Some p → truthy_str (sb_time b) = true →
  truthy_str (sb_arrival b) = true → truthy_str (sb_type b) = true →
  number_truthy p = true →
  ∃ o new,
    post_schedule number_truthy st key b now_ms = Some o
    ∧ a_status o = 200%nat
    ∧ availableRoutes (a_state o)
      = <[key := with_schedules route (schedules route ++ [new])]> (availableRoutes st)
    ∧ schedule_id new = now_ms ∧ price new = parseFloat_num p
    ∧ Some (time new) = sb_time b
    ∧ (∀ h, is_Some (selectedSchedule route h) →
         finalPrice (with_schedules route (schedules route ++ [new])) h
         = finalPrice route h)
    ∧ (selectedSchedule route (sb_time b) = None →
         finalPrice (with_schedules route (schedules route ++ [new])) (sb_time b)
         = parseFloat_num p)
    ∧ ∀ h, h ≠ sb_time b →
         finalPrice (with_schedules route (schedules route ++ [new])) h
         = finalPrice route h.
Proof.
  intros Hkey Hroute Hp Ht Ha Hty Htruthy.
  unfold post_schedule. rewrite Hkey, Hroute, Hp, Ht, Ha, Hty, Htruthy. simpl.
  eexists. eexists. split; [reflexivity |].
  split; [reflexivity |]. split; [reflexivity |]. split; [reflexivity |].
  split; [reflexivity |]. simpl.
  split; [now rewrite interpolate_truthy_admin |].
  unfold finalPrice, selectedSchedule, with_schedules. simpl.
  split; [| split].
  - intros h [s Hs]. rewrite find_app, Hs. reflexivity.
  - intros Hnone. rewrite find_app, Hnone. simpl.
    rewrite bool_decide_eq_true_2; [reflexivity |].
    now rewrite interpolate_truthy_admin.
  - intros h Hne. rewrite find_app.
    destruct (List.find _ (schedules route)); [reflexivity |]. simpl.
    rewrite bool_decide_eq_false_2; [reflexivity |].
    rewrite interpolate_truthy_admin by assumption. congruence.
Qed.

Lemma filter_all {A} (P : A → Prop) `{∀ x, Decision (P x)} (l : list A) :
  (∀ y, y ∈ l → P y) → filter P l = l.
Proof.
  induction l as [| x l IH]; intros Hall; [reflexivity |].
  rewrite filter_cons_True by (apply Hall; now left).
  f_equal. apply IH. intros y Hy. apply Hall. now right.
Qed.

Lemma delete_is_filter l (i : nat) s :
  NoDup (schedule_id <$> l) → l !! i = Some s →
  delete i l = filter (λ x, schedule_id x ≠ schedule_id s) l.
Proof.
  revert i. induction l as [| x l IH]; intros i Hnd Hl; [discriminate |].
  rewrite fmap_cons in Hnd. apply NoDup_cons in Hnd as [Hx Hnd].
  destruct i as [| i]; simpl in Hl.
  - injection Hl as ->. simpl. rewrite filter_cons_False by tauto.
    symmetry. apply filter_all. intros y Hy E.
    apply Hx. rewrite <- E. now apply list_elem_of_fmap_2.
  - simpl. rewrite filter_cons_True.
    + f_equal. now apply IH.
    + intros E. apply Hx. rewrite E. apply list_elem_of_fmap_2.
      now apply list_elem_of_lookup_2 in Hl.
Qed.

(** X17 - deleting a schedule. When no schedule of the route has the id
    that [parseInt] reads in the path, the answer is 404 and nothing
    changes. When one has it and the ids of the route are pairwise distinct,
    the answer is 200 with that schedule, and the route keeps, in their
    order, exactly the schedules with another id; deleting the same id again
    is answered 404. *)
Theorem delete_schedule_removes st key sid (n : Z) route :
  inherited key = false → availableRoutes st !! key = Some route →
  parseInt sid = Some n →
  ((∀ s, s ∈ schedules route → schedule_id s ≠ n) →
   delete_schedule st key sid = Some (refuse st 404 "Horario no encontrado"))
  ∧ ∀ s, s ∈ schedules route → schedule_id s = n →
      NoDup (schedule_id <$> schedules route) →
      ∃ o, delete_schedule st key sid = Some o
        ∧ a_status o = 200%nat
        ∧ a_body o = ScheduleDeleted "Horario eliminado exitosamente" s
        ∧ availableRoutes (a_state o)
          = <[key := with_schedules route
                       (filter (λ x, schedule_id x ≠ n) (schedules route))]>
              (availableRoutes st)
        ∧ delete_schedule (a_state o) key sid
          = Some (refuse (a_state o) 404 "Horario no encontrado").
Proof.
  intros Hkey Hroute Hsid. unfold delete_schedule. rewrite Hkey, Hroute. split.
  - intros Hnone.
    destruct (list_find (has_id sid) (schedules route)) as [[i s] |] eqn:Hf;
      [| reflexivity].
    apply list_find_Some in Hf as (Hl & Hid & _).
    unfold has_id in Hid. rewrite Hsid in Hid. injection Hid as Hid.
    destruct (Hnone s); [now apply list_elem_of_lookup_2 in Hl | assumption].
  - intros s Hs Hid Hnd.
    destruct (list_find (has_id sid) (schedules route)) as [[i s'] |] eqn:Hf.
    + apply list_find_Some in Hf as (Hl & Hid' & _).
      unfold has_id in Hid'. rewrite Hsid in Hid'. injection Hid' as Hid'.
      assert (s' = s) as ->.
      { apply list_elem_of_lookup in Hs as [j Hj].
        assert (i = j) as ->; [| congruence].
        apply (proj1 (NoDup_alt _) Hnd i j n);
          rewrite list_lookup_fmap; [rewrite Hl | rewrite Hj]; simpl; congruence. }
      eexists. split; [reflexivity |]. split; [reflexivity |].
      split; [reflexivity |].
      rewrite (delete_is_filter _ _ _ Hnd Hl), Hid. split; [reflexivity |].
      simpl. rewrite lookup_insert_eq. simpl.
      destruct (list_find (has_id sid) (filter _ (schedules route)))
        as [[j y] |] eqn:Hf2; [| reflexivity].
      apply list_find_Some in Hf2 as (Hl2 & Hid2 & _).
      apply list_elem_of_lookup_2, list_elem_of_filter in Hl2 as [Hne _].
      unfold has_id in Hid2. rewrite Hsid in Hid2. now injection Hid2.
    + apply list_find_None in Hf.
      rewrite Forall_forall in Hf. destruct (Hf s Hs).
      unfold has_id. now rewrite Hsid, Hid.
Qed.

Lemma find_first {A} (P : A → bool) (l : list A) (i : nat) x :
  l !! i = Some x → P x = true →
  (∀ j y, l !! j = Some y → (j < i)%nat → P y = false) →
  List.find P l = Some x.
Proof.
  revert i. induction l as [| a l IH]; intros i Hl Hx Hbefore; [discriminate |].
  destruct i as [| i]; simpl in *.
  - injection Hl as ->. now rewrite Hx.
  - rewrite (Hbefore 0%nat a) by (reflexivity || lia).
    apply (IH i); [assumption.. |].
    intros j y Hj Hlt. apply (Hbefore (S j) y); [exact Hj | lia].
Qed.

(** X18 - updating a schedule. When a schedule of the route has the id read
    in the path, the first such schedule is replaced in place: same id, the
    members present in the body, the old ones otherwise; the other schedules
    and their order are untouched. If the body gives a price and no time,
    and no earlier schedule departs at the time of that schedule, the fare
    of the route at that time becomes the new price, printed and parsed. *)
Theorem put_schedule_updates st key sid (b : ScheduleBody Number) route
    (i : nat) s :
  inherited key = false → availableRoutes st !! key = Some route →
  list_find (has_id sid) (schedules route) = Some (i, s) →
  ∃ o s',
    put_schedule number_truthy st key sid b = Some o
    ∧ a_status o = 200%nat
    ∧ a_body o = ScheduleSaved "Horario actualizado exitosamente" s'
    ∧ availableRoutes (a_state o)
      = <[key := with_schedules route (<[i := s']> (schedules route))]>
          (availableRoutes st)
    ∧ schedule_id s' = schedule_id s
    ∧ length (<[i := s']> (schedules route)) = length (schedules route)
    ∧ (∀ j : nat, j ≠ i → <[i := s']> (schedules route) !! j = schedules route !! j)
    ∧ ∀ p, sb_price b = Some p → number_truthy p = true →
        truthy_str (sb_time b) = false →
        (∀ j y, schedules route !! j = Some y → (j < i)%nat → time y ≠ time s) →
        finalPrice (with_schedules route (<[i := s']> (schedules route)))
          (Some (time s)) = parseFloat_num p.
Proof.
  intros Hkey Hroute Hfind. unfold put_schedule. rewrite Hkey, Hroute, Hfind.
  eexists. eexists. split; [reflexivity |].
  split; [reflexivity |]. split; [reflexivity |]. split; [reflexivity |].
  split; [reflexivity |]. split; [apply length_insert |].
  split; [intros j Hj; now apply list_lookup_insert_ne |].
  intros p Hp Htruthy Htime Hfirst.
  apply list_find_Some in Hfind as (Hl & _ & _).
  unfold finalPrice, selectedSchedule, with_schedules. simpl.
  rewrite Hp, Htruthy, Htime.
  match goal with |- context [<[i := ?x]> _] => set (s' := x) end.
  rewrite (find_first _ _ i s'); [reflexivity | | |].
  - apply list_lookup_insert_eq. now apply lookup_lt_Some in Hl.
  - simpl. now apply bool_decide_eq_true_2.
  - intros j y Hj Hlt. rewrite list_lookup_insert_ne in Hj by lia.
    apply bool_decide_eq_false_2. intros [= E]. now apply (Hfirst j y).
Qed.

End Facts.
End AdminFacts.

(** ** Further properties of the reservation store and of its controller *)

Module BookingMore.
Import JS BookingModel BookingOps BookingFacts.

Lemma holds_seat_active r a f booking :
  holds_seat r a f booking
  = bool_decide (routeId booking = r) && bool_decide (asiento booking = a)
    && bool_decide (fecha booking = f) && active booking.
Proof. reflexivity. Qed.

Lemma holds_seat_own booking :
  holds_seat (routeId booking) (asiento booking) (fecha booking) booking
  = active booking.
Proof.
  rewrite holds_seat_active. now rewrite !bool_decide_eq_true_2 by reflexivity.
Qed.

Lemma holds_seat_true r a f booking :
  holds_seat r a f booking = true ↔
  routeId booking = r ∧ asiento booking = a ∧ fecha booking = f
  ∧ active booking = true.
Proof.
  rewrite holds_seat_active, !andb_true_iff, !bool_decide_eq_true. tauto.
Qed.

(** Replacing a reservation by one that holds the same seats. *)
Lemma isSeatAvailable_replace (st : Store) ref old new nid r a f :
  bookings st !! ref = Some old →
  holds_seat r a f new = holds_seat r a f old →
  isSeatAvailable {| bookings := <[ref := new]> (bookings st); nextId := nid |} r a f
  = isSeatAvailable st r a f.
Proof.
  intros Hold Hsame. apply eq_true_iff_eq. rewrite !isSeatAvailable_spec. simpl.
  split; intros Hall ref' b Hl.
  - destruct (decide (ref' = ref)) as [-> | Hne].
    + rewrite Hold in Hl. injection Hl as <-. rewrite <- Hsame.
      apply (Hall ref). apply lookup_insert_eq.
    + apply (Hall ref'). now rewrite lookup_insert_ne by congruence.
  - destruct (decide (ref' = ref)) as [-> | Hne].
    + rewrite lookup_insert_eq in Hl. injection Hl as <-. rewrite Hsame.
      now apply (Hall ref).
    + rewrite lookup_insert_ne in Hl by congruence. now apply (Hall ref').
Qed.

(** Replacing a reservation by one that holds nothing only frees seats. *)
Lemma isSeatAvailable_release (st : Store) ref new nid r a f :
  active new = false →
  isSeatAvailable st r a f = true →
  isSeatAvailable {| bookings := <[ref := new]> (bookings st); nextId := nid |} r a f
  = true.
Proof.
  intros Hnew. rewrite !isSeatAvailable_spec. simpl. intros Hall ref' b Hl.
  destruct (decide (ref' = ref)) as [-> | Hne].
  - rewrite lookup_insert_eq in Hl. injection Hl as <-.
    rewrite holds_seat_active, Hnew. apply andb_false_r.
  - rewrite lookup_insert_ne in Hl by congruence. now apply (Hall ref').
Qed.

(** X20 - filing a reservation. [createBooking] files the reservation under
    the reference it drew, numbers it with [nextId] unless the data carry an
    id, and advances [nextId]; reservations under other references are
    untouched. When the data carry no id and every stored id is below
    [nextId], this stays so, and the new id differs from every stored one.
    Deleting the reservation afterwards restores the stored reservations,
    but not the counter: a number is never given twice. *)
Theorem createBooking_files (st : Store) data ref now1 now2 :
  bd_id data = None → ids_below st →
  let r := createBooking st data ref now1 now2 in
  getBookingByReference r.1 ref = Some r.2
  ∧ (∀ ref', ref' ≠ ref →
       getBookingByReference r.1 ref' = getBookingByReference st ref')
  ∧ id r.2 = JNum (nextId st) ∧ nextId r.1 = nextId st + 1
  ∧ ids_below r.1
  ∧ (∀ ref' old, bookings st !! ref' = Some old → id old ≠ id r.2)
  ∧ (bookings st !! ref = None →
       bookings (deleteBooking r.1 ref).1 = bookings st
       ∧ (deleteBooking r.1 ref).2 = true
       ∧ nextId (deleteBooking r.1 ref).1 = nextId st + 1).
Proof.
  intros Hid Hbelow r. subst r. unfold createBooking, getBookingByReference.
  simpl. rewrite Hid. simpl. split; [apply lookup_insert_eq |].
  split; [intros ref' Hne; now rewrite lookup_insert_ne by congruence |].
  split; [reflexivity |]. split; [reflexivity |]. split; [| split].
  - intros ref' b. simpl. destruct (decide (ref' = ref)) as [-> | Hne].
    + rewrite lookup_insert_eq. intros [= <-]. simpl. eexists. split; [reflexivity | lia].
    + rewrite lookup_insert_ne by congruence. intros Hl.
      destruct (Hbelow _ _ Hl) as (n & Hn & Hlt). exists n. split; [exact Hn | lia].
  - intros ref' old Hl E. destruct (Hbelow _ _ Hl) as (n & Hn & Hlt).
    rewrite Hn in E. injection E as ->. lia.
  - intros Hnone. rewrite delete_insert_id by exact Hnone.
    split; [reflexivity |]. split; [| reflexivity].
    apply bool_decide_eq_true_2. rewrite lookup_insert_eq. eauto.
Qed.


Lemma single_holder_insert_inactive (st : Store) ref new nid :
  single_holder st → active new = false →
  single_holder {| bookings := <[ref := new]> (bookings st); nextId := nid |}.
Proof.
  intros Hinv Hnew r1 r2 b1 b2. simpl.
  destruct (decide (r1 = ref)) as [-> | H1];
    [rewrite lookup_insert_eq; intros [= <-] _ Ha; congruence |].
  destruct (decide (r2 = ref)) as [-> | H2];
    [rewrite lookup_insert_eq; intros _ [= <-] _ Ha; congruence |].
  rewrite !lookup_insert_ne by congruence. apply Hinv.
Qed.

Lemma single_holder_insert_same (st : Store) ref old new nid :
  single_holder st → bookings st !! ref = Some old →
  routeId new = routeId old → asiento new = asiento old → fecha new = fecha old →
  (active new = true → active old = true) →
  single_holder {| bookings := <[ref := new]> (bookings st); nextId := nid |}.
Proof.
  intros Hinv Hold Hr Ha Hf Hact r1 r2 b1 b2. simpl.
  destruct (decide (r1 = ref)) as [-> | H1], (decide (r2 = ref)) as [-> | H2];
    rewrite ?lookup_insert_eq, ?lookup_insert_ne by congruence.
  - reflexivity.
  - intros [= <-] Hl2 A1 A2 E1 E2 E3.
    apply (Hinv ref r2 old b2); auto; congruence.
  - intros Hl1 [= <-] A1 A2 E1 E2 E3.
    apply (Hinv r1 ref b1 old); auto; congruence.
  - apply Hinv.
Qed.

Lemma single_holder_insert_free (st : Store) ref new nid :
  single_holder st →
  isSeatAvailable st (routeId new) (asiento new) (fecha new) = true →
  single_holder {| bookings := <[ref := new]> (bookings st); nextId := nid |}.
Proof.
  intros Hinv Hfree r1 r2 b1 b2. simpl. rewrite isSeatAvailable_spec in Hfree.
  destruct (decide (r1 = ref)) as [-> | H1], (decide (r2 = ref)) as [-> | H2];
    rewrite ?lookup_insert_eq, ?lookup_insert_ne by congruence.
  - reflexivity.
  - intros [= <-] Hl2 A1 A2 E1 E2 E3.
    specialize (Hfree _ _ Hl2). apply not_true_iff_false in Hfree.
    destruct Hfree. apply holds_seat_true. auto.
  - intros Hl1 [= <-] A1 A2 E1 E2 E3.
    specialize (Hfree _ _ Hl1). apply not_true_iff_false in Hfree.
    destruct Hfree. apply holds_seat_true. auto.
  - apply Hinv.
Qed.

Lemma single_holder_delete (st : Store) ref nid :
  single_holder st →
  single_holder {| bookings := delete ref (bookings st); nextId := nid |}.
Proof.
  intros Hinv r1 r2 b1 b2. simpl.
  intros Hl1%lookup_delete_Some Hl2%lookup_delete_Some.
  apply Hinv; tauto.
Qed.

(** With a single holder per seat, a seat is free once its holder is gone. *)
Lemma single_holder_freed (st : Store) ref old (m : gmap string Booking) nid :
  single_holder st → bookings st !! ref = Some old →
  (∀ ref' b, m !! ref' = Some b →
     (ref' ≠ ref ∧ bookings st !! ref' = Some b) ∨ active b = false) →
  isSeatAvailable {| bookings := m; nextId := nid |}
    (routeId old) (asiento old) (fecha old) = active old
  ∨ active old = false.
Proof.
  intros Hinv Hold Hm.
  destruct (active old) eqn:Hact; [left | now right].
  apply isSeatAvailable_spec. simpl. intros ref' b Hl.
  destruct (Hm _ _ Hl) as [[Hne Hst] | Hin].
  - apply not_true_is_false. intros (E1 & E2 & E3 & A)%holds_seat_true.
    apply Hne. apply (Hinv ref' ref b old); auto.
  - rewrite holds_seat_active, Hin. apply andb_false_r.
Qed.

(** X22 - confirming or completing keeps the seat. For a reservation that
    is not cancelled, [confirmBooking] and [completeBooking] leave the
    availability of every seat of every route and date as it was, and keep
    the store free of double holders if it was. *)
Theorem confirm_and_complete_keep_seat (st : Store) ref booking session
    now1 now2 r a f :
  bookings st !! ref = Some booking → active booking = true →
  isSeatAvailable (confirmBooking st ref session now1 now2).1 r a f
    = isSeatAvailable st r a f
  ∧ isSeatAvailable (completeBooking st ref now1 now2).1 r a f
    = isSeatAvailable st r a f
  ∧ (single_holder st →
     single_holder (confirmBooking st ref session now1 now2).1
     ∧ single_holder (completeBooking st ref now1 now2).1).
Proof.
  intros Hl Hact. unfold confirmBooking, completeBooking, updateBooking.
  rewrite Hl. simpl. split; [| split].
  - apply isSeatAvailable_replace with (old := booking); [exact Hl |].
    rewrite !holds_seat_active, Hact. reflexivity.
  - apply isSeatAvailable_replace with (old := booking); [exact Hl |].
    rewrite !holds_seat_active, Hact. reflexivity.
  - intros Hinv. split;
      apply single_holder_insert_same with (old := booking); auto.
Qed.

(** X23 - cancelling only frees. [BookingModel.cancelBooking] never makes
    an available seat unavailable. In a store without double holders, the
    seat of the cancelled reservation becomes available, the availability of
    every other seat is unchanged, and the store stays without double
    holders. *)
Theorem cancelBooking_only_frees (st : Store) ref motivo now1 now2 booking :
  bookings st !! ref = Some booking → active booking = true →
  let st' := (cancelBooking st ref motivo now1 now2).1 in
  (∀ r a f, isSeatAvailable st r a f = true → isSeatAvailable st' r a f = true)
  ∧ (∀ r a f, (r, a, f) ≠ (routeId booking, asiento booking, fecha booking) →
       isSeatAvailable st' r a f = isSeatAvailable st r a f)
  ∧ (single_holder st →
     isSeatAvailable st' (routeId booking) (asiento booking) (fecha booking) = true
     ∧ single_holder st').
Proof.
  intros Hl Hact st'. subst st'. unfold cancelBooking, updateBooking.
  rewrite Hl. unfold active in Hact. apply negb_true_iff in Hact.
  rewrite Hact. simpl. split; [| split].
  - intros r a f. now apply isSeatAvailable_release.
  - intros r a f Hne. apply isSeatAvailable_replace with (old := booking); [exact Hl |].
    rewrite !holds_seat_active. simpl.
    destruct (decide (routeId booking = r)) as [<- | Hr];
      [| now rewrite !(bool_decide_eq_false_2 (routeId booking = r)) by exact Hr].
    destruct (decide (asiento booking = a)) as [<- | Ha];
      [| now rewrite !(bool_decide_eq_false_2 (asiento booking = a)), !andb_false_r
           by exact Ha].
    destruct (decide (fecha booking = f)) as [<- | Hf]; [now destruct Hne |].
    now rewrite !(bool_decide_eq_false_2 (fecha booking = f)), !andb_false_r
      by exact Hf.
  - intros Hinv. split; [| now apply single_holder_insert_inactive].
    match goal with |- isSeatAvailable {| bookings := <[ref := ?new]> _; nextId := ?n |} _ _ _ = _ =>
      destruct (single_holder_freed st ref booking (<[ref := new]> (bookings st)) n Hinv Hl)
        as [Hfree | Hdead]
    end.
    + intros ref' b. destruct (decide (ref' = ref)) as [-> | Hne].
      * rewrite lookup_insert_eq. intros [= <-]. now right.
      * rewrite lookup_insert_ne by congruence. intros Hb. left. auto.
    + rewrite Hfree. unfold active. now rewrite Hact.
    + unfold active in Hdead. now rewrite Hact in Hdead.
Qed.

(** X24 - deleting a reservation. [deleteBooking] tells whether the
    reference had a reservation; afterwards it has none and the other
    references are untouched. Deleting never makes an available seat
    unavailable, and in a store without double holders the seat of the
    deleted reservation, if it was not cancelled, is available afterwards. *)
Theorem deleteBooking_frees (st : Store) ref :
  let r := deleteBooking st ref in
  (r.2 = true ↔ is_Some (bookings st !! ref))
  ∧ bookings r.1 !! ref = None
  ∧ (∀ ref', ref' ≠ ref → bookings r.1 !! ref' = bookings st !! ref')
  ∧ (∀ ro a f, isSeatAvailable st ro a f = true → isSeatAvailable r.1 ro a f = true)
  ∧ (single_holder st → single_holder r.1
     ∧ ∀ booking, bookings st !! ref = Some booking → active booking = true →
         isSeatAvailable r.1 (routeId booking) (asiento booking) (fecha booking)
         = true).
Proof.
  intros r. subst r. unfold deleteBooking. simpl.
  split; [apply bool_decide_eq_true |].
  split; [apply lookup_delete_eq |].
  split; [intros ref' Hne; now apply lookup_delete_ne |].
  split.
  - intros ro a f. rewrite !isSeatAvailable_spec. simpl.
    intros Hall ref' b [_ Hl]%lookup_delete_Some. now apply (Hall ref').
  - intros Hinv. split; [now apply single_holder_delete |].
    intros booking Hl Hact. apply isSeatAvailable_spec. simpl.
    intros ref' b [Hne Hb]%lookup_delete_Some.
    apply not_true_is_false. intros (E1 & E2 & E3 & A)%holds_seat_true.
    apply Hne. apply (Hinv ref ref' booking b); auto.
Qed.

(** *** The controller *)

Lemma createBooking_cases (st : Store) data validation ctl_ref ref now1 now2 :
  BookingController.isValid validation = true →
  let r := BookingController.createBooking st data validation true
             ctl_ref ref now1 now2 in
  (isSeatAvailable st (bd_routeId data) (bd_asiento data) (bd_fecha data) = false
   ∧ r.1 = st ∧ BookingController.status r.2 = 409%nat)
  ∨ (isSeatAvailable st (bd_routeId data) (bd_asiento data) (bd_fecha data) = true
     ∧ BookingController.status r.2 = 201%nat
     ∧ ∃ booking,
         r.1 = {| bookings := <[ref := booking]> (bookings st);
                  nextId := nextId st + 1 |}
         ∧ r.2 = {| BookingController.status := 201;
                    BookingController.body :=
                      BookingController.Payload "Reserva creada correctamente"
                        (BookingController.hide_email booking) (Some ctl_ref) |}
         ∧ routeId booking = bd_routeId data ∧ asiento booking = bd_asiento data
         ∧ fecha booking = bd_fecha data ∧ active booking = true
         ∧ referencia booking = ctl_ref).
Proof.
  intros Hv r. subst r. unfold BookingController.createBooking, claim.
  rewrite Hv. simpl.
  destruct (isSeatAvailable st _ _ _); simpl; [right | left; auto].
  split; [reflexivity |]. split; [reflexivity |].
  eexists. repeat split.
Qed.

Lemma reserves_run r a f reqs : ∀ st : Store,
  Forall (BookingController.reserves r a f) reqs →
  isSeatAvailable st r a f = false →
  (BookingController.run st reqs).1 = st
  ∧ BookingController.status <$> (BookingController.run st reqs).2
    = repeat 409%nat (length reqs).
Proof.
  induction reqs as [| req rest IH]; intros st Hall Hheld; [auto |].
  apply Forall_cons in Hall
    as [(data & v & c & ref & n1 & n2 & -> & Hv & <- & <- & <-) Hrest].
  cbn [BookingController.run BookingController.handle fst snd length repeat].
  destruct (createBooking_cases st data v c ref n1 n2 Hv)
    as [(_ & Hst & Hcode) | (Hfree & _)]; [| congruence].
  rewrite fmap_cons, Hst, Hcode.
  destruct (IH st Hrest Hheld) as [E1 E2]. rewrite E1, E2. auto.
Qed.

(** X25 - reservations of one seat exclude each other. Of any number of
    valid reservation requests for the same route, seat and date, served one
    after the other from a store where the seat is available, the first is
    answered 201 and every later one 409; the seat is unavailable from then
    on and the later requests change nothing. *)
Theorem reservations_are_exclusive (st : Store) r a f req reqs :
  Forall (BookingController.reserves r a f) (req :: reqs) →
  isSeatAvailable st r a f = true →
  let out := BookingController.run st (req :: reqs) in
  BookingController.status <$> out.2 = 201%nat :: repeat 409%nat (length reqs)
  ∧ isSeatAvailable out.1 r a f = false
  ∧ out.1 = (BookingController.handle st req).1.
Proof.
  intros Hall Hfree out. subst out.
  apply Forall_cons in Hall
    as [(data & v & c & ref & n1 & n2 & -> & Hv & <- & <- & <-) Hrest].
  cbn [BookingController.run BookingController.handle fst snd length repeat].
  destruct (createBooking_cases st data v c ref n1 n2 Hv)
    as [(Hheld & _) | (_ & Hcode & booking & Hst & _ & Hr & Ha & Hf & Hact & _)];
    [congruence |].
  assert (Hheld : isSeatAvailable
                    (BookingController.createBooking st data v true c ref n1 n2).1
                    (bd_routeId data) (bd_asiento data) (bd_fecha data) = false).
  { rewrite Hst. apply not_true_is_false. rewrite isSeatAvailable_spec. simpl.
    intros Hnone. specialize (Hnone ref booking (lookup_insert_eq _ _ _)).
    rewrite <- Hr, <- Ha, <- Hf, holds_seat_own in Hnone. congruence. }
  destruct (reserves_run _ _ _ reqs _ Hrest Hheld) as [E1 E2].
  rewrite fmap_cons, E1, E2, Hcode. auto.
Qed.

(** X26 - no request but a revival creates a double holder. If no two
    active reservations hold the same seat, then after any controller
    request that does not set a cancelled reservation to another state this
    is still so. *)
Theorem controller_keeps_single_holder (st : Store) (req : BookingController.Request) :
  single_holder st → ¬ BookingController.revives st req →
  single_holder (BookingController.handle st req).1.
Proof.
  intros Hinv Hrev.
  destruct req as [data v found c ref n1 n2 | ref | ref e session now
                   | ref motivo n1 n2]; simpl.
  - unfold BookingController.createBooking, claim.
    destruct (BookingController.isValid v); simpl; [| exact Hinv].
    destruct found; simpl; [| exact Hinv].
    destruct (isSeatAvailable st _ _ _) eqn:Hfree; simpl; [| exact Hinv].
    now apply single_holder_insert_free.
  - exact Hinv.
  - unfold BookingController.updateBookingStatus.
    destruct e as [e |]; [| exact Hinv].
    destruct (bool_decide (e ∈ BookingController.validStates)); simpl; [| exact Hinv].
    unfold getBookingByReference, updateBooking.
    destruct (bookings st !! ref) as [booking |] eqn:Hl; simpl; [| exact Hinv].
    destruct (active booking) eqn:Hact.
    + apply single_holder_insert_same with (old := booking); auto.
    + destruct (decide (e = "cancelada")) as [-> | Hne].
      * now apply single_holder_insert_inactive.
      * destruct Hrev. simpl. eauto.
  - unfold BookingController.cancelBooking, getBookingByReference, updateBooking.
    destruct (bookings st !! ref) as [booking |] eqn:Hl; simpl; [| exact Hinv].
    destruct (String.eqb (estado booking) "cancelada"); simpl; [exact Hinv |].
    now apply single_holder_insert_inactive.
Qed.

(** X27 - the reference in the answer is not the key. When the controller
    answers 201, the reservation carries the reference the controller
    generated and the answer repeats it, but the reservation is filed under
    the reference [BookingModel.createBooking] drew. If the two differ and
    the first is not the key of an older reservation, looking the
    reservation up or cancelling it under the reference of the answer is
    answered 404 and the seat stays taken. *)
Theorem answered_reference_is_not_the_key (st : Store) data validation
    ctl_ref ref now1 now2 motivo now3 now4 :
  BookingController.isValid validation = true →
  isSeatAvailable st (bd_routeId data) (bd_asiento data) (bd_fecha data) = true →
  ctl_ref ≠ ref → bookings st !! ctl_ref = None →
  (6 ≤ String.length ctl_ref)%nat →
  let r := BookingController.createBooking st data validation true
             ctl_ref ref now1 now2 in
  BookingController.status r.2 = 201%nat
  ∧ (∃ booking, bookings r.1 !! ref = Some booking ∧ referencia booking = ctl_ref
       ∧ BookingController.body r.2
         = BookingController.Payload "Reserva creada correctamente"
             (BookingController.hide_email booking) (Some ctl_ref))
  ∧ BookingController.status (BookingController.getBookingByReference r.1 ctl_ref)
    = 404%nat
  ∧ (BookingController.cancelBooking r.1 ctl_ref motivo now3 now4).1 = r.1
  ∧ BookingController.status
      (BookingController.cancelBooking r.1 ctl_ref motivo now3 now4).2 = 404%nat
  ∧ isSeatAvailable r.1 (bd_routeId data) (bd_asiento data) (bd_fecha data) = false.
Proof.
  intros Hv Hfree Hne Hnone Hlen r. subst r.
  destruct (createBooking_cases st data validation ctl_ref ref now1 now2 Hv)
    as [(Hheld & _) | (_ & Hcode & booking & Hst & Hresp & Hr & Ha & Hf & Hact & Href)];
    [congruence |].
  rewrite Hst, Hresp. simpl.
  assert (Hmiss : <[ref := booking]> (bookings st) !! ctl_ref = None)
    by now rewrite lookup_insert_ne by congruence.
  split; [reflexivity |]. split.
  { exists booking. rewrite lookup_insert_eq. auto. }
  unfold BookingController.getBookingByReference, BookingController.cancelBooking,
    getBookingByReference. simpl. rewrite Hmiss.
  destruct (String.eqb_spec ctl_ref "") as [-> | _]; [simpl in Hlen; lia |].
  destruct (Nat.ltb_spec (String.length ctl_ref) 6); [lia |]. simpl.
  repeat split.
  apply not_true_is_false. rewrite isSeatAvailable_spec. simpl. intros Hall.
  specialize (Hall ref booking (lookup_insert_eq _ _ _)).
  rewrite <- Hr, <- Ha, <- Hf, holds_seat_own in Hall. congruence.
Qed.

(** X28 - cancelling through the controller. An unknown reference is
    answered 404 and a cancelled reservation 400, both without any change.
    Otherwise the answer is 200, the reservation is cancelled, and with a
    non-empty reason the store is the one [BookingModel.cancelBooking] would
    leave; cancelling again is answered 400. *)
Theorem controller_cancel (st : Store) ref motivo now1 now2 :
  let r := BookingController.cancelBooking st ref motivo now1 now2 in
  (bookings st !! ref = None → r.1 = st ∧ BookingController.status r.2 = 404%nat)
  ∧ ∀ booking, bookings st !! ref = Some booking →
      (active booking = false → r.1 = st ∧ BookingController.status r.2 = 400%nat)
      ∧ (active booking = true →
         BookingController.status r.2 = 200%nat
         ∧ (∃ cancelled, bookings r.1 !! ref = Some cancelled
                         ∧ estado cancelled = "cancelada"
                         ∧ fechaCancelacion cancelled = Some now1)
         ∧ (truthy_str motivo = true →
            r.1 = (BookingModel.cancelBooking st ref motivo now1 now2).1)
         ∧ ∀ motivo' now3 now4,
             (BookingController.cancelBooking r.1 ref motivo' now3 now4).1 = r.1
             ∧ BookingController.status
                 (BookingController.cancelBooking r.1 ref motivo' now3 now4).2
               = 400%nat).
Proof.
  intros r. subst r.
  unfold BookingController.cancelBooking, BookingModel.cancelBooking,
    getBookingByReference, updateBooking.
  split.
  - intros ->. auto.
  - intros booking ->. unfold active. split.
    + intros Hact%negb_false_iff. rewrite Hact. auto.
    + intros Hact%negb_true_iff. rewrite Hact. simpl.
      split; [reflexivity |]. split.
      { eexists. rewrite lookup_insert_eq. repeat split. }
      split.
      { intros Hm. destruct motivo as [m |]; [| discriminate].
        unfold or_else. rewrite Hm. reflexivity. }
      intros motivo' now3 now4. rewrite lookup_insert_eq. simpl. auto.
Qed.

(** X29 - setting a state through the controller. A state outside
    pendiente, confirmada, cancelada, completada, or none, is answered 400,
    and an unknown reference 404, both without any change. Otherwise the
    answer is 200, the reservation gets that state and the set of references
    is unchanged; for a reservation that is not cancelled, a state other
    than cancelada leaves the availability of every seat as it was, and
    cancelada makes no available seat unavailable. *)
Theorem controller_update_status (st : Store) ref e session now :
  let r := BookingController.updateBookingStatus st ref e session now in
  ((∀ x, e = Some x → x ∉ BookingController.validStates) →
   r.1 = st ∧ BookingController.status r.2 = 400%nat)
  ∧ ∀ x, e = Some x → x ∈ BookingController.validStates →
      (bookings st !! ref = None → r.1 = st ∧ BookingController.status r.2 = 404%nat)
      ∧ ∀ booking, bookings st !! ref = Some booking →
          BookingController.status r.2 = 200%nat
          ∧ dom (bookings r.1) = dom (bookings st)
          ∧ (∃ updated, bookings r.1 !! ref = Some updated ∧ estado updated = x
                        ∧ version updated = version booking + 1)
          ∧ (active booking = true → x ≠ "cancelada" →
             ∀ ro a f, isSeatAvailable r.1 ro a f = isSeatAvailable st ro a f)
          ∧ (x = "cancelada" →
             ∀ ro a f, isSeatAvailable st ro a f = true →
                       isSeatAvailable r.1 ro a f = true).
Proof.
  intros r. subst r. unfold BookingController.updateBookingStatus. split.
  - intros Hbad. destruct e as [x |]; [| auto].
    rewrite bool_decide_eq_false_2 by now apply Hbad. auto.
  - intros x -> Hok. rewrite bool_decide_eq_true_2 by exact Hok. simpl.
    unfold getBookingByReference, updateBooking. split.
    + intros ->. auto.
    + intros booking Hl. rewrite Hl. simpl.
      split; [reflexivity |]. split.
      { rewrite dom_insert_L. apply subseteq_union_1_L, singleton_subseteq_l.
        apply elem_of_dom. eauto. }
      split.
      { eexists. rewrite lookup_insert_eq. repeat split. }
      split.
      * intros Hact Hne ro a f.
        apply isSeatAvailable_replace with (old := booking); [exact Hl |].
        rewrite !holds_seat_active, Hact. unfold active. simpl.
        destruct (String.eqb_spec x "cancelada"); [contradiction | reflexivity].
      * intros -> ro a f. now apply isSeatAvailable_release.
Qed.

End BookingMore.

(** ** The further properties on concrete data *)

Module MoreChecks.
Import JS Ledger Server Admin Spec Invariants Example Samples.

Lemma bookSeat_marks_one_seat_example :
  let trip seat booked :=
    isSeatBooked booked (Some cdmx) (Some "Guadalajara")
      (Some "2024-01-15") (Some "10:00") seat in
  let booked :=
    Ledger.bookSeat ∅ (Some cdmx) (Some "Guadalajara")
      (Some "2024-01-15") (Some "10:00") (JNum 12) in
  trip (JNum 13) booked = trip (JNum 13) ∅ ∧ trip (JStr "12") booked = true.
Proof.
  destruct (LedgerMore.bookSeat_marks_one_seat ∅ (Some cdmx) (Some "Guadalajara")
              (Some "2024-01-15") (Some "10:00") (JNum 12)
              (Some cdmx) (Some "Guadalajara") (Some "2024-01-15") (Some "10:00")
              (JStr "12")) as (Hone & Hother & _).
  split.
  - apply (Hother 12 13). lia.
  - simpl. rewrite Hone. vm_compute. reflexivity.
Defined.

Lemma getRouteKey_injective_example :
  normalize (Some cdmx) = normalize (Some (" CIUDAD DE M" +:+ String (ascii_of_N 201) "XICO"))
  ∧ normalize (Some "Guadalajara") = normalize (Some "guadalajara ")
  ∧ interpolate (Some "2024-01-15") = interpolate (Some "2024-01-15")
  ∧ interpolate (Some "10:00") = interpolate (Some "10:00").
Proof.
  apply (LedgerMore.getRouteKey_injective
           (Some cdmx) (Some "Guadalajara") (Some "2024-01-15") (Some "10:00")
           (Some (" CIUDAD DE M" +:+ String (ascii_of_N 201) "XICO"))
           (Some "guadalajara ") (Some "2024-01-15") (Some "10:00"));
    vm_compute; reflexivity.
Defined.

Lemma getRouteKey_blank_example :
  getRouteKey (Some "  ") (Some "") (Some "2024-01-15") (Some "10:00")
  = "||2024-01-15|10:00".
Proof.
  destruct (LedgerMore.getRouteKey_blank "  " "" (Some "2024-01-15") (Some "10:00"))
    as [Hblank Hnone]; [reflexivity | reflexivity |].
  now rewrite Hblank, Hnone.
Defined.

Lemma occupied_seats_agree_example :
  ∃ seats,
    response (get_occupied_seats sold (Some cdmx) (Some " guadalajara")
                (Some "2024-01-15") (Some "10:00"))
    = {| statusCode := 200; body := OccupiedBody seats |}
    ∧ JStr "12" ∈ seats.
Proof.
  destruct (ServerMore.occupied_seats_agree sold (Some cdmx) (Some " guadalajara")
              (Some "2024-01-15") (Some "10:00")) as (_ & _ & _ & Hok).
  destruct Hok as (seats & Hresp & Hseats); [reflexivity |].
  exists seats. split; [exact Hresp |].
  apply (Hseats (JNum 12)). vm_compute. reflexivity.
Defined.

Lemma unconfirmed_changes_nothing_example :
  state (get_checkout_session sold (Some "cs_404") later) = sold
  ∧ existsb writes_disk (effects (get_checkout_session sold (Some "cs_404") later))
    = false.
Proof.
  destruct (ServerMore.unconfirmed_changes_nothing sold (Some "cs_404") later)
    as (Hst & Hdisk & _); [vm_compute; reflexivity |].
  split; assumption.
Defined.

Lemma fresh_tickets_filed : tickets_filed fresh.
Proof. intros id t Hl. vm_compute in Hl. discriminate. Defined.

Lemma fresh_tickets_seated : tickets_seated fresh.
Proof. intros id t Hl. vm_compute in Hl. discriminate. Defined.

Lemma tickets_stay_filed_example :
  tickets_filed
    (run fresh [ (GetCheckoutSession (Some "cs_1"), later);
                 (GetCheckoutSession (Some "cs_2"), much_later) ]).1.
Proof. apply ServerMore.tickets_stay_filed. exact fresh_tickets_filed. Defined.

Lemma tickets_stay_seated_example :
  tickets_seated
    (run fresh [ (GetCheckoutSession (Some "cs_1"), later);
                 (GetCheckoutSession (Some "cs_2"), much_later) ]).1.
Proof. apply ServerMore.tickets_stay_seated. exact fresh_tickets_seated. Defined.

Lemma ticket_read_back_example :
  let st1 := state (get_checkout_session fresh (Some "cs_1") later) in
  get_ticket st1 "cs_1" = respond st1 200 (TicketBody (ticketData ana (now later))) [].
Proof.
  destruct (ServerMore.ticket_read_back fresh (Some "cs_1") later ana
              [(GetCheckoutSession (Some "cs_2"), much_later)] Checks.ana_paid)
    as (Hback & _).
  exact Hback.
Defined.

Lemma sold_seat_stays_sold_example :
  let st' :=
    (run (state (get_checkout_session fresh (Some "cs_2") later))
       [(GetOccupiedSeats None None None None, later)]).1 in
  post_create_checkout_session st' ana_request later
  = respond st' 409 (ErrorBody "El asiento seleccionado no está disponible") [].
Proof.
  destruct (ServerMore.sold_seat_stays_sold fresh (Some "cs_2") later luis
              [(GetOccupiedSeats None None None None, later)] ana_request later)
    as (Hconflict & _).
  - exact Checks.luis_paid.
  - vm_compute. reflexivity.
  - vm_compute. reflexivity.
  - vm_compute. reflexivity.
  - exact Hconflict.
Defined.

Lemma purchase_then_confirmation_example :
  let o := get_checkout_session fresh (Some "cs_7") stripe_after_purchase in
  is_paid o = true
  ∧ isSeatBooked (bookedSeatsByRoute (state o))
      (Some cdmx) (Some "Guadalajara") (Some "2024-01-15") (Some "10:00") (JNum 12)
    = true
  ∧ ∃ t, ticketDatabase (state o) !! "cs_7" = Some t
         ∧ t_nombre t = "Ana" ∧ t_asiento t = "12" ∧ t_precio t = pesos 30.
Proof.
  destruct (ServerMore.purchase_then_confirmation ana_request (pesos 30)
              "http://localhost:4242" "cs_7" (pesos 3000) fresh (Some "cs_7")
              stripe_after_purchase)
    as (_ & _ & Hpaid & Hseat & t & Ht & Hn & Ha & Hp & _);
    [vm_compute; reflexivity.. |].
  split; [exact Hpaid |]. split; [exact Hseat |].
  exists t. split; [exact Ht |]. split; [exact Hn |]. split; [exact Ha |].
  rewrite Hp. vm_compute. reflexivity.
Defined.


Lemma ticking_monotone (i j : nat) : (i ≤ j)%nat → (ticking i ≤ ticking j)%Z.
Proof.
  intros Hij. unfold ticking.
  assert (i / 2 ≤ j / 2)%nat by (apply Nat.Div0.div_le_mono; exact Hij). lia.
Defined.

Lemma post_route_creates_example :
  ∃ route,
    availableRoutes (a_state (post_route num_truthy fresh puebla_oaxaca ticking))
    = <["Puebla-Oaxaca" := route]> routes
    ∧ NoDup (schedule_id <$> schedules route)
    ∧ finalPrice route (Some "15:00") = pesos 520
    ∧ finalPrice route (Some "16:00") = pesos 450.
Proof.
  destruct (AdminFacts.post_route_creates num_truthy fresh puebla_oaxaca ticking
              (pesos 450)
              [ {| si_id := None; si_time := "07:00"; si_arrival := "11:30";
                   si_type := "Ejecutivo"; si_price := pesos 450 |};
                {| si_id := None; si_time := "15:00"; si_arrival := "19:30";
                   si_type := "Primera Clase"; si_price := pesos 520 |} ])
    as (_ & _ & Hnew); [reflexivity.. |].
  destruct Hnew as (route & _ & Hroutes & _ & _ & Hids & Hprice);
    [vm_compute; reflexivity |].
  exists route. split; [exact Hroutes |].
  split; [apply Hids, ticking_monotone |].
  split; rewrite Hprice; vm_compute; reflexivity.
Defined.


Lemma post_schedule_appends_example :
  ∃ o new,
    post_schedule num_truthy fresh guadalajara_key night_bus 1704880800000 = Some o
    ∧ a_status o = 200%nat
    ∧ schedule_id new = 1704880800000%Z
    ∧ finalPrice
        (with_schedules guadalajara_route (schedules guadalajara_route ++ [new]))
        (Some "23:00") = pesos 520
    ∧ finalPrice
        (with_schedules guadalajara_route (schedules guadalajara_route ++ [new]))
        (Some "10:00") = pesos 30.
Proof.
  destruct (AdminFacts.post_schedule_appends num_truthy fresh guadalajara_key night_bus
              1704880800000 (pesos 520) guadalajara_route)
    as (o & new & Ho & Hstatus & _ & Hid & _ & _ & Hold & Hnew & _);
    [vm_compute; reflexivity.. |].
  exists o, new. split; [exact Ho |]. split; [exact Hstatus |].
  split; [exact Hid |]. split.
  - change (Some "23:00") with (sb_time night_bus).
    rewrite (Hnew eq_refl). vm_compute. reflexivity.
  - rewrite (Hold (Some "10:00")); [vm_compute; reflexivity |].
    vm_compute. eexists. reflexivity.
Defined.

Lemma delete_schedule_removes_example :
  ∃ o,
    delete_schedule fresh guadalajara_key "2" = Some o
    ∧ a_body o = ScheduleDeleted "Horario eliminado exitosamente"
                   (schedule 2 "10:00" "17:30" "Primera Clase" 30)
    ∧ delete_schedule (a_state o) guadalajara_key "2"
      = Some (refuse (a_state o) 404 "Horario no encontrado").
Proof.
  destruct (AdminFacts.delete_schedule_removes fresh guadalajara_key "2" 2
              guadalajara_route) as (_ & Hthere); [vm_compute; reflexivity.. |].
  destruct (Hthere (schedule 2 "10:00" "17:30" "Primera Clase" 30))
    as (o & Ho & _ & Hbody & _ & Hagain).
  - apply list_elem_of_lookup. exists 1%nat. reflexivity.
  - reflexivity.
  - apply (bool_decide_eq_true_1 _). vm_compute. reflexivity.
  - exists o. split; [exact Ho |]. split; [exact Hbody | exact Hagain].
Defined.

Lemma put_schedule_updates_example :
  ∃ o s',
    put_schedule num_truthy fresh guadalajara_key "2" new_price = Some o
    ∧ a_body o = ScheduleSaved "Horario actualizado exitosamente" s'
    ∧ schedule_id s' = 2%Z
    ∧ finalPrice
        (with_schedules guadalajara_route (<[1%nat := s']> (schedules guadalajara_route)))
        (Some "10:00") = pesos 33.
Proof.
  destruct (AdminFacts.put_schedule_updates num_truthy fresh guadalajara_key "2"
              new_price guadalajara_route 1
              (schedule 2 "10:00" "17:30" "Primera Clase" 30))
    as (o & s' & Ho & _ & Hbody & _ & Hid & _ & _ & Hprice);
    [vm_compute; reflexivity.. |].
  exists o, s'. split; [exact Ho |]. split; [exact Hbody |].
  split; [exact Hid |].
  change (Some "10:00")
    with (Some (time (schedule 2 "10:00" "17:30" "Primera Clase" 30))).
  rewrite (Hprice (pesos 33)); [vm_compute; reflexivity | reflexivity.. |].
  intros j y Hj Hlt. destruct j as [| j]; [| lia].
  injection Hj as <-. discriminate.
Defined.

Import BookingModel BookingOps.

(** Ana's reservation is the only one of [ana_stored]. *)
Lemma ana_stored_lookup :
  ∃ booking,
    bookings ana_stored = {[ "TBLX1A2B3C" := booking ]}
    ∧ active booking = true ∧ version booking = 1
    ∧ routeId booking = JNum 2 ∧ asiento booking = JNum 12
    ∧ fecha booking = Some "2024-01-15".
Proof. eexists. split; [vm_compute; reflexivity |]. vm_compute. auto. Defined.

Lemma one_reservation_single_holder (st : Store) ref booking :
  bookings st = {[ ref := booking ]} → single_holder st.
Proof.
  intros Hst ref1 ref2 b1 b2 H1 H2 _ _ _ _ _. rewrite Hst in H1, H2.
  apply lookup_singleton_Some in H1 as [<- _].
  apply lookup_singleton_Some in H2 as [<- _]. reflexivity.
Defined.

Lemma createBooking_files_example :
  let r := createBooking clearAll (reservation "Ana") "TBLX1A2B3C"
             "2024-01-10T09:00:00.000Z" "2024-01-10T09:00:00.001Z" in
  getBookingByReference r.1 "TBLX1A2B3C" = Some r.2
  ∧ id r.2 = JNum 1 ∧ nextId r.1 = 2
  ∧ bookings (deleteBooking r.1 "TBLX1A2B3C").1 = ∅
  ∧ nextId (deleteBooking r.1 "TBLX1A2B3C").1 = 2.
Proof.
  destruct (BookingMore.createBooking_files clearAll (reservation "Ana") "TBLX1A2B3C"
              "2024-01-10T09:00:00.000Z" "2024-01-10T09:00:00.001Z")
    as (Hfiled & _ & Hid & Hnext & _ & _ & Hback).
  - reflexivity.
  - intros ref booking Hl. vm_compute in Hl. discriminate.
  - destruct Hback as (Hsame & _ & Hcounter); [reflexivity |].
    split; [exact Hfiled |]. split; [exact Hid |]. split; [exact Hnext |].
    split; [exact Hsame | exact Hcounter].
Defined.


Lemma confirm_and_complete_keep_seat_example :
  isSeatAvailable
    (confirmBooking ana_stored "TBLX1A2B3C" (Some "cs_7")
       "2024-01-11T08:00:00.000Z" "2024-01-11T08:00:00.001Z").1
    (JNum 2) (JNum 12) (Some "2024-01-15") = false
  ∧ isSeatAvailable
      (completeBooking ana_stored "TBLX1A2B3C"
         "2024-01-11T08:00:00.000Z" "2024-01-11T08:00:00.001Z").1
      (JNum 2) (JNum 12) (Some "2024-01-15") = false
  ∧ single_holder
      (confirmBooking ana_stored "TBLX1A2B3C" (Some "cs_7")
         "2024-01-11T08:00:00.000Z" "2024-01-11T08:00:00.001Z").1.
Proof.
  destruct ana_stored_lookup as (booking & Hst & Hact & _).
  destruct (BookingMore.confirm_and_complete_keep_seat ana_stored "TBLX1A2B3C" booking
              (Some "cs_7") "2024-01-11T08:00:00.000Z" "2024-01-11T08:00:00.001Z"
              (JNum 2) (JNum 12) (Some "2024-01-15"))
    as (Hconfirm & Hcomplete & Hsingle).
  - rewrite Hst. apply lookup_singleton_eq.
  - exact Hact.
  - rewrite Hconfirm, Hcomplete. split; [reflexivity |]. split; [reflexivity |].
    apply Hsingle. exact (one_reservation_single_holder _ _ _ Hst).
Defined.

Lemma cancelBooking_only_frees_example :
  let st' :=
    (BookingModel.cancelBooking ana_stored "TBLX1A2B3C" (Some "Cambio de planes")
       "2024-01-11T08:00:00.000Z" "2024-01-11T08:00:00.001Z").1 in
  isSeatAvailable ana_stored (JNum 2) (JNum 12) (Some "2024-01-15") = false
  ∧ isSeatAvailable st' (JNum 2) (JNum 12) (Some "2024-01-15") = true
  ∧ single_holder st'.
Proof.
  destruct ana_stored_lookup as (booking & Hst & Hact & _ & Hr & Ha & Hf).
  destruct (BookingMore.cancelBooking_only_frees ana_stored "TBLX1A2B3C" (Some "Cambio de planes")
              "2024-01-11T08:00:00.000Z" "2024-01-11T08:00:00.001Z" booking)
    as (_ & _ & Hfreed).
  - rewrite Hst. apply lookup_singleton_eq.
  - exact Hact.
  - destruct Hfreed as [Hfree Hsingle];
      [exact (one_reservation_single_holder _ _ _ Hst) |].
    rewrite Hr, Ha, Hf in Hfree.
    split; [reflexivity |]. split; [exact Hfree | exact Hsingle].
Defined.

Lemma deleteBooking_frees_example :
  (deleteBooking ana_stored "TBLX1A2B3C").2 = true
  ∧ (deleteBooking ana_stored "TB-CTL-1").2 = false
  ∧ isSeatAvailable (deleteBooking ana_stored "TBLX1A2B3C").1
      (JNum 2) (JNum 12) (Some "2024-01-15") = true.
Proof.
  destruct ana_stored_lookup as (booking & Hst & Hact & _ & Hr & Ha & Hf).
  destruct (BookingMore.deleteBooking_frees ana_stored "TBLX1A2B3C")
    as (Hthere & _ & _ & _ & Hfreed).
  destruct (BookingMore.deleteBooking_frees ana_stored "TB-CTL-1") as (Habsent & _).
  split; [| split].
  - apply Hthere. exists booking. rewrite Hst. apply lookup_singleton_eq.
  - destruct ((deleteBooking ana_stored "TB-CTL-1").2); [| reflexivity].
    destruct Habsent as [Hsome _]. destruct (Hsome eq_refl) as [b Hb].
    rewrite Hst in Hb. apply lookup_singleton_Some in Hb as [Hb _]. discriminate.
  - destruct Hfreed as [_ Hfree];
      [exact (one_reservation_single_holder _ _ _ Hst) |].
    rewrite <- Hr, <- Ha, <- Hf. apply Hfree; [| exact Hact].
    rewrite Hst. apply lookup_singleton_eq.
Defined.

Lemma reserve_reserves who ctl_ref ref :
  BookingController.reserves (JNum 2) (JNum 12) (Some "2024-01-15")
    (reserve who ctl_ref ref).
Proof.
  exists (reservation who), valid, ctl_ref, ref,
    "2024-01-10T09:00:00.000Z", "2024-01-10T09:00:00.001Z".
  repeat split.
Defined.

Lemma reservations_are_exclusive_example :
  let out :=
    BookingController.run clearAll
      [ reserve "Ana" "TB-CTL-1" "TBLX1A2B3C";
        reserve "Luis" "TB-CTL-2" "TBLX1A2B3D";
        reserve "Eva" "TB-CTL-3" "TBLX1A2B3E" ] in
  BookingController.status <$> out.2 = [201; 409; 409]%nat
  ∧ isSeatAvailable out.1 (JNum 2) (JNum 12) (Some "2024-01-15") = false
  ∧ out.1 = ana_stored.
Proof.
  destruct (BookingMore.reservations_are_exclusive clearAll (JNum 2) (JNum 12) (Some "2024-01-15")
              (reserve "Ana" "TB-CTL-1" "TBLX1A2B3C")
              [ reserve "Luis" "TB-CTL-2" "TBLX1A2B3D";
                reserve "Eva" "TB-CTL-3" "TBLX1A2B3E" ])
    as (Hcodes & Htaken & Hfirst).
  - repeat constructor; apply reserve_reserves.
  - reflexivity.
  - split; [exact Hcodes |]. split; [exact Htaken |].
    rewrite Hfirst. vm_compute. reflexivity.
Defined.

Lemma controller_keeps_single_holder_example :
  single_holder
    (BookingController.handle ana_stored
       (BookingController.UpdateStatus "TBLX1A2B3C" (Some "completada") None
          "2024-01-16T08:00:00.000Z")).1.
Proof.
  destruct ana_stored_lookup as (booking & Hst & Hact & _).
  apply BookingMore.controller_keeps_single_holder.
  - exact (one_reservation_single_holder _ _ _ Hst).
  - intros (b & Hb & Hdead & _). rewrite Hst in Hb.
    apply lookup_singleton_Some in Hb as [_ <-]. rewrite Hact in Hdead. discriminate.
Defined.

Lemma answered_reference_is_not_the_key_example :
  let r := BookingController.createBooking clearAll (reservation "Ana") valid true
             "TB-CTL-1" "TBLX1A2B3C"
             "2024-01-10T09:00:00.000Z" "2024-01-10T09:00:00.001Z" in
  BookingController.status r.2 = 201%nat
  ∧ BookingController.status (BookingController.getBookingByReference r.1 "TB-CTL-1")
    = 404%nat
  ∧ BookingController.status
      (BookingController.cancelBooking r.1 "TB-CTL-1" None
         "2024-01-11T08:00:00.000Z" "2024-01-11T08:00:00.001Z").2 = 404%nat
  ∧ isSeatAvailable r.1 (JNum 2) (JNum 12) (Some "2024-01-15") = false.
Proof.
  destruct (BookingMore.answered_reference_is_not_the_key clearAll (reservation "Ana") valid
              "TB-CTL-1" "TBLX1A2B3C"
              "2024-01-10T09:00:00.000Z" "2024-01-10T09:00:00.001Z"
              None "2024-01-11T08:00:00.000Z" "2024-01-11T08:00:00.001Z")
    as (Hcreated & _ & Hlookup & _ & Hcancel & Htaken).
  - reflexivity.
  - reflexivity.
  - discriminate.
  - reflexivity.
  - simpl. lia.
  - split; [exact Hcreated |]. split; [exact Hlookup |].
    split; [exact Hcancel | exact Htaken].
Defined.

Lemma controller_cancel_example :
  let r := BookingController.cancelBooking ana_stored "TBLX1A2B3C"
             (Some "Cambio de planes")
             "2024-01-11T08:00:00.000Z" "2024-01-11T08:00:00.001Z" in
  BookingController.status r.2 = 200%nat
  ∧ BookingController.status
      (BookingController.cancelBooking r.1 "TBLX1A2B3C" None
         "2024-01-12T08:00:00.000Z" "2024-01-12T08:00:00.001Z").2 = 400%nat
  ∧ BookingController.status
      (BookingController.cancelBooking ana_stored "TB-CTL-1" None
         "2024-01-11T08:00:00.000Z" "2024-01-11T08:00:00.001Z").2 = 404%nat.
Proof.
  destruct ana_stored_lookup as (booking & Hst & Hact & _).
  destruct (BookingMore.controller_cancel ana_stored "TBLX1A2B3C" (Some "Cambio de planes")
              "2024-01-11T08:00:00.000Z" "2024-01-11T08:00:00.001Z")
    as [_ Hthere].
  destruct (Hthere booking) as [_ Hactive];
    [rewrite Hst; apply lookup_singleton_eq |].
  destruct (Hactive Hact) as (Hok & _ & _ & Hagain).
  destruct (BookingMore.controller_cancel ana_stored "TB-CTL-1" None
              "2024-01-11T08:00:00.000Z" "2024-01-11T08:00:00.001Z")
    as [Habsent _].
  split; [exact Hok |]. split.
  - apply Hagain.
  - apply Habsent. rewrite Hst. apply lookup_singleton_ne. discriminate.
Defined.

Lemma controller_update_status_example :
  let r := BookingController.updateBookingStatus ana_stored "TBLX1A2B3C"
             (Some "confirmada") (Some "cs_7") "2024-01-11T08:00:00.000Z" in
  BookingController.status r.2 = 200%nat
  ∧ isSeatAvailable r.1 (JNum 2) (JNum 12) (Some "2024-01-15") = false
  ∧ BookingController.status
      (BookingController.updateBookingStatus ana_stored "TBLX1A2B3C"
         (Some "pagada") None "2024-01-11T08:00:00.000Z").2 = 400%nat.
Proof.
  destruct ana_stored_lookup as (booking & Hst & Hact & _).
  destruct (BookingMore.controller_update_status ana_stored "TBLX1A2B3C"
              (Some "confirmada") (Some "cs_7") "2024-01-11T08:00:00.000Z")
    as [_ Hvalid].
  destruct (Hvalid "confirmada" eq_refl) as [_ Hthere];
    [apply (bool_decide_eq_true_1 _); vm_compute; reflexivity |].
  destruct (Hthere booking) as (Hok & _ & _ & Hkeeps & _);
    [rewrite Hst; apply lookup_singleton_eq |].
  destruct (BookingMore.controller_update_status ana_stored "TBLX1A2B3C"
              (Some "pagada") None "2024-01-11T08:00:00.000Z")
    as [Hinvalid _].
  split; [exact Hok |]. split.
  - rewrite Hkeeps; [reflexivity | exact Hact | discriminate].
  - apply Hinvalid. intros x [= <-] Hin.
    apply (bool_decide_eq_true_2 _) in Hin. vm_compute in Hin. discriminate.
Defined.

End MoreChecks.
